(** * Querido Diario: the gazette item pipelines

    A shallow embedding of [data_collection/gazette/pipelines.py]: the date
    gate, the normalizer of default values, the files pipeline with its
    file-system store, and the SQL sink, followed by the properties the
    specification states about them and by further properties of the same
    code. The mapper of [gazette/mapeadores/mapeadoragape.py] comes last.

    Python objects are modelled structurally: a [str] is a [string], [bytes]
    a list of bytes, a dict-like item a finite map from field names to
    values, an exception a constructor of [exn], a call that may raise a
    function into [result]. *)

From Stdlib Require Import ZArith Lia Ascii String Strings.Byte List Bool.
From stdpp Require Import base option list gmap strings.

(** ** Exceptions and results *)

Inductive exn : Type :=
| KeyError (key : string)
| AttributeError (attr : string)
| TypeError
| ValueError
| DropItem (msg : string)
| FileException (msg : string)
| OSError (msg : string).

Inductive result (A : Type) : Type :=
| Ok (a : A)
| Raise (e : exn).

Arguments Ok {A} a.
Arguments Raise {A} e.

#[global] Instance result_ret : MRet result := fun _ a => Ok a.

#[global] Instance result_bind : MBind result := fun _ _ k r =>
  match r with
  | Ok a => k a
  | Raise e => Raise e
  end.

(** ** Text helpers *)

Open Scope N_scope.

Definition is_digit (c : ascii) : bool :=
  (48 <=? N_of_ascii c) && (N_of_ascii c <=? 57).

Definition digit_char (n : N) : ascii := ascii_of_N (48 + n).

Definition digit_val (c : ascii) : N := N_of_ascii c - 48.

(** [n] written in decimal on at least [w] digits, zero padded: the
    conversion [%0wd]. *)
Fixpoint dec_digits (fuel : nat) (n : N) : list ascii :=
  match fuel with
  | O => []
  | S fuel' =>
      if n <? 10 then [digit_char n]
      else dec_digits fuel' (n / 10) ++ [digit_char (n mod 10)]
  end.

Fixpoint fmt_d (w : nat) (n : N) : list ascii :=
  match w with
  | O => if n =? 0 then [] else dec_digits (N.size_nat n) n
  | S w' => fmt_d w' (n / 10) ++ [digit_char (n mod 10)]
  end.

(** [int(s)] on a run of decimal digits. *)
Definition int_of_digits (l : list ascii) : N :=
  fold_left (fun acc c => 10 * acc + digit_val c) l 0.

Definition str (l : list ascii) : string := string_of_list_ascii l.
Definition chars (s : string) : list ascii := list_ascii_of_string s.

(** ** Dates and instants ([datetime.date], [datetime.datetime]) *)

Record date : Type := mkDate { year : N; month : N; day : N }.

Record datetime : Type := mkDateTime {
  dt_date : date;
  hour : N;
  minute : N;
  second : N;
  microsecond : N
}.

Definition is_leap (y : N) : bool :=
  (y mod 4 =? 0) && (negb (y mod 100 =? 0) || (y mod 400 =? 0)).

Definition days_in_month (y m : N) : N :=
  match m with
  | 2 => if is_leap y then 29 else 28
  | 4 | 6 | 9 | 11 => 30
  | _ => 31
  end.

(** The range checks of the [date] and [datetime] constructors. *)
Definition valid_date (d : date) : bool :=
  (1 <=? year d) && (year d <=? 9999) &&
  (1 <=? month d) && (month d <=? 12) &&
  (1 <=? day d) && (day d <=? days_in_month (year d) (month d)).

Definition valid_datetime (t : datetime) : bool :=
  valid_date (dt_date t) &&
  (hour t <? 24) && (minute t <? 60) && (second t <? 60) &&
  (microsecond t <? 1000000).

(** [date.isoformat()], which is also [str(date)]. *)
Definition date_isoformat (d : date) : list ascii :=
  fmt_d 4 (year d) ++ chars "-" ++ fmt_d 2 (month d) ++ chars "-" ++
  fmt_d 2 (day d).

(** [datetime.isoformat(sep)] for a naive instant: the fraction is written
    only when the microsecond is not zero. *)
Definition time_isoformat (t : datetime) : list ascii :=
  fmt_d 2 (hour t) ++ chars ":" ++ fmt_d 2 (minute t) ++ chars ":" ++
  fmt_d 2 (second t) ++
  (if microsecond t =? 0 then []
   else chars "." ++ fmt_d 6 (microsecond t)).

Definition datetime_isoformat (sep : ascii) (t : datetime) : list ascii :=
  date_isoformat (dt_date t) ++ [sep] ++ time_isoformat t.

(** The order of [date] objects. *)
Definition date_ltb (a b : date) : bool :=
  (year a <? year b) ||
  ((year a =? year b) &&
   ((month a <? month b) ||
    ((month a =? month b) && (day a <? day b)))).

(** ** [datetime.strptime]

    The format is compiled to a regular expression, one group per
    directive, matched against the start of the text with backtracking and
    without regard to case; text left over after the match is an error,
    and so is a field combination the [datetime] constructor refuses.
    The model covers the directives the pipelines use. *)

Inductive cls : Type :=
| CDigit
| CRange (lo hi : ascii)
| CChar (c : ascii).

Inductive directive : Type := DY | Dm | Dd | DH | DM | DS | Df.

Inductive token : Type :=
| TLit (c : ascii)
| TDir (d : directive).

Definition lower (c : ascii) : ascii :=
  let n := N_of_ascii c in
  if (65 <=? n) && (n <=? 90) then ascii_of_N (n + 32) else c.

Definition ci_eqb (a b : ascii) : bool := Ascii.eqb (lower a) (lower b).

Definition cls_match (k : cls) (c : ascii) : bool :=
  match k with
  | CDigit => is_digit c
  | CRange lo hi => (N_of_ascii lo <=? N_of_ascii c) && (N_of_ascii c <=? N_of_ascii hi)
  | CChar x => ci_eqb x c
  end.

(** The alternatives of each directive, in the order the expression tries
    them. *)
Definition directive_alts (d : directive) : list (list cls) :=
  let r := CRange in
  match d with
  | DY => [[CDigit; CDigit; CDigit; CDigit]]
  | Dm => [[CChar "1"; r "0" "2"]; [CChar "0"; r "1" "9"]; [r "1" "9"]]
  | Dd => [[CChar "3"; r "0" "1"]; [r "1" "2"; CDigit]; [CChar "0"; r "1" "9"];
           [r "1" "9"]; [CChar " "; r "1" "9"]]
  | DH => [[CChar "2"; r "0" "3"]; [r "0" "1"; CDigit]; [CDigit]]
  | DM => [[r "0" "5"; CDigit]; [CDigit]]
  | DS => [[CChar "6"; r "0" "1"]; [r "0" "5"; CDigit]; [CDigit]]
  | Df => [repeat CDigit 6; repeat CDigit 5; repeat CDigit 4;
           repeat CDigit 3; repeat CDigit 2; repeat CDigit 1]
  end%char.

Definition directive_of_char (c : ascii) : option directive :=
  match c with
  | "Y" => Some DY | "m" => Some Dm | "d" => Some Dd | "H" => Some DH
  | "M" => Some DM | "S" => Some DS | "f" => Some Df
  | _ => None
  end%char.

Fixpoint compile_format (f : list ascii) : option (list token) :=
  match f with
  | [] => Some []
  | "%"%char :: "%"%char :: f' => cons (TLit "%") <$> compile_format f'
  | "%"%char :: c :: f' =>
      match directive_of_char c with
      | Some d => cons (TDir d) <$> compile_format f'
      | None => None
      end
  | c :: f' => cons (TLit c) <$> compile_format f'
  end.

(** One alternative against the start of the text: the matched prefix and
    the rest. *)
Fixpoint match_seq (a : list cls) (s : list ascii) : option (list ascii * list ascii) :=
  match a, s with
  | [], _ => Some ([], s)
  | k :: a', c :: s' =>
      if cls_match k c then
        match match_seq a' s' with
        | Some (m, rest) => Some (c :: m, rest)
        | None => None
        end
      else None
  | _ :: _, [] => None
  end.

(** The first alternative that matches and lets the rest of the expression
    match. *)
Fixpoint try_alts {R : Type} (alts : list (list cls)) (s : list ascii)
    (k : list ascii -> list ascii -> option R) : option R :=
  match alts with
  | [] => None
  | a :: alts' =>
      match match_seq a s with
      | Some (m, rest) =>
          match k m rest with
          | Some r => Some r
          | None => try_alts alts' s k
          end
      | None => try_alts alts' s k
      end
  end.

Definition groups : Type := list (directive * list ascii).

Fixpoint match_tokens (p : list token) (s : list ascii) : option (groups * list ascii) :=
  match p with
  | [] => Some ([], s)
  | TLit c :: p' =>
      match s with
      | c' :: s' => if ci_eqb c c' then match_tokens p' s' else None
      | [] => None
      end
  | TDir d :: p' =>
      try_alts (directive_alts d) s (fun m rest =>
        match match_tokens p' rest with
        | Some (g, rest') => Some ((d, m) :: g, rest')
        | None => None
        end)
  end.

Definition directive_eqb (a b : directive) : bool :=
  match a, b with
  | DY, DY | Dm, Dm | Dd, Dd | DH, DH | DM, DM | DS, DS | Df, Df => true
  | _, _ => false
  end.

Fixpoint group (d : directive) (g : groups) : option (list ascii) :=
  match g with
  | [] => None
  | (d', m) :: g' => if directive_eqb d d' then Some m else group d g'
  end.

Definition int_group (d : directive) (default : N) (g : groups) : N :=
  match group d g with
  | Some m => int_of_digits m
  | None => default
  end.

(** The fraction is padded with zeros on the right to six digits. *)
Definition fraction_group (g : groups) : N :=
  match group Df g with
  | Some m => int_of_digits (m ++ repeat "0"%char (6 - length m))
  | None => 0
  end.

Definition datetime_of_groups (g : groups) : datetime :=
  mkDateTime
    (mkDate (int_group DY 1900 g) (int_group Dm 1 g) (int_group Dd 1 g))
    (int_group DH 0 g) (int_group DM 0 g) (int_group DS 0 g)
    (fraction_group g).

Definition strptime (text format : string) : result datetime :=
  match compile_format (chars format) with
  | None => Raise ValueError
  | Some p =>
      match match_tokens p (chars text) with
      | Some (g, []) =>
          let t := datetime_of_groups g in
          if valid_datetime t then Ok t else Raise ValueError
      | _ => Raise ValueError
      end
  end.

Close Scope N_scope.

(** ** Items, spiders and the objects they carry *)

(** The scalar values a gazette item holds. *)
Inductive value : Type :=
| VNone
| VBool (b : bool)
| VStr (s : string)
| VDate (d : date)
| VDateTime (t : datetime).

(** [str(v)]. *)
Definition py_str (v : value) : string :=
  match v with
  | VNone => "None"
  | VBool true => "True"
  | VBool false => "False"
  | VStr s => s
  | VDate d => str (date_isoformat d)
  | VDateTime t => str (datetime_isoformat " " t)
  end.

Record Request : Type := mkRequest {
  req_method : string;
  req_url : string;
  req_headers : list (string * string)
}.

Record Response : Type := mkResponse {
  resp_status : N;
  resp_body : list byte;
  resp_flags : list string
}.

(** One entry of [item["files"]]: the dict the files pipeline reports for a
    file reference. *)
Record FileInfo : Type := mkFileInfo {
  fi_url : string;
  fi_path : string;
  fi_checksum : string;
  fi_status : string
}.

(** [file_requests] holds request objects until [item_completed] replaces
    them by their text. *)
Inductive requests_field : Type :=
| ReqObjects (l : list Request)
| ReqText (l : list string).

(** A gazette item: the scalar fields by name, and the three list-valued
    fields ([None] when the key is not set). *)
Record Item : Type := mkItem {
  scalars : gmap string value;
  files : option (list FileInfo);
  file_urls : option (list string);
  file_requests : option requests_field
}.

Definition set_scalar (k : string) (v : value) (item : Item) : Item :=
  mkItem (<[k := v]> (scalars item)) (files item) (file_urls item) (file_requests item).

Definition set_files (l : list FileInfo) (item : Item) : Item :=
  mkItem (scalars item) (Some l) (file_urls item) (file_requests item).

Definition set_file_requests (r : requests_field) (item : Item) : Item :=
  mkItem (scalars item) (files item) (file_urls item) (Some r).

(** [item[k]] and [item.get(k)] on a scalar field. *)
Definition getitem (item : Item) (k : string) : result value :=
  match scalars item !! k with
  | Some v => Ok v
  | None => Raise (KeyError k)
  end.

Definition item_get (item : Item) (k : string) : value :=
  default VNone (scalars item !! k).

(** The attributes of a spider the pipelines read; an attribute a spider
    class does not define is [None] (the empty name, for [name]). *)
Record Spider : Type := mkSpider {
  name : string;
  TERRITORY_ID : option string;
  start_date : option date;
  download_file_headers : option (list (string * string))
}.

(** ** GazetteDateFilteringPipeline *)

Module GazetteDateFilteringPipeline.

(** [a > v] for a date [a]: only another date (and no datetime) compares. *)
Definition date_gt (a : date) (v : value) : result bool :=
  match v with
  | VDate b => Ok (date_ltb b a)
  | _ => Raise TypeError
  end.

Definition process_item (item : Item) (spider : Spider) : result Item :=
  match start_date spider with
  | Some sd =>
      older ← date_gt sd (item_get item "date");
      if older : bool
      then Raise (DropItem ("Droping all items before " +:+ str (date_isoformat sd)))
      else Ok item
  | None => Ok item
  end.

End GazetteDateFilteringPipeline.

(** ** DefaultValuesPipeline *)

Module DefaultValuesPipeline.

(** [utcnow] is the reading of the clock, [dt.datetime.utcnow()]. *)
Definition process_item (utcnow : datetime) (item : Item) (spider : Spider) : result Item :=
  match TERRITORY_ID spider with
  | None => Raise (AttributeError "TERRITORY_ID")
  | Some territory =>
      let item := set_scalar "territory_id" (VStr territory) item in
      d ← getitem item "date";
      let item := set_scalar "date" (VStr (py_str d)) item in
      let item :=
        set_scalar "scraped_at"
          (VStr (str (datetime_isoformat "T" utcnow) +:+ "Z")) item in
      Ok item
  end.

End DefaultValuesPipeline.

(** ** SQLDatabasePipeline *)

(** A row: the keyword arguments [process_item] builds a [Gazette] from. *)
Record Gazette : Type := mkGazette {
  source_text : value;
  date_ : date;
  edition_number : value;
  is_extra_edition : value;
  power : value;
  scraped_at : datetime;
  territory_id : value;
  file_path_ : string;
  file_url : string;
  file_checksum : string
}.

(** The database behind the session, the session's pending objects, and
    the spider's log. [commits] counts the commits attempted so far and
    [sessions] the sessions opened and not yet closed. *)
Record World : Type := mkWorld {
  rows : list Gazette;
  pending : list Gazette;
  commits : nat;
  sessions : nat;
  log : list string
}.

(** The engine [initialize_database] returns: the database it connects to
    and the spiders it registers, each with its territory and its first
    date. *)
Record Engine : Type := mkEngine {
  engine_url : string;
  territory_spider_map : list (string * string * date)
}.

Definition initialize_database (database_url : string)
    (territory_spider_map : list (string * string * date)) : Engine :=
  mkEngine database_url territory_spider_map.

Module SQLDatabasePipeline.

(** [Session] is the session factory, bound to the engine once the spider
    is opened. *)
Record t : Type := mk {
  database_url : option string;
  Session : option Engine
}.

Definition from_crawler (QUERIDODIARIO_DATABASE_URL : option string) : t :=
  mk QUERIDODIARIO_DATABASE_URL None.

(** The spiders of the project (the classes the spider loader lists) that
    have a name, a territory and a start date. *)
Definition _generate_territory_spider_map (classes : list Spider)
    : list (string * string * date) :=
  omap (fun spider_class =>
          match TERRITORY_ID spider_class, start_date spider_class with
          | Some territory_id, Some date_from =>
              if negb (String.eqb (name spider_class) "") &&
                 negb (String.eqb territory_id "")
              then Some (name spider_class, territory_id, date_from)
              else None
          | _, _ => None
          end) classes.

(** [open_spider]: the database is initialized, and the session factory
    bound to its engine, only when a database URL is configured. *)
Definition open_spider (classes : list Spider) (self : t) : t :=
  match database_url self with
  | Some url =>
      let territory_spider_map := _generate_territory_spider_map classes in
      let engine := initialize_database url territory_spider_map in
      mk (database_url self) (Some engine)
  | None => self
  end.

Section Persistence.

(** What the persistence layer answers to the [n]-th commit of the run:
    [None] when the transaction commits, the arguments of the
    [SQLAlchemyError] when it raises. *)
Context (commit_outcome : nat -> option string).

Definition session_open (w : World) : World :=
  mkWorld (rows w) [] (commits w) (S (sessions w)) (log w).

Definition session_add (g : Gazette) (w : World) : World :=
  mkWorld (rows w) (pending w ++ [g]) (commits w) (sessions w) (log w).

Definition session_commit (w : World) : option string * World :=
  match commit_outcome (commits w) with
  | None =>
      (None, mkWorld (rows w ++ pending w) [] (S (commits w)) (sessions w) (log w))
  | Some args =>
      (Some args, mkWorld (rows w) (pending w) (S (commits w)) (sessions w) (log w))
  end.

Definition session_rollback (w : World) : World :=
  mkWorld (rows w) [] (commits w) (sessions w) (log w).

Definition session_close (w : World) : World :=
  mkWorld (rows w) [] (commits w) (pred (sessions w)) (log w).

Definition logger_warning (msg : string) (w : World) : World :=
  mkWorld (rows w) (pending w) (commits w) (sessions w) (log w ++ [msg]).

(** The fields of [gazette_item] that do not depend on the file. *)
Record gazette_item : Type := mk_gazette_item {
  gi_source_text : value;
  gi_date : date;
  gi_edition_number : value;
  gi_is_extra_edition : value;
  gi_power : value;
  gi_scraped_at : datetime;
  gi_territory_id : value
}.

Definition strptime_value (v : value) (format : string) : result datetime :=
  match v with
  | VStr s => strptime s format
  | _ => Raise TypeError
  end.

Definition make_gazette_item (item : Item) : result gazette_item :=
  d ← strptime_value (item_get item "date") "%Y-%m-%d";
  t ← strptime_value (item_get item "scraped_at") "%Y-%m-%dT%H:%M:%S.%fZ";
  Ok (mk_gazette_item (item_get item "source_text") (dt_date d)
        (item_get item "edition_number") (item_get item "is_extra_edition")
        (item_get item "power") t (item_get item "territory_id")).

Definition make_gazette (gi : gazette_item) (file_info : FileInfo) : Gazette :=
  mkGazette (gi_source_text gi) (gi_date gi) (gi_edition_number gi)
    (gi_is_extra_edition gi) (gi_power gi) (gi_scraped_at gi)
    (gi_territory_id gi)
    (fi_path file_info) (fi_url file_info) (fi_checksum file_info).

Definition warning_message (g : Gazette) (args : string) : string :=
  "Something wrong has happened when adding the gazette in the database. " +:+
  "Date: " +:+ str (date_isoformat (date_ g)) +:+ ". " +:+
  "File Checksum: " +:+ file_checksum g +:+ ". " +:+
  "Details: " +:+ args.

(** The body of the loop over [item["files"]]. *)
Definition persist_file_info (gi : gazette_item) (w : World) (file_info : FileInfo) : World :=
  let already_downloaded := String.eqb (fi_status file_info) "uptodate" in
  if already_downloaded then w
  else
    let gazette := make_gazette gi file_info in
    let w := session_add gazette w in
    match session_commit w with
    | (None, w) => w
    | (Some args, w) =>
        session_rollback (logger_warning (warning_message gazette args) w)
    end.

Definition process_item (self : t) (item : Item) (w : World) : result Item * World :=
  match database_url self with
  | None => (Ok item, w)
  | Some _ =>
      match Session self with
      | None => (Raise (AttributeError "Session"), w)
      | Some _ =>
          let w := session_open w in
          match make_gazette_item item with
          | Raise e => (Raise e, w)
          | Ok gi =>
              let w := fold_left (persist_file_info gi) (default [] (files item)) w in
              (Ok item, session_close w)
          end
      end
  end.

End Persistence.

End SQLDatabasePipeline.

(** ** Paths ([pathlib], POSIX flavour) *)

Module pathlib.

Fixpoint split_on (sep : ascii) (s : string) : list string :=
  match s with
  | EmptyString => [""]
  | String c s' =>
      if Ascii.eqb c sep then "" :: split_on sep s'
      else
        match split_on sep s' with
        | x :: xs => String c x :: xs
        | [] => [String c ""]
        end
  end.

Fixpoint join (sep : string) (l : list string) : string :=
  match l with
  | [] => ""
  | [x] => x
  | x :: l' => x +:+ sep +:+ join sep l'
  end.

Definition startswith (c : ascii) (s : string) : bool :=
  match s with
  | String x _ => Ascii.eqb x c
  | EmptyString => false
  end.

Fixpoint endswith (c : ascii) (s : string) : bool :=
  match s with
  | EmptyString => false
  | String x EmptyString => Ascii.eqb x c
  | String _ s' => endswith c s'
  end.

(** [posixpath.join] of the segments given to the constructor. *)
Definition join2 (path b : string) : string :=
  if startswith "/" b then b
  else if String.eqb path "" || endswith "/" path then path +:+ b
  else path +:+ "/" +:+ b.

Definition posix_join (segments : list string) : string :=
  match segments with
  | [] => ""
  | a :: l => fold_left join2 l a
  end.

(** A parsed path: the root ([""], ["/"] or ["//"]) and the components. *)
Record PurePath : Type := mkPath { root : string; parts : list string }.

Definition root_of (s : string) : string :=
  match s with
  | String a s1 =>
      if Ascii.eqb a "/" then
        match s1 with
        | String b s2 =>
            if Ascii.eqb b "/" then
              match s2 with
              | String c _ => if Ascii.eqb c "/" then "/" else "//"
              | EmptyString => "//"
              end
            else "/"
        | EmptyString => "/"
        end
      else ""
  | EmptyString => ""
  end.

Definition is_part (x : string) : bool :=
  negb (String.eqb x "") && negb (String.eqb x ".").

Definition parse_path (s : string) : PurePath :=
  mkPath (root_of s) (List.filter is_part (split_on "/" s)).

(** The constructor [Path] applied to segments. *)
Definition Path (segments : list string) : PurePath :=
  parse_path (posix_join segments).

(** [str(path)]. *)
Definition to_str (p : PurePath) : string :=
  match root p, parts p with
  | EmptyString, [] => "."
  | r, l => r +:+ join "/" l
  end.

(** [path.name]. *)
Definition name (p : PurePath) : string := List.last (parts p) "".

(** [path.parent]. *)
Definition parent (p : PurePath) : PurePath :=
  mkPath (root p) (removelast (parts p)).

Fixpoint rfind (c : ascii) (s : string) : option nat :=
  match s with
  | EmptyString => None
  | String x s' =>
      match rfind c s' with
      | Some i => Some (S i)
      | None => if Ascii.eqb x c then Some 0 else None
      end
  end.

Fixpoint drop_chars (n : nat) (s : string) : string :=
  match n, s with
  | S n', String _ s' => drop_chars n' s'
  | _, _ => s
  end.

(** [path.suffix]: the name from its last dot on, unless that dot starts
    or ends the name. *)
Definition suffix (p : PurePath) : string :=
  let n := name p in
  match rfind "." n with
  | Some i =>
      if (0 <? i) && (i <? String.length n - 1) then drop_chars i n else ""
  | None => ""
  end.

(** [fnmatch] with the wildcards [*] and [?]; a bracket is read as itself
    (the names the pipeline globs for are digests, free of all three). *)
Fixpoint fnmatch (pat : string) : string -> bool :=
  match pat with
  | EmptyString => fun s => String.eqb s ""
  | String c pat' =>
      if Ascii.eqb c "*" then
        fix star (s : string) : bool :=
          fnmatch pat' s ||
          match s with
          | String _ s' => star s'
          | EmptyString => false
          end
      else if Ascii.eqb c "?" then fun s =>
        match s with
        | String _ s' => fnmatch pat' s'
        | EmptyString => false
        end
      else fun s =>
        match s with
        | String x s' => Ascii.eqb c x && fnmatch pat' s'
        | EmptyString => false
        end
  end.

End pathlib.

(** ** The storage root *)

(** A stored file: its modification time (seconds since the epoch) and its
    content. *)
Record File : Type := mkFile { st_mtime : Z; content : list byte }.

(** The files under the storage root, by absolute path, in directory
    order. Directories are implicit: a path is a directory when a stored
    file lies below it. *)
Definition Disk : Type := list (pathlib.PurePath * File).

#[global] Instance PurePath_eq_dec : EqDecision pathlib.PurePath.
Proof. solve_decision. Defined.

Definition disk_lookup (disk : Disk) (p : pathlib.PurePath) : option File :=
  snd <$> List.find (fun e => bool_decide (fst e = p)) disk.

Fixpoint disk_write (disk : Disk) (p : pathlib.PurePath) (f : File) : Disk :=
  match disk with
  | [] => [(p, f)]
  | (q, g) :: disk' =>
      if bool_decide (q = p) then (p, f) :: disk' else (q, g) :: disk_write disk' p f
  end.

(** [q] with the prefix [l] taken off, when [q] begins with [l]. *)
Fixpoint strip_prefix (l q : list string) : option (list string) :=
  match l, q with
  | [], _ => Some q
  | x :: l', y :: q' => if String.eqb x y then strip_prefix l' q' else None
  | _ :: _, [] => None
  end.

(** The entry of directory [dir] through which the path [q] goes, when
    [q] lies below [dir]. *)
Definition child_of (dir q : pathlib.PurePath) : option string :=
  if String.eqb (pathlib.root dir) (pathlib.root q) then
    match strip_prefix (pathlib.parts dir) (pathlib.parts q) with
    | Some (x :: _) => Some x
    | _ => None
    end
  else None.

Definition below (dir q : pathlib.PurePath) : bool :=
  match child_of dir q with
  | Some _ => true
  | None => false
  end.

(** [p] is a directory: a stored file lies below it. *)
Definition is_dir (disk : Disk) (p : pathlib.PurePath) : bool :=
  existsb (fun e : pathlib.PurePath * File => below p (fst e)) disk.

(** A stored file lies on the way to [p]: a component of [p] other than
    the last is no directory. *)
Definition file_on_the_way (disk : Disk) (p : pathlib.PurePath) : bool :=
  existsb (fun e : pathlib.PurePath * File => below (fst e) p) disk.

(** A list without its repetitions, each element where it comes first. *)
Fixpoint dedup (l : list string) : list string :=
  match l with
  | [] => []
  | x :: l' => x :: List.filter (fun y => negb (String.eqb y x)) (dedup l')
  end.

(** The names of the entries of directory [dir], files and directories
    alike, in directory order. *)
Definition listdir (disk : Disk) (dir : pathlib.PurePath) : list string :=
  dedup (omap (fun e : pathlib.PurePath * File => child_of dir (fst e)) disk).

(** [dir.glob(pattern)] for a pattern of one component: the names of the
    matching entries. *)
Definition glob (disk : Disk) (dir : pathlib.PurePath) (pattern : string) : list string :=
  List.filter (pathlib.fnmatch pattern) (listdir disk dir).

(** What [stat_file] reports for a file that exists; the empty dict it
    returns for a missing file is [None]. *)
Record Stat : Type := mkStat { last_modified : Z; checksum : string }.

(** ** The framework's file-system store ([FSFilesStore])

    The base class of the store, as far as the subclass calls it. *)

Module FSFilesStore.

Section Store.

Context (md5sum : list byte -> string) (basedir : string).

Definition _get_filesystem_path (path : string) : pathlib.PurePath :=
  pathlib.Path [basedir; path].

(** The file is stat'ed, then opened and read: a missing file gives the
    empty dict, a directory makes [open] raise. *)
Definition stat_file (disk : Disk) (path : string) : result (option Stat) :=
  let absolute_path := _get_filesystem_path path in
  match disk_lookup disk absolute_path with
  | Some f => Ok (Some (mkStat (st_mtime f) (md5sum (content f))))
  | None =>
      if is_dir disk absolute_path then Raise (OSError "IsADirectoryError")
      else Ok None
  end.

(** The directories of the path are made, then the file is written: a
    file where a directory is needed, or a directory where the file is to
    go, makes the write raise. *)
Definition persist_file (now : Z) (disk : Disk) (path : string) (buf : list byte)
    : result Disk :=
  let absolute_path := _get_filesystem_path path in
  if file_on_the_way disk absolute_path then Raise (OSError "NotADirectoryError")
  else if is_dir disk absolute_path then Raise (OSError "IsADirectoryError")
  else Ok (disk_write disk absolute_path (mkFile now buf)).

End Store.

End FSFilesStore.

(** ** QueridoDiarioFSFilesStore *)

Module QueridoDiarioFSFilesStore.

Section Store.

Context (md5sum : list byte -> string) (basedir : string) (disk : Disk).

(** Finds a file with extension from a file path without extension. *)
Definition _find_file (path : pathlib.PurePath) : pathlib.PurePath :=
  let absolute_path := pathlib.Path [basedir; pathlib.to_str path] in
  let files := glob disk (pathlib.parent absolute_path) (pathlib.name path +:+ ".*") in
  match files with
  | f :: _ => pathlib.Path [pathlib.to_str (pathlib.parent path); f]
  | [] => path
  end.

Definition stat_file (path : string) : result (option Stat) :=
  let path_obj := pathlib.Path [path] in
  if negb (String.eqb (pathlib.suffix path_obj) "")
  then FSFilesStore.stat_file md5sum basedir disk path
  else
    let path_with_ext := _find_file path_obj in
    FSFilesStore.stat_file md5sum basedir disk (pathlib.to_str path_with_ext).

End Store.

End QueridoDiarioFSFilesStore.

(** ** QueridoDiarioFilesPipeline *)

(** A file type the signature table knows. *)
Record Kind : Type := mkKind { extension : string; mime : string }.

Module QueridoDiarioFilesPipeline.

Section Pipeline.

(** [super_file_path] is the default path of the framework for a request
    ([full/<digest of the URL><extension of the URL>]); [guess] is
    [filetype.guess], the lookup of a file header in the signature table. *)
Context (super_file_path : Request -> string) (guess : list byte -> option Kind).

(** Checks file extension from file header if possible. *)
Definition _detect_extension (response : Response) : string :=
  let max_file_header_size := 261 in
  match guess (take max_file_header_size (resp_body response)) with
  | None => ""
  | Some file_kind => extension file_kind
  end.

Definition str_value (v : value) : result string :=
  match v with
  | VStr s => Ok s
  | _ => Raise TypeError
  end.

(** The name under which the file is saved: the name of the default path,
    with the detected extension when it has none. *)
Definition file_name (request : Request) (response : option Response) : string :=
  let filepath := pathlib.Path [super_file_path request] in
  let filename := pathlib.name filepath in
  match response with
  | Some r =>
      if String.eqb (pathlib.suffix filepath) "" then
        let extension := _detect_extension r in
        if negb (String.eqb extension "") then filename +:+ "." +:+ extension
        else filename
      else filename
  | None => filename
  end.

(** Path to save the files: under [<territory_id>/<gazette date>/]. *)
Definition file_path (request : Request) (response : option Response)
    (item : option Item) : result string :=
  let filename := file_name request response in
  match item with
  | None => Raise TypeError
  | Some item =>
      territory ← getitem item "territory_id";
      date ← getitem item "date";
      territory ← str_value territory;
      date ← str_value date;
      Ok (pathlib.to_str (pathlib.Path [territory; date; filename]))
  end.

(** Makes requests from urls and lets through ready requests (entries
    that are text are no requests: the framework fails on them). *)
Definition get_media_requests (item : Item) (spider : Spider) : result (list Request) :=
  let urls := default [] (file_urls item) in
  let headers := default [] (download_file_headers spider) in
  let from_urls := map (fun u => mkRequest "GET" u headers) urls in
  match file_requests item with
  | None => Ok from_urls
  | Some (ReqObjects requests) => Ok (from_urls ++ requests)
  | Some (ReqText _) => Raise TypeError
  end.

(** Transforms requests into strings if any present; the base class then
    stores the results of the references that succeeded in [files]. *)
Definition item_completed (results : list (option FileInfo)) (item : Item) : result Item :=
  item ←
    match file_requests item with
    | None | Some (ReqObjects []) | Some (ReqText []) => Ok item
    | Some (ReqObjects requests) =>
        Ok (set_file_requests
              (ReqText (map (fun r => req_method r +:+ " " +:+ req_url r) requests)) item)
    | Some (ReqText _) => Raise (AttributeError "method")
    end;
  Ok (set_files (omap id results) item).

End Pipeline.

End QueridoDiarioFilesPipeline.

(** ** The framework's files pipeline ([FilesPipeline])

    The base class drives the methods above: for each request of an item
    it asks the store whether the file is there and fresh
    ([media_to_download]), downloads and stores it otherwise
    ([media_downloaded]), remembers the outcome per request fingerprint,
    and hands the outcomes to [item_completed]. An outcome is [None] when
    the reference failed; a probe that raises counts as a file that is
    not there. The clock is read once per item. *)

Module FilesPipeline.

Section Pipeline.

Context (super_file_path : Request -> string) (guess : list byte -> option Kind)
  (md5sum : list byte -> string) (basedir : string).

(** [fetch] is the downloader: the response to a request, if any.
    [expires] is the number of days after which a stored file is fetched
    again. *)
Context (fetch : Request -> option Response) (expires : Z).

(** The state of the files stage: the storage root and the outcomes known
    by fingerprint. *)
Record state : Type := mkState {
  disk : Disk;
  downloaded : list (string * string * option FileInfo)
}.

Definition fingerprint (request : Request) : string * string :=
  (req_method request, req_url request).

Definition cached (st : state) (request : Request) : option (option FileInfo) :=
  snd <$> List.find (fun e => bool_decide (fst e = fingerprint request)) (downloaded st).

Definition media_to_download (now : Z) (d : Disk) (request : Request) (item : Item)
    : result (option FileInfo) :=
  path ← QueridoDiarioFilesPipeline.file_path super_file_path guess request None (Some item);
  match QueridoDiarioFSFilesStore.stat_file md5sum basedir d path with
  | Raise _ | Ok None => Ok None
  | Ok (Some result) =>
      if (last_modified result =? 0)%Z then Ok None
      else if (expires * 86400 <? now - last_modified result)%Z then Ok None
      else Ok (Some (mkFileInfo (req_url request) path (checksum result) "uptodate"))
  end.

Definition media_downloaded (now : Z) (d : Disk) (response : Response)
    (request : Request) (item : Item) : result (FileInfo * Disk) :=
  if negb (resp_status response =? 200)%N then Raise (FileException "download-error")
  else if bool_decide (resp_body response = []) then Raise (FileException "empty-content")
  else
    let status :=
      if bool_decide ("cached" ∈ resp_flags response) then "cached" else "downloaded" in
    path ← QueridoDiarioFilesPipeline.file_path super_file_path guess request
             (Some response) (Some item);
    d ← FSFilesStore.persist_file basedir now d path (resp_body response);
    let checksum := md5sum (resp_body response) in
    Ok (mkFileInfo (req_url request) path checksum status, d).

(** One reference: its outcome and the storage root after it. *)
Definition resolve (now : Z) (d : Disk) (request : Request) (item : Item)
    : option FileInfo * Disk :=
  match media_to_download now d request item with
  | Raise _ => (None, d)
  | Ok (Some info) => (Some info, d)
  | Ok None =>
      match fetch request with
      | None => (None, d)
      | Some response =>
          match media_downloaded now d response request item with
          | Raise _ => (None, d)
          | Ok (info, d') => (Some info, d')
          end
      end
  end.

Definition _process_request (now : Z) (item : Item) (acc : list (option FileInfo) * state)
    (request : Request) : list (option FileInfo) * state :=
  let '(results, st) := acc in
  match cached st request with
  | Some r => (results ++ [r], st)
  | None =>
      let '(r, d) := resolve now (disk st) request item in
      (results ++ [r], mkState d (downloaded st ++ [(fingerprint request, r)]))
  end.

Definition process_item (now : Z) (item : Item) (spider : Spider) (st : state)
    : result Item * state :=
  match QueridoDiarioFilesPipeline.get_media_requests item spider with
  | Raise e => (Raise e, st)
  | Ok requests =>
      let '(results, st) := fold_left (_process_request now item) requests ([], st) in
      (QueridoDiarioFilesPipeline.item_completed results item, st)
  end.

End Pipeline.

End FilesPipeline.

(** ** The item pipelines in sequence

    An item goes through the date gate, the normalizer, the files pipeline
    and the sink, in the order their data demands: the gate compares the
    date object that the normalizer then turns into text, the files
    pipeline builds its paths from the text fields the normalizer wrote,
    and the sink reads the results the files pipeline stored in the item. *)

Module ITEM_PIPELINES.

Section Pipelines.

Context (super_file_path : Request -> string) (guess : list byte -> option Kind)
  (md5sum : list byte -> string) (basedir : string)
  (fetch : Request -> option Response) (expires : Z)
  (commit_outcome : nat -> option string).

(** The stages before the sink. *)
Definition content_stages (utcnow : datetime) (now : Z) (item : Item) (spider : Spider)
    (st : FilesPipeline.state) : result Item * FilesPipeline.state :=
  match GazetteDateFilteringPipeline.process_item item spider with
  | Raise e => (Raise e, st)
  | Ok item =>
      match DefaultValuesPipeline.process_item utcnow item spider with
      | Raise e => (Raise e, st)
      | Ok item =>
          FilesPipeline.process_item super_file_path guess md5sum basedir fetch expires
            now item spider st
      end
  end.

Definition process_item (sink : SQLDatabasePipeline.t) (utcnow : datetime) (now : Z)
    (item : Item) (spider : Spider) (st : FilesPipeline.state) (w : World)
    : result Item * FilesPipeline.state * World :=
  match content_stages utcnow now item spider st with
  | (Raise e, st) => (Raise e, st, w)
  | (Ok item, st) =>
      let '(r, w) := SQLDatabasePipeline.process_item commit_outcome sink item w in
      (r, st, w)
  end.

(** The items of a crawl, one after the other, each with the readings of
    the clock at its turn; an item on which a stage raises is logged by
    the framework and left behind. *)
Definition process_job (sink : SQLDatabasePipeline.t) (spider : Spider)
    (acc : list (result Item) * FilesPipeline.state * World)
    (job : datetime * Z * Item)
    : list (result Item) * FilesPipeline.state * World :=
  let '(rs, st, w) := acc in
  let '(utcnow, now, item) := job in
  let '(r, st, w) := process_item sink utcnow now item spider st w in
  (rs ++ [r], st, w).

Definition process_items (sink : SQLDatabasePipeline.t) (spider : Spider)
    (jobs : list (datetime * Z * Item)) (st : FilesPipeline.state) (w : World)
    : list (result Item) * FilesPipeline.state * World :=
  fold_left (process_job sink spider) jobs ([], st, w).

(** A crawl is a process of its own: it starts with no outcome remembered
    and with the sink opened. *)
Definition crawl (QUERIDODIARIO_DATABASE_URL : option string) (spider : Spider)
    (jobs : list (datetime * Z * Item)) (d : Disk) (w : World)
    : list (result Item) * Disk * World :=
  let sink := SQLDatabasePipeline.open_spider [spider]
                (SQLDatabasePipeline.from_crawler QUERIDODIARIO_DATABASE_URL) in
  let '(rs, st, w) := process_items sink spider jobs (FilesPipeline.mkState d []) w in
  (rs, FilesPipeline.disk st, w).

End Pipelines.

End ITEM_PIPELINES.

(** ** MapeadorAgape ([mapeadores/mapeadoragape.py]) *)

(** [text.startswith(p)]. *)
Fixpoint is_prefix (p text : string) : bool :=
  match p, text with
  | EmptyString, _ => true
  | String a p', String b text' => Ascii.eqb a b && is_prefix p' text'
  | String _ _, EmptyString => false
  end.

(** [needle in text] on [str]: [needle] occurs in [text]. *)
Fixpoint contains (needle text : string) : bool :=
  is_prefix needle text ||
  match text with
  | EmptyString => false
  | String _ text' => contains needle text'
  end.

Module MapeadorAgape.

Definition name : string := "mapeadoragape".

Definition pattern_name : string := "AGAPE".

Definition valid_urls : string := "vAGAPE".

Definition urls_pattern (protocol city state_code : string) : list string :=
  [protocol +:+ "://agportal.agapesistemas.com.br/DiarioOficial/?alias=pm" +:+ city].

(** The text [div class="item"]. *)
Definition item_div : string :=
  "div class=" +:+ String "034" ("item" +:+ String "034" "").

(** [response_text] is [response.text], the decoded body of the page. *)
Definition validation (response_text : string) : bool :=
  if contains "agapesistemas.com.br" response_text then
    if contains item_div response_text || contains "bandeira" response_text
    then true else false
  else false.

End MapeadorAgape.

(** ** Predicates and sample objects of the statements and proofs *)

(** What an alternative may do on the text of a field for the field to be
    read whole when a separator follows: fail, take it all, or stop before
    a digit. *)
Definition alt_ok (s1 : list ascii) (a : list cls) : bool :=
  (length a <=? length s1)%nat &&
  match match_seq a s1 with
  | None | Some (_, []) => true
  | Some (_, c :: _) => is_digit c
  end.

Definition alt_full (s1 : list ascii) (a : list cls) : bool :=
  match match_seq a s1 with
  | Some (_, []) => true
  | _ => false
  end.

Definition field_ok (alts : list (list cls)) (s1 : list ascii) : bool :=
  forallb (alt_ok s1) alts && existsb (alt_full s1) alts.

(** The last field of a format: the first alternative that matches takes
    the whole text. *)
Fixpoint first_full (alts : list (list cls)) (s1 : list ascii) : bool :=
  match alts with
  | [] => false
  | a :: alts' =>
      match match_seq a s1 with
      | None => (length a <=? length s1)%nat && first_full alts' s1
      | Some (_, []) => true
      | Some (_, _ :: _) => false
      end
  end.

(** The numbers [lo], [lo + 1], ... ([len] of them). *)
Definition N_range (lo : N) (len : nat) : list N :=
  map N.of_nat (seq (N.to_nat lo) len).

(** A file result that is not already present. *)
Definition is_new (file_info : FileInfo) : bool :=
  negb (String.eqb (fi_status file_info) "uptodate").

(** What the commits of the rows [gs] leave, when [c] commits were
    attempted before: the rows accepted and the warnings logged. *)
Fixpoint commit_all (commit_outcome : nat -> option string) (c : nat)
    (gs : list Gazette) : list Gazette * list string :=
  match gs with
  | [] => ([], [])
  | g :: gs' =>
      let '(acc, warns) := commit_all commit_outcome (S c) gs' in
      match commit_outcome c with
      | None => (g :: acc, warns)
      | Some args => (acc, SQLDatabasePipeline.warning_message g args :: warns)
      end
  end.

(** Sample objects for the closed statements below. *)
Definition example_spider : Spider :=
  mkSpider "sp_sao_paulo" (Some "3550308") (Some (mkDate 2015 1 1)) None.

Definition example_files : list FileInfo :=
  [ mkFileInfo "https://example.org/a" "3550308/2024-01-04/aaa.pdf" "c1" "downloaded";
    mkFileInfo "https://example.org/b" "3550308/2024-01-04/bbb" "c2" "uptodate";
    mkFileInfo "https://example.org/c" "3550308/2024-01-04/ccc.pdf" "c3" "downloaded" ].

Definition example_item (fs : list FileInfo) : Item :=
  mkItem
    {[ "date" := VStr "2024-01-04";
       "scraped_at" := VStr "2024-01-05T10:07:00.000250Z";
       "territory_id" := VStr "3550308";
       "power" := VStr "executive" ]}
    (Some fs) None None.

Definition example_gazette_item : SQLDatabasePipeline.gazette_item :=
  SQLDatabasePipeline.mk_gazette_item VNone (mkDate 2024 1 4) VNone VNone
    (VStr "executive") (mkDateTime (mkDate 2024 1 5) 10 7 0 250) (VStr "3550308").

Definition example_sink : SQLDatabasePipeline.t :=
  SQLDatabasePipeline.open_spider [example_spider]
    (SQLDatabasePipeline.from_crawler (Some "postgresql://db")).

(** A persistence layer that refuses the first commit and accepts the
    others. *)
Definition first_commit_fails (n : nat) : option string :=
  match n with
  | 0 => Some "(IntegrityError)"
  | _ => None
  end.

Fixpoint has_char (c : ascii) (s : string) : bool :=
  match s with
  | EmptyString => false
  | String x s' => Ascii.eqb x c || has_char c s'
  end.

(** A component of a path as the path algebra keeps it: not empty, not a
    dot, without slash. The parent reference [..] is such a component: the
    text of a path keeps it where it is written. *)
Definition is_segment (s : string) : bool :=
  pathlib.is_part s && negb (has_char "/" s).

(** The name of a directory entry: a component that is no parent
    reference, so that the path written is the path of the entry. *)
Definition is_name (s : string) : bool :=
  is_segment s && negb (String.eqb s "..").

(** The shape of a text: a [0] of the shape stands for a decimal digit,
    any other character for itself. *)
Fixpoint has_shape (shape text : list ascii) : bool :=
  match shape, text with
  | [], [] => true
  | p :: shape', c :: text' =>
      (if Ascii.eqb p "0" then is_digit c else Ascii.eqb p c) && has_shape shape' text'
  | _, _ => false
  end.

(** The canonical form of a scrape timestamp: date and time of day with
    six digits of fraction, and the zone marker. *)
Definition is_canonical_stamp (s : string) : bool :=
  has_shape (chars "0000-00-00T00:00:00.000000Z") (chars s).

(** The canonical form of a date. *)
Definition is_canonical_date (s : string) : bool :=
  has_shape (chars "0000-00-00") (chars s).

Fixpoint has_signature (signature buf : list byte) : bool :=
  match signature, buf with
  | [], _ => true
  | x :: signature', y :: buf' => Byte.eqb x y && has_signature signature' buf'
  | _ :: _, [] => false
  end.

(** A sample file-type lookup for the closed statements, where the
    parameter [guess] needs a value: it knows one signature, the header
    [%PDF] of a PDF document. *)
Definition guess_pdf (buf : list byte) : option Kind :=
  if has_signature [x25; x50; x44; x46] buf
  then Some (mkKind "pdf" "application/pdf") else None.

(** The header [%PDF-1.4] followed by a line end. *)
Definition pdf_body : list byte := [x25; x50; x44; x46; x2d; x31; x2e; x34; x0a].

Definition example_request : Request := mkRequest "GET" "https://example.org/a" [].

Definition example_response : Response := mkResponse 200 pdf_body [].

(** A default path for every request, in the framework's layout. *)
Definition example_default_path (request : Request) : string := "full/abc123".

(** A name without the characters a glob pattern gives a meaning to. *)
Definition no_magic (s : string) : bool :=
  negb (has_char "*" s) && negb (has_char "?" s) && negb (has_char "[" s).

Definition example_disk : Disk :=
  [ (pathlib.mkPath "" ["data"; "X"; "2024-01-05"; "abc123.pdf"], mkFile 1704449220 pdf_body);
    (pathlib.mkPath "" ["data"; "X"; "2024-01-05"; "ffe0.txt"], mkFile 1704449221 []) ].

Definition example_md5sum (buf : list byte) : string :=
  match buf with
  | [] => "d41d8cd98f00b204e9800998ecf8427e"
  | _ => "5d41402abc4b2a76b9719d911017c592"
  end.

(** ** The storage root between two crawls *)

Definition on_disk (d : Disk) (p : pathlib.PurePath) : Prop :=
  is_Some (disk_lookup d p).

(** Every file of [d] is a file of [d']. *)
Definition disk_le (d d' : Disk) : Prop :=
  forall p, on_disk d p -> on_disk d' p.

(** The path of the storage root with the relative segments [segs]. *)
Definition abs_path (basedir : string) (segs : list string) : pathlib.PurePath :=
  pathlib.mkPath (pathlib.root_of basedir)
    (pathlib.parts (pathlib.parse_path basedir) ++ segs).

(** The storage root holds what the files pipeline stores, and nothing
    else: files three names below the root, under a territory and a
    date. *)
Definition wf_disk (basedir : string) (d : Disk) : Prop :=
  Forall (fun e : pathlib.PurePath * File =>
            exists t dt f,
              e.1 = abs_path basedir [t; dt; f] /\
              is_name t = true /\ is_name dt = true /\ is_name f = true) d.

(** No stored file has expired at time [now]. *)
Definition fresh (expires now : Z) (d : Disk) : Prop :=
  Forall (fun e : pathlib.PurePath * File =>
            st_mtime e.2 <> 0%Z /\ (now - st_mtime e.2 <= expires * 86400)%Z) d.

(** An item as the normalizer leaves it for the files pipeline: its
    territory id and date are the segments [t] and [d]. *)
Definition keyed (item : Item) (t d : string) : Prop :=
  scalars item !! "territory_id" = Some (VStr t) /\
  scalars item !! "date" = Some (VStr d) /\
  is_segment t = true /\ is_segment d = true.

(** The same, with a territory id and a date that name directories. *)
Definition named (item : Item) (t d : string) : Prop :=
  scalars item !! "territory_id" = Some (VStr t) /\
  scalars item !! "date" = Some (VStr d) /\
  is_name t = true /\ is_name d = true.

(** The entry the probe settles on: the name itself when it carries an
    extension, the first entry of the directory that extends it by a dot
    otherwise, and the name itself when there is none. *)
Definition resolved_name (basedir : string) (disk : Disk) (t d f : string) : string :=
  if negb (String.eqb (pathlib.suffix (pathlib.mkPath "" [t; d; f])) "") then f
  else
    match List.filter (pathlib.fnmatch (f +:+ ".*"))
            (listdir disk (abs_path basedir [t; d])) with
    | e :: _ => e
    | [] => f
    end.

(** A response the files pipeline stores. *)
Definition storable (response : Response) : bool :=
  (resp_status response =? 200)%N && negb (bool_decide (resp_body response = [])).

(** [e] names a file of request [r]: the default name, or the default
    name with an extension when it has none. *)
Definition names_file (super_file_path : Request -> string) (r : Request) (e : string)
    : Prop :=
  e = pathlib.name (pathlib.Path [super_file_path r]) \/
  (pathlib.suffix (pathlib.Path [super_file_path r]) = "" /\
   exists ext, e = pathlib.name (pathlib.Path [super_file_path r]) +:+ "." +:+ ext).

(** The store holds a file for the request [r] under territory [t] and
    date [d]. *)
Definition held (super_file_path : Request -> string) (basedir : string)
    (disk : Disk) (t d : string) (r : Request) : Prop :=
  exists e, on_disk disk (abs_path basedir [t; d; e]) /\ names_file super_file_path r e.

(** The store holds a file for the request, if the request can be
    downloaded at all. *)
Definition stored (super_file_path : Request -> string)
    (fetch : Request -> option Response) (basedir : string)
    (disk : Disk) (t d : string) (r : Request) : Prop :=
  forall response, fetch r = Some response -> storable response = true ->
  held super_file_path basedir disk t d r.

(** A file result of a crawl over an unchanged root: it is reported as up
    to date, for the URL of a request, under the path the probe is asked
    (territory, date and default name of the request, without the
    extension a download infers), and the probe resolves that path to a
    stored file of the request, whose checksum is the one reported. The
    date is one of [dates]. *)
Definition up_to_date (super_file_path : Request -> string)
    (md5sum : list byte -> string) (basedir : string) (disk : Disk)
    (spider : Spider) (dates : string -> Prop) (info : FileInfo) : Prop :=
  fi_status info = "uptodate" /\
  exists r t d e x,
    TERRITORY_ID spider = Some t /\ dates d /\
    fi_url info = req_url r /\
    fi_path info = pathlib.join "/" [t; d; pathlib.name (pathlib.Path [super_file_path r])] /\
    names_file super_file_path r e /\
    disk_lookup disk (abs_path basedir [t; d; e]) = Some x /\
    QueridoDiarioFSFilesStore.stat_file md5sum basedir disk (fi_path info) =
      Ok (Some (mkStat (st_mtime x) (md5sum (content x)))) /\
    fi_checksum info = md5sum (content x).

(** The outcome of a reference on such a crawl: a failure, or a file
    result that is up to date. *)
Definition settled (super_file_path : Request -> string)
    (md5sum : list byte -> string) (basedir : string) (disk : Disk)
    (spider : Spider) (dates : string -> Prop) (o : option FileInfo) : Prop :=
  match o with
  | None => True
  | Some info => up_to_date super_file_path md5sum basedir disk spider dates info
  end.

(** The result of an item on such a crawl: an exception, or the item with
    every file result up to date. *)
Definition all_up_to_date (super_file_path : Request -> string)
    (md5sum : list byte -> string) (basedir : string) (disk : Disk)
    (spider : Spider) (dates : string -> Prop) (r : result Item) : Prop :=
  match r with
  | Ok item =>
      Forall (up_to_date super_file_path md5sum basedir disk spider dates)
        (default [] (files item))
  | Raise _ => True
  end.

(** The outcome [o2] of a reference is a file result for the same URL
    whenever [o1] is one. *)
Definition covers (o1 o2 : option FileInfo) : Prop :=
  forall info1, o1 = Some info1 ->
  exists info2, o2 = Some info2 /\ fi_url info2 = fi_url info1.

(** The URLs of the file results of an item that a stage returned. *)
Definition file_result_urls (item : Item) : list string :=
  map fi_url (default [] (files item)).

(** Of two results for the same item, the second, when both are items,
    has a file result for every URL for which the first has one. *)
Definition item_covers (r1 r2 : result Item) : Prop :=
  forall item1 item2, r1 = Ok item1 -> r2 = Ok item2 ->
  sublist (file_result_urls item1) (file_result_urls item2).

(** The same for the outcomes two files stages remember, fingerprint
    by fingerprint. *)
Definition cache_covers (st1 st2 : FilesPipeline.state) : Prop :=
  Forall2 (fun e1 e2 : string * string * option FileInfo =>
             e1.1 = e2.1 /\ covers e1.2 e2.2)
    (FilesPipeline.downloaded st1) (FilesPipeline.downloaded st2).

(** The text of the date of the item names a directory. *)
Definition date_is_name (item : Item) : Prop :=
  forall v, scalars item !! "date" = Some v -> is_name (py_str v) = true.

Definition territory_is_name (spider : Spider) : Prop :=
  forall t, TERRITORY_ID spider = Some t -> is_name t = true.

(** The texts of the dates of the items of a crawl. *)
Definition dates_of (jobs : list (datetime * Z * Item)) (d : string) : Prop :=
  exists j v, In j jobs /\ scalars j.2 !! "date" = Some v /\ d = py_str v.

(** A crawl of one gazette whose file URL has no extension and whose
    content is a PDF document, then the same crawl a day later, and the
    same crawl ninety-one days later, with files expiring after ninety
    days. *)
Definition example_gazette : Item :=
  mkItem {[ "date" := VDate (mkDate 2024 1 4); "power" := VStr "executive" ]}
    None (Some ["https://example.org/a"]) None.

Definition example_fetch (request : Request) : option Response := Some example_response.

(** A downloader that answers a request with an error page. *)
Definition failing_fetch (request : Request) : option Response :=
  Some (mkResponse 404 [] []).

Definition example_crawl (jobs : list (datetime * Z * Item)) (d : Disk) (w : World)
    : list (result Item) * Disk * World :=
  ITEM_PIPELINES.crawl example_default_path guess_pdf example_md5sum "data"
    example_fetch 90 (fun _ => None) (Some "postgresql://db") example_spider jobs d w.

Definition first_jobs : list (datetime * Z * Item) :=
  [(mkDateTime (mkDate 2024 1 5) 10 7 0 250, 1704449220%Z, example_gazette)].

Definition next_day_jobs : list (datetime * Z * Item) :=
  [(mkDateTime (mkDate 2024 1 6) 10 7 0 250, 1704535620%Z, example_gazette)].

Definition late_jobs : list (datetime * Z * Item) :=
  [(mkDateTime (mkDate 2024 4 5) 10 7 0 250, 1712311620%Z, example_gazette)].

Definition reported (rs : list (result Item)) : list (list (string * string)) :=
  map (fun r => match r with
                | Ok item => map (fun f => (fi_path f, fi_status f)) (default [] (files item))
                | Raise _ => []
                end) rs.

Definition failing_crawl (jobs : list (datetime * Z * Item)) (d : Disk) (w : World)
    : list (result Item) * Disk * World :=
  ITEM_PIPELINES.crawl example_default_path guess_pdf example_md5sum "data"
    failing_fetch 90 (fun _ => None) (Some "postgresql://db") example_spider jobs d w.

(** For each item a crawl returned, the URLs of its file references and
    its file results. *)
Definition references_and_results (rs : list (result Item))
    : list (option (list string * list (string * string))) :=
  map (fun r => match r with
                | Ok item =>
                    Some (default [] (file_urls item),
                          map (fun f => (fi_path f, fi_status f)) (default [] (files item)))
                | Raise _ => None
                end) rs.

(** The storage root after the first of these crawls. *)
Definition example_disk_after : Disk :=
  [ (pathlib.mkPath "" ["data"; "3550308"; "2024-01-04"; "abc123.pdf"],
     mkFile 1704449220 pdf_body) ].

(** The digits of a text all of whose characters are known to be digits. *)
Ltac digits_of H :=
  repeat match type of H with
         | Forall _ (_ :: _) =>
             let Hc := fresh "Hc" in
             apply Forall_cons_1 in H as [Hc H]
         end.

(** The longest text a token of a format, and a format, can take. *)
Definition token_width (t : token) : nat :=
  match t with
  | TLit _ => 1
  | TDir d => list_max (map (@length cls) (directive_alts d))
  end.

Fixpoint width (p : list token) : nat :=
  match p with
  | [] => 0
  | t :: p' => token_width t + width p'
  end.

(** Decides the comparisons of field names in a goal. *)
Ltac decide_keys :=
  repeat match goal with
         | |- context [decide (?a = ?b)] =>
             first [ rewrite (decide_True (P := a = b)) by reflexivity
                   | rewrite (decide_False (P := a = b)) by discriminate ]
         end.

(** [needle] occurs in [text]. *)
Definition occurs (needle text : string) : Prop :=
  exists before after, text = before +:+ needle +:+ after.

(** * Properties *)

Example isoformat_with_fraction :
  str (datetime_isoformat "T"%char (mkDateTime (mkDate 2024 1 5) 10 7 0 250)) =
  "2024-01-05T10:07:00.000250".
Proof. reflexivity. Qed.

Example isoformat_without_fraction :
  str (datetime_isoformat "T"%char (mkDateTime (mkDate 2024 1 5) 10 7 0 0)) =
  "2024-01-05T10:07:00".
Proof. reflexivity. Qed.

Example fmt_d_overflow : str (fmt_d 2 12345) = "12345".
Proof. reflexivity. Qed.

Example strptime_fraction :
  strptime "2024-01-05T10:07:00.25Z" "%Y-%m-%dT%H:%M:%S.%fZ" =
  Ok (mkDateTime (mkDate 2024 1 5) 10 7 0 250000).
Proof. reflexivity. Qed.

Example strptime_short_fields :
  strptime "2024-1-5" "%Y-%m-%d" = Ok (mkDateTime (mkDate 2024 1 5) 0 0 0 0).
Proof. reflexivity. Qed.

Example strptime_no_such_day : strptime "2023-02-30" "%Y-%m-%d" = Raise ValueError.
Proof. reflexivity. Qed.

Example strptime_trailing_text : strptime "2024-01-05T" "%Y-%m-%d" = Raise ValueError.
Proof. reflexivity. Qed.

(** ** Digits and decimal fields *)

Lemma N_of_digit_char (k : N) : (k < 10)%N -> N_of_ascii (digit_char k) = (48 + k)%N.
Proof.
  intros Hk. unfold digit_char. apply N_ascii_embedding. lia.
Qed.

Lemma is_digit_digit_char (k : N) : (k < 10)%N -> is_digit (digit_char k) = true.
Proof.
  intros Hk. unfold is_digit. rewrite N_of_digit_char by exact Hk.
  apply andb_true_iff. split; apply N.leb_le; lia.
Qed.

Lemma digit_val_digit_char (k : N) : (k < 10)%N -> digit_val (digit_char k) = k.
Proof.
  intros Hk. unfold digit_val. rewrite N_of_digit_char by exact Hk. lia.
Qed.

Lemma int_of_digits_snoc (l : list ascii) (c : ascii) :
  int_of_digits (l ++ [c]) = (10 * int_of_digits l + digit_val c)%N.
Proof.
  unfold int_of_digits. rewrite fold_left_app. reflexivity.
Qed.

(** Within its width, [fmt_d] writes exactly [w] digits that read back as
    the number. *)
Lemma fmt_d_exact (w : nat) : forall n : N,
  (n < 10 ^ N.of_nat w)%N ->
  length (fmt_d w n) = w /\
  Forall (fun c => is_digit c = true) (fmt_d w n) /\
  int_of_digits (fmt_d w n) = n.
Proof.
  induction w as [|w IH]; intros n Hn.
  - simpl in Hn. assert (n = 0%N) as -> by lia. simpl. repeat split. constructor.
  - assert (Hq : (n / 10 < 10 ^ N.of_nat w)%N).
    { apply N.Div0.div_lt_upper_bound.
      replace (N.of_nat (S w)) with (N.succ (N.of_nat w)) in Hn by lia.
      rewrite N.pow_succ_r' in Hn. exact Hn. }
    assert (Hr : (n mod 10 < 10)%N) by (apply N.mod_lt; lia).
    destruct (IH _ Hq) as (Hlen & Hdig & Hint).
    cbn [fmt_d]. repeat split.
    + rewrite length_app, Hlen. simpl. lia.
    + apply Forall_app. split; [exact Hdig|].
      constructor; [apply is_digit_digit_char; exact Hr | constructor].
    + rewrite int_of_digits_snoc, Hint, digit_val_digit_char by exact Hr.
      pose proof (N.div_mod n 10). lia.
Qed.

(** ** Matching a directive *)

Lemma match_seq_split (a : list cls) : forall s m r,
  match_seq a s = Some (m, r) -> s = m ++ r /\ length m = length a.
Proof.
  induction a as [|k a IH]; intros s m r H; simpl in H.
  - injection H as <- <-. split; reflexivity.
  - destruct s as [|c s]; [discriminate|].
    destruct (cls_match k c); [|discriminate].
    destruct (match_seq a s) as [[m' r']|] eqn:E; [|discriminate].
    injection H as <- <-. destruct (IH _ _ _ E) as [-> Hl].
    split; simpl; congruence.
Qed.

Lemma match_seq_app (a : list cls) : forall s m r t,
  match_seq a s = Some (m, r) -> match_seq a (s ++ t) = Some (m, r ++ t).
Proof.
  induction a as [|k a IH]; intros s m r t H; simpl in H.
  - injection H as <- <-. reflexivity.
  - destruct s as [|c s]; [discriminate|]. simpl.
    destruct (cls_match k c); [|discriminate].
    destruct (match_seq a s) as [[m' r']|] eqn:E; [|discriminate].
    injection H as <- <-. rewrite (IH _ _ _ t E). reflexivity.
Qed.

Lemma match_seq_app_None (a : list cls) : forall s t,
  match_seq a s = None -> length a <= length s -> match_seq a (s ++ t) = None.
Proof.
  induction a as [|k a IH]; intros s t H Hl; simpl in H; [discriminate|].
  destruct s as [|c s]; [simpl in Hl; lia|]. simpl in *.
  destruct (cls_match k c); [|reflexivity].
  destruct (match_seq a s) as [[m' r']|] eqn:E; [discriminate|].
  rewrite (IH _ t E) by lia. reflexivity.
Qed.

Lemma try_alts_separated {R : Type} (k : list ascii -> list ascii -> option R)
    (s1 rest : list ascii) :
  (forall m c r, is_digit c = true -> k m (c :: r) = None) ->
  forall alts,
    forallb (alt_ok s1) alts = true ->
    try_alts alts (s1 ++ rest) k =
    if existsb (alt_full s1) alts then k s1 rest else None.
Proof.
  intros Hk. induction alts as [|a alts IH]; intros Hall; [reflexivity|].
  simpl in Hall. apply andb_true_iff in Hall as [Ha Hall].
  specialize (IH Hall). unfold alt_ok in Ha.
  apply andb_true_iff in Ha as [Hlen Ha]. apply Nat.leb_le in Hlen.
  cbn [try_alts existsb]. unfold alt_full at 1.
  destruct (match_seq a s1) as [[m [|c r]]|] eqn:E.
  - destruct (match_seq_split _ _ _ _ E) as [Hs _].
    rewrite app_nil_r in Hs. subst m.
    rewrite (match_seq_app _ _ _ _ rest E). simpl.
    destruct (k s1 rest) eqn:Ek; [reflexivity|].
    rewrite IH. destruct (existsb _ _); reflexivity.
  - rewrite (match_seq_app _ _ _ _ rest E). simpl.
    rewrite (Hk _ _ _ Ha). exact IH.
  - rewrite (match_seq_app_None _ _ rest E Hlen). exact IH.
Qed.

Lemma try_alts_field {R : Type} (k : list ascii -> list ascii -> option R)
    (alts : list (list cls)) (s1 rest : list ascii) :
  field_ok alts s1 = true ->
  (forall m c r, is_digit c = true -> k m (c :: r) = None) ->
  try_alts alts (s1 ++ rest) k = k s1 rest.
Proof.
  intros Hf Hk. apply andb_true_iff in Hf as [Hall Hex].
  rewrite (try_alts_separated k s1 rest Hk alts Hall), Hex. reflexivity.
Qed.

Lemma try_alts_last {R : Type} (k : list ascii -> list ascii -> option R)
    (s1 rest : list ascii) (v : R) :
  k s1 rest = Some v ->
  forall alts, first_full alts s1 = true -> try_alts alts (s1 ++ rest) k = Some v.
Proof.
  intros Hk. induction alts as [|a alts IH]; intros Hf; [discriminate|].
  simpl in Hf. cbn [try_alts].
  destruct (match_seq a s1) as [[m [|c r]]|] eqn:E; [| discriminate |].
  - destruct (match_seq_split _ _ _ _ E) as [Hs _].
    rewrite app_nil_r in Hs. subst m.
    rewrite (match_seq_app _ _ _ _ rest E). simpl. rewrite Hk. reflexivity.
  - apply andb_true_iff in Hf as [Hlen Hf]. apply Nat.leb_le in Hlen.
    rewrite (match_seq_app_None _ _ rest E Hlen). exact (IH Hf).
Qed.

Lemma in_N_range (n lo : N) (len : nat) :
  (lo <= n < lo + N.of_nat len)%N -> In n (N_range lo len).
Proof.
  intros H. unfold N_range. apply in_map_iff. exists (N.to_nat n).
  split; [apply N2Nat.id|]. apply in_seq. lia.
Qed.

Lemma forallb_N_range (P : N -> bool) (lo : N) (len : nat) :
  forallb P (N_range lo len) = true ->
  forall n, (lo <= n < lo + N.of_nat len)%N -> P n = true.
Proof.
  intros H n Hn. rewrite forallb_forall in H. apply H, in_N_range, Hn.
Qed.

Lemma field_ok_month (n : N) :
  (1 <= n <= 12)%N -> field_ok (directive_alts Dm) (fmt_d 2 n) = true.
Proof.
  intros H.
  apply (forallb_N_range (fun n => field_ok (directive_alts Dm) (fmt_d 2 n)) 1 12);
    [vm_compute; reflexivity | lia].
Qed.

Lemma field_ok_day (n : N) :
  (1 <= n <= 31)%N -> field_ok (directive_alts Dd) (fmt_d 2 n) = true.
Proof.
  intros H.
  apply (forallb_N_range (fun n => field_ok (directive_alts Dd) (fmt_d 2 n)) 1 31);
    [vm_compute; reflexivity | lia].
Qed.

Lemma first_full_day (n : N) :
  (1 <= n <= 31)%N -> first_full (directive_alts Dd) (fmt_d 2 n) = true.
Proof.
  intros H.
  apply (forallb_N_range (fun n => first_full (directive_alts Dd) (fmt_d 2 n)) 1 31);
    [vm_compute; reflexivity | lia].
Qed.

Lemma field_ok_hour (n : N) :
  (n < 24)%N -> field_ok (directive_alts DH) (fmt_d 2 n) = true.
Proof.
  intros H.
  apply (forallb_N_range (fun n => field_ok (directive_alts DH) (fmt_d 2 n)) 0 24);
    [vm_compute; reflexivity | lia].
Qed.

Lemma field_ok_minute (n : N) :
  (n < 60)%N -> field_ok (directive_alts DM) (fmt_d 2 n) = true.
Proof.
  intros H.
  apply (forallb_N_range (fun n => field_ok (directive_alts DM) (fmt_d 2 n)) 0 60);
    [vm_compute; reflexivity | lia].
Qed.

Lemma field_ok_second (n : N) :
  (n < 60)%N -> field_ok (directive_alts DS) (fmt_d 2 n) = true.
Proof.
  intros H.
  apply (forallb_N_range (fun n => field_ok (directive_alts DS) (fmt_d 2 n)) 0 60);
    [vm_compute; reflexivity | lia].
Qed.

Lemma field_ok_year (n : N) :
  (n < 10000)%N -> field_ok (directive_alts DY) (fmt_d 4 n) = true.
Proof.
  intros H. destruct (fmt_d_exact 4 n H) as (Hlen & Hdig & _).
  destruct (fmt_d 4 n) as [|a [|b [|c [|d [|e l]]]]]; try discriminate.
  digits_of Hdig. unfold field_ok, alt_ok, alt_full. simpl.
  rewrite Hc, Hc0, Hc1, Hc2. reflexivity.
Qed.

Lemma field_ok_fraction (n : N) :
  (n < 1000000)%N -> field_ok (directive_alts Df) (fmt_d 6 n) = true.
Proof.
  intros H. destruct (fmt_d_exact 6 n H) as (Hlen & Hdig & _).
  destruct (fmt_d 6 n) as [|a [|b [|c [|d [|e [|f [|g l]]]]]]]; try discriminate.
  digits_of Hdig. unfold field_ok, alt_ok, alt_full. simpl.
  rewrite Hc, Hc0, Hc1, Hc2, Hc3, Hc4. reflexivity.
Qed.

(** ** A field followed by a separator *)

Lemma is_digit_lower (c : ascii) : is_digit (lower c) = is_digit c.
Proof. destruct c as [[] [] [] [] [] [] [] []]; reflexivity. Qed.

Lemma lower_digit (c : ascii) : is_digit c = true -> lower c = c.
Proof. destruct c as [[] [] [] [] [] [] [] []]; intros H; try discriminate H; reflexivity. Qed.

Lemma ci_eqb_digit (sep c : ascii) :
  is_digit sep = false -> is_digit c = true -> ci_eqb sep c = false.
Proof.
  intros Hs Hc. unfold ci_eqb. rewrite (lower_digit c Hc).
  destruct (Ascii.eqb (lower sep) c) eqn:E; [|reflexivity].
  apply Ascii.eqb_eq in E. subst c. rewrite is_digit_lower in Hc. congruence.
Qed.

Lemma match_tokens_field (d : directive) (sep : ascii) (p : list token)
    (s1 rest : list ascii) :
  field_ok (directive_alts d) s1 = true ->
  is_digit sep = false ->
  match_tokens (TDir d :: TLit sep :: p) (s1 ++ rest) =
  match match_tokens (TLit sep :: p) rest with
  | Some (g, r) => Some ((d, s1) :: g, r)
  | None => None
  end.
Proof.
  intros Hf Hsep. cbn [match_tokens].
  apply (try_alts_field
           (fun m rest0 =>
              match match rest0 with
                    | [] => None
                    | c' :: s' => if ci_eqb sep c' then match_tokens p s' else None
                    end
              with
              | Some (g, rest') => Some ((d, m) :: g, rest')
              | None => None
              end)); [exact Hf|].
  intros m c r Hc. rewrite (ci_eqb_digit sep c Hsep Hc). reflexivity.
Qed.

Lemma match_tokens_lit (c : ascii) (p : list token) (rest : list ascii) :
  match_tokens (TLit c :: p) (c :: rest) = match_tokens p rest.
Proof.
  cbn [match_tokens]. unfold ci_eqb. rewrite Ascii.eqb_refl. reflexivity.
Qed.

(** ** The normalizer's texts read by the sink's formats *)

Lemma chars_str (l : list ascii) : chars (str l) = l.
Proof. apply list_ascii_of_string_of_list_ascii. Qed.

Lemma str_chars (s : string) : str (chars s) = s.
Proof. apply string_of_list_ascii_of_string. Qed.

Lemma chars_app (a b : string) : chars (a +:+ b) = chars a ++ chars b.
Proof.
  induction a as [|c a IH]; [reflexivity|].
  change (chars (String c (a +:+ b)) = c :: (chars a ++ chars b)).
  unfold chars in *. simpl. rewrite IH. reflexivity.
Qed.

Lemma int_fmt_d (w : nat) (n : N) :
  (n < 10 ^ N.of_nat w)%N -> int_of_digits (fmt_d w n) = n.
Proof. intros H. apply (fmt_d_exact w n H). Qed.

Lemma length_fmt_d (w : nat) (n : N) :
  (n < 10 ^ N.of_nat w)%N -> length (fmt_d w n) = w.
Proof. intros H. apply (fmt_d_exact w n H). Qed.

Lemma valid_date_bounds (d : date) :
  valid_date d = true ->
  (year d < 10000 /\ 1 <= month d <= 12 /\ 1 <= day d <= 31)%N.
Proof.
  unfold valid_date. rewrite !andb_true_iff, !N.leb_le.
  intros (((((Hy1 & Hy2) & Hm1) & Hm2) & Hd1) & Hd2).
  assert (days_in_month (year d) (month d) <= 31)%N.
  { unfold days_in_month.
    repeat match goal with
           | |- context [match ?x with _ => _ end] => destruct x
           end; lia. }
  lia.
Qed.

Lemma valid_datetime_bounds (t : datetime) :
  valid_datetime t = true ->
  valid_date (dt_date t) = true /\
  (hour t < 24 /\ minute t < 60 /\ second t < 60 /\ microsecond t < 1000000)%N.
Proof.
  unfold valid_datetime. rewrite !andb_true_iff, !N.ltb_lt. tauto.
Qed.

(** The text of a date, read back by the sink's date format. *)
Lemma strptime_date_isoformat (d : date) :
  valid_date d = true ->
  strptime (str (date_isoformat d)) "%Y-%m-%d" = Ok (mkDateTime d 0 0 0 0).
Proof.
  intros Hv. destruct (valid_date_bounds d Hv) as (Hy & Hm & Hd).
  unfold strptime.
  change (compile_format (chars "%Y-%m-%d"))
    with (Some [TDir DY; TLit "-"; TDir Dm; TLit "-"; TDir Dd]).
  rewrite chars_str. unfold date_isoformat.
  change (chars "-") with ["-"%char]. cbn [app].
  rewrite match_tokens_field by (first [apply field_ok_year; lia | reflexivity]).
  rewrite match_tokens_lit.
  rewrite match_tokens_field by (first [apply field_ok_month; lia | reflexivity]).
  rewrite match_tokens_lit.
  replace (fmt_d 2 (day d)) with (fmt_d 2 (day d) ++ []) by apply app_nil_r.
  cbn [match_tokens].
  rewrite (try_alts_last _ _ _ ([(Dd, fmt_d 2 (day d))], []));
    [| reflexivity | apply first_full_day; lia].
  unfold datetime_of_groups, int_group, fraction_group. cbn [group directive_eqb].
  rewrite !int_fmt_d by (simpl; lia).
  destruct d as [y m dd]. cbn [year month day] in *.
  unfold valid_datetime. cbn [dt_date hour minute second microsecond].
  rewrite Hv. reflexivity.
Qed.

(** The text the normalizer stamps, read by the sink's timestamp format:
    it is read back when the instant has a fraction of a second, and
    refused when it has none. *)
Lemma strptime_scraped_at (t : datetime) :
  valid_datetime t = true ->
  strptime (str (datetime_isoformat "T" t) +:+ "Z") "%Y-%m-%dT%H:%M:%S.%fZ" =
  if (microsecond t =? 0)%N then Raise ValueError else Ok t.
Proof.
  intros Hv. destruct (valid_datetime_bounds t Hv) as (Hvd & Hh & Hmi & Hs & Hus).
  destruct (valid_date_bounds _ Hvd) as (Hy & Hm & Hd).
  unfold strptime.
  change (compile_format (chars "%Y-%m-%dT%H:%M:%S.%fZ"))
    with (Some [TDir DY; TLit "-"; TDir Dm; TLit "-"; TDir Dd; TLit "T";
                TDir DH; TLit ":"; TDir DM; TLit ":"; TDir DS; TLit ".";
                TDir Df; TLit "Z"]).
  rewrite chars_app, chars_str.
  unfold datetime_isoformat, date_isoformat, time_isoformat.
  change (chars "-") with ["-"%char]. change (chars ":") with [":"%char].
  change (chars ".") with ["."%char]. change (chars "Z") with ["Z"%char].
  rewrite <- !app_assoc. cbn [app].
  rewrite match_tokens_field by (first [apply field_ok_year; lia | reflexivity]).
  rewrite match_tokens_lit.
  rewrite match_tokens_field by (first [apply field_ok_month; lia | reflexivity]).
  rewrite match_tokens_lit.
  rewrite match_tokens_field by (first [apply field_ok_day; lia | reflexivity]).
  rewrite match_tokens_lit.
  rewrite match_tokens_field by (first [apply field_ok_hour; lia | reflexivity]).
  rewrite match_tokens_lit.
  rewrite match_tokens_field by (first [apply field_ok_minute; lia | reflexivity]).
  rewrite match_tokens_lit.
  rewrite match_tokens_field by (first [apply field_ok_second; lia | reflexivity]).
  destruct (microsecond t =? 0)%N eqn:Eus.
  - reflexivity.
  - cbn [app]. rewrite match_tokens_lit.
    rewrite match_tokens_field by (first [apply field_ok_fraction; lia | reflexivity]).
    rewrite match_tokens_lit. cbn [match_tokens].
    unfold datetime_of_groups, int_group, fraction_group. cbn [group directive_eqb].
    rewrite (length_fmt_d 6) by (simpl; lia).
    cbn [Nat.sub repeat]. rewrite app_nil_r.
    rewrite !int_fmt_d by (simpl; lia).
    destruct t as [[y m dd] h mi s us].
    cbn [dt_date year month day hour minute second microsecond] in *.
    rewrite Hv. reflexivity.
Qed.

(** The same text under a format without a fraction: it is read back
    exactly when the instant has no fraction of a second. *)
Lemma strptime_scraped_at_seconds (t : datetime) :
  valid_datetime t = true ->
  strptime (str (datetime_isoformat "T" t) +:+ "Z") "%Y-%m-%dT%H:%M:%SZ" =
  if (microsecond t =? 0)%N then Ok t else Raise ValueError.
Proof.
  intros Hv. destruct (valid_datetime_bounds t Hv) as (Hvd & Hh & Hmi & Hs & Hus).
  destruct (valid_date_bounds _ Hvd) as (Hy & Hm & Hd).
  unfold strptime.
  change (compile_format (chars "%Y-%m-%dT%H:%M:%SZ"))
    with (Some [TDir DY; TLit "-"; TDir Dm; TLit "-"; TDir Dd; TLit "T";
                TDir DH; TLit ":"; TDir DM; TLit ":"; TDir DS; TLit "Z"]).
  rewrite chars_app, chars_str.
  unfold datetime_isoformat, date_isoformat, time_isoformat.
  change (chars "-") with ["-"%char]. change (chars ":") with [":"%char].
  change (chars ".") with ["."%char]. change (chars "Z") with ["Z"%char].
  rewrite <- !app_assoc. cbn [app].
  rewrite match_tokens_field by (first [apply field_ok_year; lia | reflexivity]).
  rewrite match_tokens_lit.
  rewrite match_tokens_field by (first [apply field_ok_month; lia | reflexivity]).
  rewrite match_tokens_lit.
  rewrite match_tokens_field by (first [apply field_ok_day; lia | reflexivity]).
  rewrite match_tokens_lit.
  rewrite match_tokens_field by (first [apply field_ok_hour; lia | reflexivity]).
  rewrite match_tokens_lit.
  rewrite match_tokens_field by (first [apply field_ok_minute; lia | reflexivity]).
  rewrite match_tokens_lit.
  rewrite match_tokens_field by (first [apply field_ok_second; lia | reflexivity]).
  destruct (microsecond t =? 0)%N eqn:Eus.
  - cbn [app]. rewrite match_tokens_lit. cbn [match_tokens].
    unfold datetime_of_groups, int_group, fraction_group. cbn [group directive_eqb].
    rewrite !int_fmt_d by (simpl; lia).
    apply N.eqb_eq in Eus.
    destruct t as [[y m dd] h mi s us].
    cbn [dt_date year month day hour minute second microsecond] in *.
    subst us. rewrite Hv. reflexivity.
  - reflexivity.
Qed.

(** The stamp determines the instant, down to the microsecond. *)
Lemma scraped_at_injective (t1 t2 : datetime) :
  valid_datetime t1 = true -> valid_datetime t2 = true ->
  str (datetime_isoformat "T" t1) +:+ "Z" = str (datetime_isoformat "T" t2) +:+ "Z" ->
  t1 = t2.
Proof.
  intros H1 H2 E.
  pose proof (strptime_scraped_at t1 H1) as A1.
  pose proof (strptime_scraped_at t2 H2) as A2.
  pose proof (strptime_scraped_at_seconds t1 H1) as B1.
  pose proof (strptime_scraped_at_seconds t2 H2) as B2.
  rewrite E in A1, B1. rewrite A2 in A1. rewrite B2 in B1.
  destruct (microsecond t1 =? 0)%N, (microsecond t2 =? 0)%N; congruence.
Qed.

(** ** The date gate *)

Lemma date_ltb_irrefl (d : date) : date_ltb d d = false.
Proof.
  unfold date_ltb. rewrite !N.ltb_irrefl, !N.eqb_refl. reflexivity.
Qed.

(** C4, as amended. The date gate drops an item exactly when the spider
    has a start date and the date of the item is a date strictly before
    it; a spider without a start date accepts every item as it is; an item
    whose date is a date on or after the start date is returned as it is;
    and an item whose date is missing, or is no date object, makes the
    gate raise a type error when the spider has a start date. The gate is
    a function of the item and the spider alone: it reads and writes
    nothing else. *)
Theorem date_gate_contract (item : Item) (spider : Spider) :
  (forall msg,
     GazetteDateFilteringPipeline.process_item item spider = Raise (DropItem msg) <->
     exists sd d,
       start_date spider = Some sd /\ item_get item "date" = VDate d /\
       date_ltb d sd = true /\
       msg = "Droping all items before " +:+ str (date_isoformat sd)) /\
  (start_date spider = None ->
   GazetteDateFilteringPipeline.process_item item spider = Ok item) /\
  (forall sd d,
     start_date spider = Some sd -> item_get item "date" = VDate d ->
     date_ltb d sd = false ->
     GazetteDateFilteringPipeline.process_item item spider = Ok item) /\
  (forall d, item_get item "date" = VDate d -> start_date spider = Some d ->
     GazetteDateFilteringPipeline.process_item item spider = Ok item) /\
  (forall sd,
     start_date spider = Some sd -> (forall d, item_get item "date" <> VDate d) ->
     GazetteDateFilteringPipeline.process_item item spider = Raise TypeError).
Proof.
  unfold GazetteDateFilteringPipeline.process_item,
    GazetteDateFilteringPipeline.date_gt.
  repeat split.
  - intros H. destruct (start_date spider) as [sd|]; [|discriminate].
    destruct (item_get item "date") as [| | |d|]; try discriminate H.
    cbn in H. destruct (date_ltb d sd) eqn:E; [|discriminate].
    injection H as <-. exists sd, d. repeat split. exact E.
  - intros (sd & d & -> & -> & E & ->). cbn. rewrite E. reflexivity.
  - intros ->. reflexivity.
  - intros sd d -> -> E. cbn. rewrite E. reflexivity.
  - intros d -> ->. cbn. rewrite date_ltb_irrefl. reflexivity.
  - intros sd -> Hd. destruct (item_get item "date") as [| | |d|]; try reflexivity.
    exfalso. exact (Hd d eq_refl).
Qed.

(** C4, as stated, fails: an item without a date, under a spider with a
    start date, is neither dropped nor returned. *)
Lemma date_gate_raises_without_date :
  GazetteDateFilteringPipeline.process_item (mkItem ∅ None None None) example_spider =
  Raise TypeError.
Proof. reflexivity. Qed.

Example date_gate_drops :
  GazetteDateFilteringPipeline.process_item
    (mkItem {[ "date" := VDate (mkDate 2019 12 31) ]} None None None)
    (mkSpider "sp_sao_paulo" (Some "3550308") (Some (mkDate 2020 1 1)) None) =
  Raise (DropItem "Droping all items before 2020-01-01").
Proof. reflexivity. Qed.

Example date_gate_accepts :
  let item := mkItem {[ "date" := VDate (mkDate 2020 1 1) ]} None None None in
  GazetteDateFilteringPipeline.process_item item
    (mkSpider "sp_sao_paulo" (Some "3550308") (Some (mkDate 2020 1 1)) None) =
  Ok item.
Proof. reflexivity. Qed.

(** ** The normalizer *)

Lemma lookup_set_scalar (k k' : string) (v : value) (item : Item) :
  scalars (set_scalar k v item) !! k' =
  if decide (k = k') then Some v else scalars item !! k'.
Proof. unfold set_scalar. cbn [scalars]. apply lookup_insert. Qed.

(** The shape of a text that begins with a decimal field. *)
Lemma has_shape_field (w : nat) (n : N) (shape text : list ascii) :
  (n < 10 ^ N.of_nat w)%N ->
  has_shape (repeat "0"%char w ++ shape) (fmt_d w n ++ text) = has_shape shape text.
Proof.
  intros Hn. destruct (fmt_d_exact w n Hn) as (Hlen & Hdig & _).
  revert Hlen Hdig. generalize (fmt_d w n). clear Hn.
  induction w as [|w IH]; intros l Hlen Hdig.
  - destruct l; [reflexivity | discriminate Hlen].
  - destruct l as [|c l]; [discriminate Hlen|].
    apply Forall_cons_1 in Hdig as [Hc Hdig]. injection Hlen as Hlen.
    cbn [repeat app has_shape]. rewrite Hc.
    change (Ascii.eqb "0" "0") with true. cbn [andb]. apply IH; assumption.
Qed.

Lemma has_shape_lit (c : ascii) (shape text : list ascii) :
  Ascii.eqb c "0" = false ->
  has_shape (c :: shape) (c :: text) = has_shape shape text.
Proof. intros Hc. cbn [has_shape]. rewrite Hc, Ascii.eqb_refl. reflexivity. Qed.

Lemma date_isoformat_canonical (d : date) :
  valid_date d = true -> is_canonical_date (str (date_isoformat d)) = true.
Proof.
  intros Hv. destruct (valid_date_bounds d Hv) as (Hy & Hm & Hd).
  unfold is_canonical_date, date_isoformat. rewrite chars_str.
  change (chars "0000-00-00")
    with (repeat "0"%char 4 ++ "-"%char :: repeat "0"%char 2 ++ "-"%char ::
          repeat "0"%char 2 ++ []).
  change (chars "-") with ["-"%char]. cbn [app].
  rewrite <- (app_nil_r (fmt_d 2 (day d))).
  rewrite has_shape_field by (simpl; lia). rewrite has_shape_lit by reflexivity.
  rewrite has_shape_field by (simpl; lia). rewrite has_shape_lit by reflexivity.
  rewrite has_shape_field by (simpl; lia). reflexivity.
Qed.

(** The stamp of an instant with a fraction of a second has the canonical
    form. *)
Lemma scraped_at_canonical (t : datetime) :
  valid_datetime t = true -> microsecond t <> 0%N ->
  is_canonical_stamp (str (datetime_isoformat "T" t) +:+ "Z") = true.
Proof.
  intros Hv Hus. destruct (valid_datetime_bounds t Hv) as (Hvd & Hh & Hmi & Hs & Hu).
  destruct (valid_date_bounds _ Hvd) as (Hy & Hm & Hd).
  unfold is_canonical_stamp. rewrite chars_app, chars_str.
  unfold datetime_isoformat, date_isoformat, time_isoformat.
  rewrite (proj2 (N.eqb_neq _ _) Hus).
  change (chars "0000-00-00T00:00:00.000000Z")
    with (repeat "0"%char 4 ++ "-"%char :: repeat "0"%char 2 ++ "-"%char ::
          repeat "0"%char 2 ++ "T"%char :: repeat "0"%char 2 ++ ":"%char ::
          repeat "0"%char 2 ++ ":"%char :: repeat "0"%char 2 ++ "."%char ::
          repeat "0"%char 6 ++ ["Z"%char]).
  change (chars "-") with ["-"%char]. change (chars ":") with [":"%char].
  change (chars ".") with ["."%char]. change (chars "Z") with ["Z"%char].
  rewrite <- !app_assoc. cbn [app].
  rewrite has_shape_field by (simpl; lia). rewrite has_shape_lit by reflexivity.
  rewrite has_shape_field by (simpl; lia). rewrite has_shape_lit by reflexivity.
  rewrite has_shape_field by (simpl; lia). rewrite has_shape_lit by reflexivity.
  rewrite has_shape_field by (simpl; lia). rewrite has_shape_lit by reflexivity.
  rewrite has_shape_field by (simpl; lia). rewrite has_shape_lit by reflexivity.
  rewrite has_shape_field by (simpl; lia). rewrite has_shape_lit by reflexivity.
  rewrite has_shape_field by (simpl; lia). reflexivity.
Qed.

(** C9, as amended. For an item that carries a date, and a spider that
    defines [TERRITORY_ID], the normalizer returns the item with the
    territory id of the spider and with the date replaced by its text,
    which for a date object has the form [YYYY-MM-DD] and is read back by
    the sink's date format; no field other than these two and
    [scraped_at] changes. At a clock reading with a fraction of a second,
    [scraped_at] is set to a text of the fixed form
    [YYYY-MM-DDTHH:MM:SS.ffffffZ] that the sink's format reads back as that
    instant. A spider without [TERRITORY_ID] makes the normalizer raise an
    attribute error, and an item without a date a key error. *)
Theorem normalizer_contract (utcnow : datetime) (item : Item) (spider : Spider) :
  (forall territory d,
     TERRITORY_ID spider = Some territory -> scalars item !! "date" = Some d ->
     exists item',
       DefaultValuesPipeline.process_item utcnow item spider = Ok item' /\
       scalars item' !! "territory_id" = Some (VStr territory) /\
       scalars item' !! "date" = Some (VStr (py_str d)) /\
       (forall k, k <> "territory_id" -> k <> "date" -> k <> "scraped_at" ->
          scalars item' !! k = scalars item !! k) /\
       files item' = files item /\ file_urls item' = file_urls item /\
       file_requests item' = file_requests item /\
       (forall dd, d = VDate dd -> valid_date dd = true ->
          is_canonical_date (py_str d) = true /\
          strptime (py_str d) "%Y-%m-%d" = Ok (mkDateTime dd 0 0 0 0)) /\
       (valid_datetime utcnow = true -> microsecond utcnow <> 0%N ->
          exists stamp,
            scalars item' !! "scraped_at" = Some (VStr stamp) /\
            is_canonical_stamp stamp = true /\
            strptime stamp "%Y-%m-%dT%H:%M:%S.%fZ" = Ok utcnow)) /\
  (TERRITORY_ID spider = None ->
   DefaultValuesPipeline.process_item utcnow item spider =
   Raise (AttributeError "TERRITORY_ID")) /\
  (forall territory,
     TERRITORY_ID spider = Some territory -> scalars item !! "date" = None ->
     DefaultValuesPipeline.process_item utcnow item spider = Raise (KeyError "date")).
Proof.
  unfold DefaultValuesPipeline.process_item. split; [|split].
  - intros territory d Ht Hd. rewrite Ht.
    unfold getitem. rewrite lookup_set_scalar.
    destruct (decide ("territory_id" = "date")) as [E|_]; [discriminate E|].
    rewrite Hd. cbn [mbind result_bind].
    eexists. split; [reflexivity|].
    split; [rewrite !lookup_set_scalar; decide_keys; reflexivity|].
    split; [rewrite !lookup_set_scalar; decide_keys; reflexivity|].
    split.
    { intros k H1 H2 H3. rewrite !lookup_set_scalar.
      repeat destruct (decide _); congruence. }
    split; [reflexivity|]. split; [reflexivity|]. split; [reflexivity|].
    split.
    + intros dd -> Hv.
      split; [apply date_isoformat_canonical, Hv | apply strptime_date_isoformat, Hv].
    + intros Hv Hus. eexists.
      split; [rewrite !lookup_set_scalar; decide_keys; reflexivity|].
      split; [apply scraped_at_canonical; assumption|].
      rewrite (strptime_scraped_at utcnow Hv).
      rewrite (proj2 (N.eqb_neq _ _) Hus). reflexivity.
  - intros ->. reflexivity.
  - intros territory Ht Hd. rewrite Ht.
    unfold getitem. rewrite lookup_set_scalar.
    destruct (decide ("territory_id" = "date")) as [E|_]; [discriminate E|].
    rewrite Hd. reflexivity.
Qed.

Lemma normalizer_contract_witness :
  exists item' stamp,
    DefaultValuesPipeline.process_item (mkDateTime (mkDate 2024 1 5) 10 7 0 250)
      (mkItem {[ "date" := VDate (mkDate 2024 1 4) ]} None None None)
      (mkSpider "sp_sao_paulo" (Some "3550308") None None) = Ok item' /\
    scalars item' !! "territory_id" = Some (VStr "3550308") /\
    scalars item' !! "date" = Some (VStr "2024-01-04") /\
    scalars item' !! "scraped_at" = Some (VStr stamp) /\
    is_canonical_stamp stamp = true /\
    strptime stamp "%Y-%m-%dT%H:%M:%S.%fZ" =
      Ok (mkDateTime (mkDate 2024 1 5) 10 7 0 250).
Proof.
  assert (Hd0 : scalars (mkItem {[ "date" := VDate (mkDate 2024 1 4) ]} None None None)
                  !! "date" = Some (VDate (mkDate 2024 1 4))) by (vm_compute; reflexivity).
  destruct (normalizer_contract (mkDateTime (mkDate 2024 1 5) 10 7 0 250)
              (mkItem {[ "date" := VDate (mkDate 2024 1 4) ]} None None None)
              (mkSpider "sp_sao_paulo" (Some "3550308") None None))
    as (H & _ & _).
  destruct (H "3550308" (VDate (mkDate 2024 1 4)) eq_refl Hd0)
    as (item' & Hr & Ht & Hd & _ & _ & _ & _ & _ & Hs).
  destruct (Hs eq_refl ltac:(discriminate)) as (stamp & Hs1 & Hs2 & Hs3).
  exists item', stamp. repeat split; assumption.
Defined.

(** C9, as stated, fails. The form of the scrape timestamp is not fixed:
    at an instant on a whole second the normalizer stamps a text without
    the fraction that it writes at every other instant. And the normalizer
    does not always succeed: an item without a date makes it raise, and so
    does a spider without [TERRITORY_ID]. *)
Lemma normalizer_stamp_is_not_fixed :
  let item := mkItem {[ "date" := VDate (mkDate 2024 1 4) ]} None None None in
  let spider := mkSpider "sp_sao_paulo" (Some "3550308") None None in
  (exists item1 item2,
     DefaultValuesPipeline.process_item (mkDateTime (mkDate 2024 1 5) 10 7 0 250)
       item spider = Ok item1 /\
     item_get item1 "scraped_at" = VStr "2024-01-05T10:07:00.000250Z" /\
     is_canonical_stamp "2024-01-05T10:07:00.000250Z" = true /\
     DefaultValuesPipeline.process_item (mkDateTime (mkDate 2024 1 5) 10 7 0 0)
       item spider = Ok item2 /\
     item_get item2 "scraped_at" = VStr "2024-01-05T10:07:00Z" /\
     is_canonical_stamp "2024-01-05T10:07:00Z" = false) /\
  DefaultValuesPipeline.process_item (mkDateTime (mkDate 2024 1 5) 10 7 0 250)
    (mkItem ∅ None None None) spider = Raise (KeyError "date") /\
  DefaultValuesPipeline.process_item (mkDateTime (mkDate 2024 1 5) 10 7 0 250)
    item (mkSpider "sp_sao_paulo" None None None) = Raise (AttributeError "TERRITORY_ID").
Proof.
  cbv zeta. split; [|split; reflexivity].
  eexists _, _. split; [reflexivity|]. split; [vm_compute; reflexivity|].
  split; [vm_compute; reflexivity|]. split; [reflexivity|].
  split; vm_compute; reflexivity.
Qed.

(** C10. At an instant whose microsecond is zero the normalizer stamps a
    text without a fraction, and the sink's format, which demands one,
    refuses it: the sink raises on the item the normalizer returned. *)
Theorem scraped_at_without_fraction_is_refused :
  let utcnow := mkDateTime (mkDate 2024 1 5) 10 7 0 0 in
  let item := mkItem {[ "date" := VDate (mkDate 2024 1 4) ]} None None None in
  let spider := mkSpider "sp_sao_paulo" (Some "3550308") None None in
  let sink := SQLDatabasePipeline.open_spider [spider]
                (SQLDatabasePipeline.from_crawler (Some "postgresql://db")) in
  exists item',
    DefaultValuesPipeline.process_item utcnow item spider = Ok item' /\
    item_get item' "scraped_at" = VStr "2024-01-05T10:07:00Z" /\
    strptime "2024-01-05T10:07:00Z" "%Y-%m-%dT%H:%M:%S.%fZ" = Raise ValueError /\
    fst (SQLDatabasePipeline.process_item (fun _ => None) sink item'
           (mkWorld [] [] 0 0 [])) = Raise ValueError.
Proof.
  eexists. split; [reflexivity|]. repeat split; vm_compute; reflexivity.
Qed.

(** ** The sink *)

Lemma commit_all_length (co : nat -> option string) (gs : list Gazette) : forall c,
  length (commit_all co c gs).1 + length (commit_all co c gs).2 = length gs.
Proof.
  induction gs as [|g gs IH]; intros c; [reflexivity|].
  cbn [commit_all]. specialize (IH (S c)).
  destruct (commit_all co (S c) gs) as [acc warns].
  destruct (co c); cbn in *; lia.
Qed.

Lemma commit_all_accepted (co : nat -> option string) (gs : list Gazette) : forall c g,
  g ∈ (commit_all co c gs).1 <->
  exists i, gs !! i = Some g /\ co (c + i) = None.
Proof.
  induction gs as [|g0 gs IH]; intros c g.
  - cbn. split; [intros H; inversion H | intros (i & H & _); discriminate H].
  - cbn [commit_all]. specialize (IH (S c) g).
    destruct (commit_all co (S c) gs) as [acc warns]. cbn [fst] in IH.
    destruct (co c) eqn:Ec; cbn [fst].
    + rewrite IH. split.
      * intros (i & Hi & Ho). exists (S i). split; [exact Hi|].
        replace (c + S i) with (S c + i) by lia. exact Ho.
      * intros ([|i] & Hi & Ho).
        -- rewrite Nat.add_0_r in Ho. congruence.
        -- exists i. split; [exact Hi|].
           replace (S c + i) with (c + S i) by lia. exact Ho.
    + rewrite elem_of_cons, IH. split.
      * intros [->|(i & Hi & Ho)].
        -- exists 0. rewrite Nat.add_0_r. split; [reflexivity | exact Ec].
        -- exists (S i). split; [exact Hi|].
           replace (c + S i) with (S c + i) by lia. exact Ho.
      * intros ([|i] & Hi & Ho).
        -- left. cbn in Hi. congruence.
        -- right. exists i. split; [exact Hi|].
           replace (S c + i) with (c + S i) by lia. exact Ho.
Qed.

Lemma commit_all_warnings (co : nat -> option string) (gs : list Gazette) : forall c m,
  m ∈ (commit_all co c gs).2 <->
  exists i g args, gs !! i = Some g /\ co (c + i) = Some args /\
                   m = SQLDatabasePipeline.warning_message g args.
Proof.
  induction gs as [|g0 gs IH]; intros c m.
  - cbn. split; [intros H; inversion H | intros (i & g & a & H & _); discriminate H].
  - cbn [commit_all]. specialize (IH (S c) m).
    destruct (commit_all co (S c) gs) as [acc warns]. cbn [snd] in IH.
    destruct (co c) as [args0|] eqn:Ec; cbn [snd].
    + rewrite elem_of_cons, IH. split.
      * intros [->|(i & g & a & Hi & Ho & Hm)].
        -- exists 0, g0, args0. rewrite Nat.add_0_r. repeat split. exact Ec.
        -- exists (S i), g, a. repeat split; [exact Hi| |exact Hm].
           replace (c + S i) with (S c + i) by lia. exact Ho.
      * intros ([|i] & g & a & Hi & Ho & Hm).
        -- left. cbn in Hi. rewrite Nat.add_0_r in Ho. congruence.
        -- right. exists i, g, a. repeat split; [exact Hi| |exact Hm].
           replace (S c + i) with (c + S i) by lia. exact Ho.
    + rewrite IH. split.
      * intros (i & g & a & Hi & Ho & Hm). exists (S i), g, a.
        repeat split; [exact Hi| |exact Hm].
        replace (c + S i) with (S c + i) by lia. exact Ho.
      * intros ([|i] & g & a & Hi & Ho & Hm).
        -- rewrite Nat.add_0_r in Ho. congruence.
        -- exists i, g, a. repeat split; [exact Hi| |exact Hm].
           replace (S c + i) with (c + S i) by lia. exact Ho.
Qed.

Lemma commit_all_no_failure (co : nat -> option string) (gs : list Gazette) : forall c,
  (forall i, i < length gs -> co (c + i) = None) ->
  commit_all co c gs = (gs, []).
Proof.
  induction gs as [|g gs IH]; intros c H; [reflexivity|].
  cbn [commit_all]. rewrite IH.
  - specialize (H 0). rewrite Nat.add_0_r in H. rewrite H by (cbn; lia). reflexivity.
  - intros i Hi. replace (S c + i) with (c + S i) by lia. apply H. cbn. lia.
Qed.

(** The loop over the files of an item, as a whole. *)
Lemma persist_files_fold (co : nat -> option string)
    (gi : SQLDatabasePipeline.gazette_item) (fs : list FileInfo) : forall w : World,
  pending w = [] ->
  fold_left (SQLDatabasePipeline.persist_file_info co gi) fs w =
  let gs := map (SQLDatabasePipeline.make_gazette gi) (List.filter is_new fs) in
  mkWorld (rows w ++ (commit_all co (commits w) gs).1) []
    (commits w + length gs) (sessions w)
    (log w ++ (commit_all co (commits w) gs).2).
Proof.
  induction fs as [|f fs IH]; intros w Hp.
  - destruct w as [r p c s l]. cbn in *. subst p.
    rewrite !app_nil_r, Nat.add_0_r. reflexivity.
  - cbn [fold_left List.filter]. unfold SQLDatabasePipeline.persist_file_info at 2.
    assert (En : is_new f = negb (String.eqb (fi_status f) "uptodate")) by reflexivity.
    rewrite En. clear En.
    destruct (String.eqb (fi_status f) "uptodate") eqn:Es; cbn [negb].
    + apply IH, Hp.
    + unfold SQLDatabasePipeline.session_commit, SQLDatabasePipeline.session_add.
      cbn [commits rows pending sessions log]. rewrite Hp. cbn [app map commit_all].
      destruct (commit_all co (S (commits w)) _) as [acc warns] eqn:Ecs.
      destruct (co (commits w)) as [args|].
      * rewrite IH by reflexivity.
        cbn [commits rows pending sessions log SQLDatabasePipeline.session_rollback
             SQLDatabasePipeline.logger_warning length map].
        rewrite Ecs. cbn [fst snd]. rewrite <- app_assoc.
        f_equal. lia.
      * rewrite IH by reflexivity.
        cbn [commits rows pending sessions log length map].
        rewrite Ecs. cbn [fst snd]. rewrite <- app_assoc.
        f_equal. lia.
Qed.

Lemma commit_all_sublist (co : nat -> option string) (gs : list Gazette) : forall c,
  sublist (commit_all co c gs).1 gs.
Proof.
  induction gs as [|g gs IH]; intros c; [constructor|].
  cbn [commit_all]. specialize (IH (S c)).
  destruct (commit_all co (S c) gs) as [acc warns]. cbn [fst] in IH.
  destruct (co c); cbn [fst]; [apply sublist_cons | apply sublist_skip]; exact IH.
Qed.

Lemma commit_all_count (co : nat -> option string) (gs : list Gazette) : forall c,
  length (commit_all co c gs).1 =
  length (List.filter (fun i => bool_decide (co (c + i) = None)) (seq 0 (length gs))).
Proof.
  induction gs as [|g gs IH]; intros c; [reflexivity|].
  cbn [commit_all length seq List.filter]. specialize (IH (S c)).
  destruct (commit_all co (S c) gs) as [acc warns]. cbn [fst] in IH.
  rewrite <- seq_shift.
  assert (Hs : length (List.filter (fun i => bool_decide (co (c + i) = None))
                         (map S (seq 0 (length gs)))) = length acc).
  { rewrite IH. clear. induction (seq 0 (length gs)) as [|i l IHl]; [reflexivity|].
    cbn [map List.filter]. replace (c + S i) with (S c + i) by lia.
    destruct (bool_decide _); cbn [length]; rewrite IHl; reflexivity. }
  rewrite Nat.add_0_r.
  destruct (co c); [rewrite bool_decide_eq_false_2 by discriminate
                   | rewrite bool_decide_eq_true_2 by reflexivity];
    cbn [fst length]; rewrite Hs; reflexivity.
Qed.

Lemma sink_process_item (co : nat -> option string) (self : SQLDatabasePipeline.t)
    (item : Item) (gi : SQLDatabasePipeline.gazette_item) (w : World) (url : string) (s : Engine) :
  SQLDatabasePipeline.database_url self = Some url ->
  SQLDatabasePipeline.Session self = Some s ->
  SQLDatabasePipeline.make_gazette_item item = Ok gi ->
  SQLDatabasePipeline.process_item co self item w =
  let gs := map (SQLDatabasePipeline.make_gazette gi)
              (List.filter is_new (default [] (files item))) in
  (Ok item,
   mkWorld (rows w ++ (commit_all co (commits w) gs).1) []
     (commits w + length gs) (sessions w)
     (log w ++ (commit_all co (commits w) gs).2)).
Proof.
  intros Hu Hs Hg. unfold SQLDatabasePipeline.process_item.
  rewrite Hu, Hs, Hg. rewrite persist_files_fold by reflexivity.
  reflexivity.
Qed.

(** The record the sink builds from an item whose date and timestamp its
    formats read. *)
Lemma make_gazette_item_parsed (item : Item) (date_text stamp_text : string)
    (t_date t_stamp : datetime) :
  item_get item "date" = VStr date_text ->
  strptime date_text "%Y-%m-%d" = Ok t_date ->
  item_get item "scraped_at" = VStr stamp_text ->
  strptime stamp_text "%Y-%m-%dT%H:%M:%S.%fZ" = Ok t_stamp ->
  SQLDatabasePipeline.make_gazette_item item =
  Ok (SQLDatabasePipeline.mk_gazette_item (item_get item "source_text") (dt_date t_date)
        (item_get item "edition_number") (item_get item "is_extra_edition")
        (item_get item "power") t_stamp (item_get item "territory_id")).
Proof.
  intros Hd Hpd Hs Hps. unfold SQLDatabasePipeline.make_gazette_item.
  rewrite Hd, Hs. cbn [SQLDatabasePipeline.strptime_value]. rewrite Hpd, Hps.
  reflexivity.
Qed.

(** An item whose date, or whose timestamp, the sink's formats do not
    read: no record is built. *)
Lemma make_gazette_item_unparsed (item : Item) :
  (forall date_text t, item_get item "date" = VStr date_text ->
                       strptime date_text "%Y-%m-%d" <> Ok t) \/
  (forall stamp_text t, item_get item "scraped_at" = VStr stamp_text ->
                        strptime stamp_text "%Y-%m-%dT%H:%M:%S.%fZ" <> Ok t) ->
  exists e, SQLDatabasePipeline.make_gazette_item item = Raise e.
Proof.
  unfold SQLDatabasePipeline.make_gazette_item, SQLDatabasePipeline.strptime_value.
  intros [H|H].
  - destruct (item_get item "date") as [| |s| |]; try (eexists; reflexivity).
    destruct (strptime s "%Y-%m-%d") as [t|e] eqn:E; [|eexists; reflexivity].
    exfalso. exact (H s t eq_refl E).
  - destruct (item_get item "date") as [| |s| |]; try (eexists; reflexivity).
    destruct (strptime s "%Y-%m-%d") as [t|e]; [|eexists; reflexivity].
    cbn [mbind result_bind].
    destruct (item_get item "scraped_at") as [| |s'| |]; try (eexists; reflexivity).
    destruct (strptime s' "%Y-%m-%dT%H:%M:%S.%fZ") as [t'|e] eqn:E;
      [|eexists; reflexivity].
    exfalso. exact (H s' t' eq_refl E).
Qed.

Lemma commit_all_count_warnings (co : nat -> option string) (gs : list Gazette) (c : nat) :
  length (commit_all co c gs).2 =
  length (List.filter (fun i => negb (bool_decide (co (c + i) = None)))
            (seq 0 (length gs))).
Proof.
  pose proof (commit_all_length co gs c) as Hl.
  pose proof (commit_all_count co gs c) as Hc.
  pose proof (List.filter_length (fun i => bool_decide (co (c + i) = None))
                (seq 0 (length gs))) as Hf.
  rewrite length_seq in Hf. lia.
Qed.

(** C2. With a database configured and opened, and an item whose date
    and timestamp the sink reads, whatever the persistence layer answers
    to each commit, the sink returns the item; every file result that is
    not already present gets its commit, also after a commit that failed;
    a commit that succeeds adds the row of the file result, and a commit
    that fails adds no row and logs a warning that carries the date of
    the item and the checksum of the file result; the session ends with
    nothing pending and closed; and the next item is processed in the same
    way. *)
Theorem persistence_errors_are_not_fatal (co : nat -> option string)
    (self : SQLDatabasePipeline.t) (item : Item) (w : World) (url : string) (s : Engine)
    (date_text stamp_text : string) (t_date t_stamp : datetime) :
  SQLDatabasePipeline.database_url self = Some url ->
  SQLDatabasePipeline.Session self = Some s ->
  item_get item "date" = VStr date_text ->
  strptime date_text "%Y-%m-%d" = Ok t_date ->
  item_get item "scraped_at" = VStr stamp_text ->
  strptime stamp_text "%Y-%m-%dT%H:%M:%S.%fZ" = Ok t_stamp ->
  let new_files := List.filter is_new (default [] (files item)) in
  let row f :=
    mkGazette (item_get item "source_text") (dt_date t_date)
      (item_get item "edition_number") (item_get item "is_extra_edition")
      (item_get item "power") t_stamp (item_get item "territory_id")
      (fi_path f) (fi_url f) (fi_checksum f) in
  let r := SQLDatabasePipeline.process_item co self item w in
  r.1 = Ok item /\
  commits r.2 = commits w + length new_files /\
  pending r.2 = [] /\ sessions r.2 = sessions w /\
  (exists acc warns,
     rows r.2 = rows w ++ acc /\ log r.2 = log w ++ warns /\
     sublist acc (map row new_files) /\
     length warns =
       length (List.filter (fun i => negb (bool_decide (co (commits w + i) = None)))
                 (seq 0 (length new_files))) /\
     length acc + length warns = length new_files /\
     forall i f, new_files !! i = Some f ->
       match co (commits w + i) with
       | None => row f ∈ acc
       | Some args =>
           ("Something wrong has happened when adding the gazette in the database. " +:+
            "Date: " +:+ str (date_isoformat (dt_date t_date)) +:+ ". " +:+
            "File Checksum: " +:+ fi_checksum f +:+ ". " +:+
            "Details: " +:+ args) ∈ warns
       end) /\
  (forall item2 date_text2 stamp_text2 t_date2 t_stamp2,
     item_get item2 "date" = VStr date_text2 ->
     strptime date_text2 "%Y-%m-%d" = Ok t_date2 ->
     item_get item2 "scraped_at" = VStr stamp_text2 ->
     strptime stamp_text2 "%Y-%m-%dT%H:%M:%S.%fZ" = Ok t_stamp2 ->
     let r2 := SQLDatabasePipeline.process_item co self item2 r.2 in
     r2.1 = Ok item2 /\
     commits r2.2 =
       commits r.2 + length (List.filter is_new (default [] (files item2)))).
Proof.
  intros Hu Hs Hd Hpd Hst Hps new_files row r. subst r.
  pose proof (make_gazette_item_parsed item date_text stamp_text t_date t_stamp
                Hd Hpd Hst Hps) as Hg.
  rewrite (sink_process_item co self item _ w url s Hu Hs Hg).
  cbv zeta. fold new_files.
  change (SQLDatabasePipeline.make_gazette _) with row.
  set (gs := map row new_files).
  assert (Hlen : length gs = length new_files) by apply length_map.
  cbn [fst snd rows pending commits sessions log].
  split; [reflexivity|]. split; [rewrite Hlen; reflexivity|].
  split; [reflexivity|]. split; [reflexivity|]. split.
  - exists (commit_all co (commits w) gs).1, (commit_all co (commits w) gs).2.
    split; [reflexivity|]. split; [reflexivity|].
    split; [apply commit_all_sublist|].
    split; [rewrite commit_all_count_warnings, Hlen; reflexivity|].
    split; [rewrite commit_all_length; exact Hlen|].
    intros i f Hi.
    assert (Hgi : gs !! i = Some (row f)) by (subst gs; rewrite list_lookup_fmap, Hi; reflexivity).
    destruct (co (commits w + i)) as [args|] eqn:Eo.
    + apply commit_all_warnings. exists i, (row f), args. repeat split; assumption.
    + apply commit_all_accepted. exists i. split; assumption.
  - intros item2 date_text2 stamp_text2 t_date2 t_stamp2 Hd2 Hpd2 Hst2 Hps2.
    pose proof (make_gazette_item_parsed item2 date_text2 stamp_text2 t_date2 t_stamp2
                  Hd2 Hpd2 Hst2 Hps2) as Hg2.
    cbv zeta. rewrite (sink_process_item co self item2 _ _ url s Hu Hs Hg2).
    cbn [fst snd commits]. split; [reflexivity|]. rewrite length_map. reflexivity.
Qed.

Lemma persistence_errors_are_not_fatal_witness :
  let r := SQLDatabasePipeline.process_item first_commit_fails example_sink
             (example_item example_files) (mkWorld [] [] 0 0 []) in
  r.1 = Ok (example_item example_files) /\ commits r.2 = 2 /\
  pending r.2 = [] /\ sessions r.2 = 0 /\
  exists acc warns,
    rows r.2 = acc /\ log r.2 = warns /\ length acc = 1 /\
    ("Something wrong has happened when adding the gazette in the database. " +:+
     "Date: 2024-01-04. File Checksum: c1. Details: (IntegrityError)") ∈ warns /\
    mkGazette VNone (mkDate 2024 1 4) VNone VNone (VStr "executive")
      (mkDateTime (mkDate 2024 1 5) 10 7 0 250) (VStr "3550308")
      "3550308/2024-01-04/ccc.pdf" "https://example.org/c" "c3" ∈ acc.
Proof.
  assert (Hd : item_get (example_item example_files) "date" = VStr "2024-01-04")
    by (vm_compute; reflexivity).
  assert (Hs : item_get (example_item example_files) "scraped_at" =
               VStr "2024-01-05T10:07:00.000250Z") by (vm_compute; reflexivity).
  assert (Hpd : strptime "2024-01-04" "%Y-%m-%d" = Ok (mkDateTime (mkDate 2024 1 4) 0 0 0 0))
    by (vm_compute; reflexivity).
  assert (Hps : strptime "2024-01-05T10:07:00.000250Z" "%Y-%m-%dT%H:%M:%S.%fZ" =
                Ok (mkDateTime (mkDate 2024 1 5) 10 7 0 250)) by (vm_compute; reflexivity).
  pose proof (persistence_errors_are_not_fatal first_commit_fails example_sink
                (example_item example_files) (mkWorld [] [] 0 0 []) "postgresql://db" _
                _ _ _ _ eq_refl eq_refl Hd Hpd Hs Hps) as H.
  cbv zeta in H. destruct H as (H1 & H2 & H3 & H4 & (acc & warns & H5 & H6 & _ & H7 & H8 & H9) & _).
  cbv zeta. split; [exact H1|]. split; [exact H2|]. split; [exact H3|]. split; [exact H4|].
  exists acc, warns. split; [exact H5|]. split; [exact H6|].
  split; [change (length warns = 1) in H7; change (length acc + length warns = 2) in H8; lia|].
  split.
  - exact (H9 0 (mkFileInfo "https://example.org/a" "3550308/2024-01-04/aaa.pdf" "c1"
                   "downloaded") eq_refl).
  - pose proof (H9 1 (mkFileInfo "https://example.org/c" "3550308/2024-01-04/ccc.pdf" "c3"
                        "downloaded") eq_refl) as Hrow.
    cbn [first_commit_fails commits Nat.add fi_path fi_url fi_checksum dt_date] in Hrow.
    replace (item_get (example_item example_files) "source_text") with VNone in Hrow
      by (vm_compute; reflexivity).
    replace (item_get (example_item example_files) "edition_number") with VNone in Hrow
      by (vm_compute; reflexivity).
    replace (item_get (example_item example_files) "is_extra_edition") with VNone in Hrow
      by (vm_compute; reflexivity).
    replace (item_get (example_item example_files) "power") with (VStr "executive") in Hrow
      by (vm_compute; reflexivity).
    replace (item_get (example_item example_files) "territory_id") with (VStr "3550308")
      in Hrow by (vm_compute; reflexivity).
    exact Hrow.
Defined.

(** C1, as amended. The rows an item adds are rows of its file results
    whose status is not [uptodate]: a file result that is already present
    never produces a row. With a database configured and opened, and an
    item whose date and timestamp the sink reads, the rows added are the
    rows of those file results, in their order, one for each of them whose
    commit the persistence layer accepts: all of them when no commit
    fails. Without a database, or when the sink raises, as it does on an
    item whose date or timestamp it does not read, the item adds no
    row. *)
Theorem rows_added_for_new_files (co : nat -> option string)
    (self : SQLDatabasePipeline.t) (item : Item) (w : World) :
  let fs := default [] (files item) in
  let r := SQLDatabasePipeline.process_item co self item w in
  exists acc,
    rows r.2 = rows w ++ acc /\
    (forall g, g ∈ acc ->
       exists f, f ∈ fs /\ fi_status f <> "uptodate" /\
                 file_path_ g = fi_path f /\ file_url g = fi_url f /\
                 file_checksum g = fi_checksum f) /\
    length acc <= length (List.filter is_new fs) /\
    (Forall (fun f => fi_status f = "uptodate") fs -> acc = []) /\
    (SQLDatabasePipeline.database_url self = None -> acc = []) /\
    (forall e, r.1 = Raise e -> acc = []) /\
    (forall url s,
       SQLDatabasePipeline.database_url self = Some url ->
       SQLDatabasePipeline.Session self = Some s ->
       (forall date_text t, item_get item "date" = VStr date_text ->
                            strptime date_text "%Y-%m-%d" <> Ok t) \/
       (forall stamp_text t, item_get item "scraped_at" = VStr stamp_text ->
                             strptime stamp_text "%Y-%m-%dT%H:%M:%S.%fZ" <> Ok t) ->
       (exists e, r.1 = Raise e) /\ acc = []) /\
    (forall url s date_text stamp_text t_date t_stamp,
       SQLDatabasePipeline.database_url self = Some url ->
       SQLDatabasePipeline.Session self = Some s ->
       item_get item "date" = VStr date_text ->
       strptime date_text "%Y-%m-%d" = Ok t_date ->
       item_get item "scraped_at" = VStr stamp_text ->
       strptime stamp_text "%Y-%m-%dT%H:%M:%S.%fZ" = Ok t_stamp ->
       let row f :=
         mkGazette (item_get item "source_text") (dt_date t_date)
           (item_get item "edition_number") (item_get item "is_extra_edition")
           (item_get item "power") t_stamp (item_get item "territory_id")
           (fi_path f) (fi_url f) (fi_checksum f) in
       r.1 = Ok item /\
       sublist acc (map row (List.filter is_new fs)) /\
       (forall g, g ∈ acc <->
          exists i f, List.filter is_new fs !! i = Some f /\
                      co (commits w + i) = None /\ g = row f) /\
       length acc =
         length (List.filter (fun i => bool_decide (co (commits w + i) = None))
                   (seq 0 (length (List.filter is_new fs)))) /\
       ((forall i, co (commits w + i) = None) ->
        acc = map row (List.filter is_new fs))).
Proof.
  intros fs r. subst r.
  unfold SQLDatabasePipeline.process_item.
  destruct (SQLDatabasePipeline.database_url self) as [url|] eqn:Eu.
  2: { exists []. cbn [fst snd]. rewrite app_nil_r.
       split; [reflexivity|]. split; [intros g Hg; inversion Hg|].
       split; [cbn; lia|]. repeat split; try discriminate. }
  destruct (SQLDatabasePipeline.Session self) as [s|] eqn:Es.
  2: { exists []. cbn [fst snd]. rewrite app_nil_r.
       split; [reflexivity|]. split; [intros g Hg; inversion Hg|].
       split; [cbn; lia|]. repeat split; try discriminate. }
  destruct (SQLDatabasePipeline.make_gazette_item item) as [gi|e] eqn:Eg.
  2: { exists []. cbn [fst snd rows SQLDatabasePipeline.session_open]. rewrite app_nil_r.
       split; [reflexivity|]. split; [intros g Hg; inversion Hg|].
       split; [cbn; lia|]. split; [reflexivity|]. split; [reflexivity|].
       split; [reflexivity|]. split.
       - intros _ _ _ _ _. split; [eexists; reflexivity | reflexivity].
       - intros url' s' date_text stamp_text t_date t_stamp _ _ Hd Hpd Hst Hps.
         rewrite (make_gazette_item_parsed item date_text stamp_text t_date t_stamp
                    Hd Hpd Hst Hps) in Eg. discriminate Eg. }
  rewrite persist_files_fold by reflexivity. cbv zeta. fold fs.
  cbn [fst snd rows commits SQLDatabasePipeline.session_open
       SQLDatabasePipeline.session_close].
  set (gs := map (SQLDatabasePipeline.make_gazette gi) (List.filter is_new fs)).
  assert (Hlen : length gs = length (List.filter is_new fs)) by apply length_map.
  exists (commit_all co (commits w) gs).1.
  split; [reflexivity|]. split.
  { intros g Hin. apply commit_all_accepted in Hin as (i & Hi & _).
    apply list_elem_of_lookup_2 in Hi. subst gs.
    apply list_elem_of_fmap in Hi as (f & -> & Hf).
    apply list_elem_of_In, filter_In in Hf as [Hf Hn].
    exists f. split; [apply list_elem_of_In, Hf|]. split; [|repeat split].
    intros E. unfold is_new in Hn. rewrite E in Hn. discriminate. }
  split.
  { pose proof (commit_all_length co gs (commits w)). lia. }
  split.
  { intros Hall. replace gs with (@nil Gazette); [reflexivity|].
    subst gs. clear -Hall. induction Hall as [|f l Hf _ IH]; [reflexivity|].
    cbn [List.filter]. unfold is_new at 1. rewrite Hf. cbn. exact IH. }
  split; [discriminate|]. split; [discriminate|]. split.
  { intros url' s' _ _ Hbad. destruct (make_gazette_item_unparsed item Hbad) as [e He].
    rewrite He in Eg. discriminate Eg. }
  intros url' s' date_text stamp_text t_date t_stamp _ _ Hd Hpd Hst Hps.
  rewrite (make_gazette_item_parsed item date_text stamp_text t_date t_stamp
             Hd Hpd Hst Hps) in Eg. injection Eg as <-.
  cbv zeta.
  change (SQLDatabasePipeline.make_gazette _) with
    (fun f => mkGazette (item_get item "source_text") (dt_date t_date)
                (item_get item "edition_number") (item_get item "is_extra_edition")
                (item_get item "power") t_stamp (item_get item "territory_id")
                (fi_path f) (fi_url f) (fi_checksum f)) in gs.
  fold gs.
  split; [reflexivity|]. split; [apply commit_all_sublist|].
  split.
  { intros g. rewrite commit_all_accepted. split.
    - intros (i & Hi & Ho). subst gs. rewrite list_lookup_fmap in Hi.
      destruct (List.filter is_new fs !! i) as [f|] eqn:Ef; [|discriminate Hi].
      injection Hi as <-. exists i, f. repeat split; assumption.
    - intros (i & f & Hi & Ho & ->). exists i. split; [|exact Ho].
      subst gs. rewrite list_lookup_fmap, Hi. reflexivity. }
  split; [rewrite commit_all_count, Hlen; reflexivity|].
  intros Hall. rewrite commit_all_no_failure; [reflexivity|]. intros; apply Hall.
Qed.

Lemma rows_added_for_new_files_witness :
  exists acc,
    rows (SQLDatabasePipeline.process_item first_commit_fails example_sink
            (example_item example_files) (mkWorld [] [] 0 0 [])).2 = [] ++ acc /\
    (SQLDatabasePipeline.process_item first_commit_fails example_sink
       (example_item example_files) (mkWorld [] [] 0 0 [])).1 =
      Ok (example_item example_files) /\
    length acc = 1.
Proof.
  assert (Hd : item_get (example_item example_files) "date" = VStr "2024-01-04")
    by (vm_compute; reflexivity).
  assert (Hs : item_get (example_item example_files) "scraped_at" =
               VStr "2024-01-05T10:07:00.000250Z") by (vm_compute; reflexivity).
  assert (Hpd : strptime "2024-01-04" "%Y-%m-%d" = Ok (mkDateTime (mkDate 2024 1 4) 0 0 0 0))
    by (vm_compute; reflexivity).
  assert (Hps : strptime "2024-01-05T10:07:00.000250Z" "%Y-%m-%dT%H:%M:%S.%fZ" =
                Ok (mkDateTime (mkDate 2024 1 5) 10 7 0 250)) by (vm_compute; reflexivity).
  destruct (rows_added_for_new_files first_commit_fails example_sink
              (example_item example_files) (mkWorld [] [] 0 0 []))
    as (acc & H1 & _ & _ & _ & _ & _ & _ & H8).
  destruct (H8 "postgresql://db" _ _ _ _ _ eq_refl eq_refl Hd Hpd Hs Hps)
    as (Hok & _ & _ & Hcount & _).
  exists acc. split; [exact H1|]. split; [exact Hok | exact Hcount].
Defined.

(** C1, as stated, fails twice over. Of two new file results the item
    adds one row when the persistence layer refuses a commit; and an item
    stamped on a whole second, whose timestamp the sink does not read,
    adds no row for its new file results although no commit fails. *)
Lemma rows_added_differ_from_new_files :
  let item := example_item example_files in
  let w' := (SQLDatabasePipeline.process_item first_commit_fails example_sink item
               (mkWorld [] [] 0 0 [])).2 in
  let item0 := set_scalar "scraped_at" (VStr "2024-01-05T10:07:00Z") item in
  let r0 := SQLDatabasePipeline.process_item (fun _ => None) example_sink item0
              (mkWorld [] [] 0 0 []) in
  (length (rows w') = 1 /\
   length (List.filter is_new (default [] (files item))) = 2) /\
  (r0.1 = Raise ValueError /\ rows r0.2 = [] /\
   length (List.filter is_new (default [] (files item0))) = 2).
Proof. repeat split; vm_compute; reflexivity. Qed.

(** C8. Without a database URL, opening the spider initializes no
    database and binds no session factory, and the sink returns every item
    as it is, leaving the database, the session and the log as they were,
    whatever the persistence layer would answer; through the whole
    sequence of stages the item and the storage root are those the stages
    before the sink produce. *)
Theorem sink_without_database_is_noop
    (super_file_path : Request -> string) (guess : list byte -> option Kind)
    (md5sum : list byte -> string) (basedir : string)
    (fetch : Request -> option Response) (expires : Z)
    (co : nat -> option string) (classes : list Spider)
    (utcnow : datetime) (now : Z) (item : Item) (spider : Spider)
    (st : FilesPipeline.state) (w : World) :
  let sink := SQLDatabasePipeline.open_spider classes
                (SQLDatabasePipeline.from_crawler None) in
  SQLDatabasePipeline.Session sink = None /\
  SQLDatabasePipeline.process_item co sink item w = (Ok item, w) /\
  ITEM_PIPELINES.process_item super_file_path guess md5sum basedir fetch expires co
    sink utcnow now item spider st w =
  (ITEM_PIPELINES.content_stages super_file_path guess md5sum basedir fetch expires
     utcnow now item spider st, w).
Proof.
  cbv zeta. repeat split.
  unfold ITEM_PIPELINES.process_item.
  destruct (ITEM_PIPELINES.content_stages _ _ _ _ _ _ _ _ _ _ _) as [[item'|e] st'];
    reflexivity.
Qed.

Example sink_with_database_is_opened :
  SQLDatabasePipeline.open_spider [example_spider]
    (SQLDatabasePipeline.from_crawler (Some "postgresql://db")) =
  SQLDatabasePipeline.mk (Some "postgresql://db")
    (Some (mkEngine "postgresql://db" [("sp_sao_paulo", "3550308", mkDate 2015 1 1)])).
Proof. reflexivity. Qed.

(** ** Paths *)

Example Path_examples :
  pathlib.to_str (pathlib.Path ["X"; "2024-01-05"; "abc123.pdf"]) = "X/2024-01-05/abc123.pdf" /\
  pathlib.to_str (pathlib.Path ["a"; "/b"; "c"]) = "/b/c" /\
  pathlib.to_str (pathlib.Path ["a/"; "./b//c"]) = "a/b/c" /\
  pathlib.to_str (pathlib.Path [""]) = "." /\
  pathlib.to_str (pathlib.Path ["//a"]) = "//a" /\
  pathlib.to_str (pathlib.Path ["///a"]) = "/a" /\
  pathlib.to_str (pathlib.parent (pathlib.Path ["X/2024-01-05/abc123"])) = "X/2024-01-05" /\
  pathlib.name (pathlib.Path ["full/abc123.pdf"]) = "abc123.pdf".
Proof. repeat split. Qed.

Example suffix_examples :
  pathlib.suffix (pathlib.Path ["full/abc123.pdf"]) = ".pdf" /\
  pathlib.suffix (pathlib.Path ["full/abc123"]) = "" /\
  pathlib.suffix (pathlib.Path ["a.tar.gz"]) = ".gz" /\
  pathlib.suffix (pathlib.Path [".bashrc"]) = "" /\
  pathlib.suffix (pathlib.Path ["abc."]) = "".
Proof. repeat split. Qed.

Example fnmatch_examples :
  pathlib.fnmatch "abc123.*" "abc123.pdf" = true /\
  pathlib.fnmatch "abc123.*" "abc123." = true /\
  pathlib.fnmatch "abc123.*" "abc123" = false /\
  pathlib.fnmatch "abc123.*" "abc1234.pdf" = false /\
  pathlib.fnmatch "a?c*" "abcd" = true.
Proof. repeat split. Qed.

Lemma sapp_cons (c : ascii) (s t : string) : String c s +:+ t = String c (s +:+ t).
Proof. reflexivity. Qed.

Lemma sapp_nil_l (s : string) : "" +:+ s = s.
Proof. reflexivity. Qed.

Lemma sapp_nil_r (s : string) : s +:+ "" = s.
Proof. induction s as [|c s IH]; [reflexivity|]. rewrite sapp_cons, IH. reflexivity. Qed.

Lemma sapp_assoc (a b c : string) : (a +:+ b) +:+ c = a +:+ b +:+ c.
Proof.
  induction a as [|x a IH]; [reflexivity|]. rewrite !sapp_cons, IH. reflexivity.
Qed.

Lemma split_on_not_nil (sep : ascii) (s : string) : pathlib.split_on sep s <> [].
Proof.
  induction s as [|c s IH]; cbn; [discriminate|].
  destruct (Ascii.eqb c sep); [discriminate|].
  destruct (pathlib.split_on sep s); discriminate.
Qed.

Lemma split_on_no_sep (sep : ascii) (s : string) :
  has_char sep s = false -> pathlib.split_on sep s = [s].
Proof.
  induction s as [|c s IH]; cbn; [reflexivity|].
  intros H. apply orb_false_iff in H as [Hc Hs].
  rewrite Hc, (IH Hs). reflexivity.
Qed.

Lemma split_on_app (sep : ascii) (a b : string) :
  pathlib.split_on sep (a +:+ String sep b) =
  pathlib.split_on sep a ++ pathlib.split_on sep b.
Proof.
  induction a as [|c a IH].
  - rewrite sapp_nil_l. cbn. rewrite Ascii.eqb_refl. reflexivity.
  - rewrite sapp_cons. cbn [pathlib.split_on]. rewrite IH.
    destruct (Ascii.eqb c sep); [reflexivity|].
    destruct (pathlib.split_on sep a) as [|x xs] eqn:E;
      [exfalso; exact (split_on_not_nil _ _ E) | reflexivity].
Qed.

Lemma split_on_no_sep_inside (sep : ascii) (s : string) :
  Forall (fun x => has_char sep x = false) (pathlib.split_on sep s).
Proof.
  induction s as [|c s IH]; cbn.
  - repeat constructor.
  - destruct (Ascii.eqb c sep) eqn:Ec.
    + constructor; [reflexivity | exact IH].
    + destruct (pathlib.split_on sep s) as [|x xs]; [repeat constructor; cbn; rewrite Ec; reflexivity|].
      apply Forall_cons_1 in IH as [Hx Hxs].
      constructor; [cbn; rewrite Ec, Hx; reflexivity | exact Hxs].
Qed.

(** The components of a parsed path are segments. *)
Lemma parse_path_segments (s : string) :
  Forall (fun x => is_segment x = true) (pathlib.parts (pathlib.parse_path s)).
Proof.
  unfold pathlib.parse_path. cbn [pathlib.parts].
  pose proof (split_on_no_sep_inside "/" s) as H.
  induction H as [|x l Hx _ IH]; cbn [List.filter]; [constructor|].
  destruct (pathlib.is_part x) eqn:Ep; [|exact IH].
  constructor; [|exact IH]. unfold is_segment. rewrite Ep, Hx. reflexivity.
Qed.

Lemma segment_no_slash (s : string) : is_segment s = true -> has_char "/" s = false.
Proof.
  unfold is_segment. intros H. apply andb_true_iff in H as [_ H].
  apply negb_true_iff in H. exact H.
Qed.

Lemma segment_is_part (s : string) : is_segment s = true -> pathlib.is_part s = true.
Proof. unfold is_segment. intros H. apply andb_true_iff in H as [H _]. exact H. Qed.

Lemma segment_not_empty (s : string) : is_segment s = true -> s <> "".
Proof. intros H ->. discriminate H. Qed.

Lemma startswith_no_char (c : ascii) (s : string) :
  has_char c s = false -> pathlib.startswith c s = false.
Proof.
  destruct s as [|x s]; [reflexivity|]. cbn. intros H.
  apply orb_false_iff in H as [H _]. exact H.
Qed.

Lemma endswith_no_char (c : ascii) (s : string) :
  has_char c s = false -> pathlib.endswith c s = false.
Proof.
  induction s as [|x s IH]; [reflexivity|]. cbn. intros H.
  apply orb_false_iff in H as [Hx Hs].
  destruct s; [exact Hx | exact (IH Hs)].
Qed.

Lemma endswith_app (c : ascii) (a b : string) :
  b <> "" -> pathlib.endswith c (a +:+ b) = pathlib.endswith c b.
Proof.
  intros Hb. induction a as [|x a IH]; [reflexivity|].
  rewrite sapp_cons. cbn [pathlib.endswith]. rewrite IH.
  destruct (a +:+ b) eqn:E; [|reflexivity].
  destruct a; [rewrite sapp_nil_l in E; contradiction | discriminate E].
Qed.

Lemma endswith_inv (c : ascii) (s : string) :
  pathlib.endswith c s = true -> exists s', s = s' +:+ String c "".
Proof.
  induction s as [|x s IH]; [discriminate|]. cbn.
  destruct s as [|y s].
  - intros H. apply Ascii.eqb_eq in H. subst x. exists "". reflexivity.
  - intros H. destruct (IH H) as [s' ->]. exists (String x s'). reflexivity.
Qed.

Lemma string_eqb_empty (s : string) : String.eqb s "" = false <-> s <> "".
Proof. destruct s; cbn; split; congruence. Qed.

Lemma root_of_app_relative (a b : string) :
  a <> "" -> pathlib.startswith "/" b = false ->
  pathlib.root_of (a +:+ b) = pathlib.root_of a.
Proof.
  intros Ha Hb.
  destruct a as [|c1 [|c2 [|c3 a]]]; [contradiction | | |];
    rewrite ?sapp_cons, ?sapp_nil_l; cbn [pathlib.root_of];
    destruct b as [|x b]; cbn in Hb; rewrite ?Hb; reflexivity.
Qed.

Lemma root_of_app_open (a b : string) :
  a <> "" -> pathlib.endswith "/" a = false ->
  pathlib.root_of (a +:+ b) = pathlib.root_of a.
Proof.
  intros Ha He.
  destruct a as [|c1 [|c2 [|c3 a]]]; [contradiction | | |];
    rewrite ?sapp_cons, ?sapp_nil_l; cbn [pathlib.root_of]; cbn in He.
  - rewrite He. reflexivity.
  - rewrite He. destruct (Ascii.eqb c1 "/"); reflexivity.
  - reflexivity.
Qed.

Lemma root_of_relative (s : string) :
  pathlib.startswith "/" s = false -> pathlib.root_of s = "".
Proof.
  destruct s as [|c s]; [reflexivity|]. cbn. intros ->. reflexivity.
Qed.

Lemma filter_is_part_segments (l : list string) :
  Forall (fun x => is_segment x = true) l -> List.filter pathlib.is_part l = l.
Proof.
  induction 1 as [|x l Hx _ IH]; [reflexivity|].
  cbn. rewrite (segment_is_part x Hx), IH. reflexivity.
Qed.

(** [Path(a, rel)] for a relative [rel]: the components of [rel] under
    those of [a]. *)
Lemma Path_join_relative (a rel : string) :
  pathlib.startswith "/" rel = false ->
  pathlib.Path [a; rel] =
  pathlib.mkPath (pathlib.root_of a)
    (pathlib.parts (pathlib.parse_path a) ++ pathlib.parts (pathlib.parse_path rel)).
Proof.
  intros Hrel. unfold pathlib.Path, pathlib.posix_join. cbn [fold_left].
  unfold pathlib.join2. rewrite Hrel.
  destruct (String.eqb a "") eqn:Ea.
  - apply String.eqb_eq in Ea. subst a. cbn [orb]. rewrite sapp_nil_l.
    unfold pathlib.parse_path. cbn [pathlib.parts pathlib.root_of pathlib.split_on List.filter].
    cbn. rewrite (root_of_relative rel Hrel). reflexivity.
  - apply string_eqb_empty in Ea. cbn [orb].
    destruct (pathlib.endswith "/" a) eqn:Ee.
    + destruct (endswith_inv _ _ Ee) as [a' Ea'].
      unfold pathlib.parse_path. cbn [pathlib.parts].
      rewrite (root_of_app_relative a rel Ea Hrel). f_equal.
      rewrite Ea', sapp_assoc. change (String "/" "" +:+ rel) with (String "/"%char rel).
      rewrite !split_on_app, !List.filter_app. cbn [pathlib.split_on List.filter].
      cbn. rewrite app_nil_r. reflexivity.
    + unfold pathlib.parse_path. cbn [pathlib.parts].
      change ("/" +:+ rel) with (String "/"%char rel).
      rewrite (root_of_app_open a _ Ea Ee), split_on_app, List.filter_app. reflexivity.
Qed.

Lemma startswith_segment (s : string) :
  is_segment s = true -> pathlib.startswith "/" s = false.
Proof. intros H. apply startswith_no_char, segment_no_slash, H. Qed.

Lemma startswith_join (s : string) (l : list string) :
  is_segment s = true -> pathlib.startswith "/" (pathlib.join "/" (s :: l)) = false.
Proof.
  intros H. pose proof (startswith_segment s H) as Hs.
  destruct s as [|c s]; [discriminate H|].
  destruct l; cbn [pathlib.join]; [exact Hs|]. rewrite sapp_cons. exact Hs.
Qed.

(** A relative path written with slashes parses into its segments. *)
Lemma parse_path_join (l : list string) :
  Forall (fun x => is_segment x = true) l ->
  pathlib.parse_path (pathlib.join "/" l) = pathlib.mkPath "" l.
Proof.
  intros Hl. unfold pathlib.parse_path. f_equal.
  - destruct Hl as [|s l Hs _]; [reflexivity|].
    apply root_of_relative, startswith_join, Hs.
  - induction Hl as [|s l Hs Hl IH]; [reflexivity|].
    destruct l as [|s' l].
    + cbn [pathlib.join]. rewrite (split_on_no_sep _ _ (segment_no_slash s Hs)).
      cbn. rewrite (segment_is_part s Hs). reflexivity.
    + change (pathlib.join "/" (s :: s' :: l))
        with (s +:+ String "/"%char (pathlib.join "/" (s' :: l))).
      rewrite split_on_app, List.filter_app, IH.
      rewrite (split_on_no_sep _ _ (segment_no_slash s Hs)).
      cbn. rewrite (segment_is_part s Hs). reflexivity.
Qed.

Lemma to_str_relative (l : list string) :
  l <> [] -> pathlib.to_str (pathlib.mkPath "" l) = pathlib.join "/" l.
Proof. destruct l; [contradiction|]. reflexivity. Qed.

(** The storage path of three segments. *)
Lemma Path_three_segments (a b c : string) :
  is_segment a = true -> is_segment b = true -> is_segment c = true ->
  pathlib.Path [a; b; c] = pathlib.mkPath "" [a; b; c].
Proof.
  intros Ha Hb Hc. unfold pathlib.Path, pathlib.posix_join. cbn [fold_left].
  assert (Eab : pathlib.join2 a b = a +:+ "/" +:+ b).
  { unfold pathlib.join2. rewrite (startswith_segment b Hb).
    rewrite (proj2 (string_eqb_empty a) (segment_not_empty a Ha)).
    rewrite (endswith_no_char _ _ (segment_no_slash a Ha)). reflexivity. }
  rewrite Eab. unfold pathlib.join2. rewrite (startswith_segment c Hc).
  assert (Hne : a +:+ "/" +:+ b <> "").
  { destruct a; [discriminate Ha | discriminate]. }
  rewrite (proj2 (string_eqb_empty _) Hne).
  change (a +:+ "/" +:+ b) with (a +:+ String "/"%char b) at 1.
  rewrite endswith_app by discriminate.
  assert (Eb : pathlib.endswith "/" (String "/" b) = false).
  { cbn [pathlib.endswith]. destruct b as [|x b]; [discriminate Hb|].
    apply (endswith_no_char _ _ (segment_no_slash _ Hb)). }
  rewrite Eb. cbn [orb]. rewrite sapp_assoc.
  apply (parse_path_join [a; b; c]). repeat constructor; assumption.
Qed.

(** ** The files pipeline: names and paths *)

Lemma has_char_app (c : ascii) (a b : string) :
  has_char c (a +:+ b) = has_char c a || has_char c b.
Proof.
  induction a as [|x a IH]; [reflexivity|].
  rewrite sapp_cons. cbn [has_char]. rewrite IH, orb_assoc. reflexivity.
Qed.

Lemma segment_with_extension (base ext : string) :
  is_segment base = true -> has_char "/" ext = false ->
  is_segment (base +:+ "." +:+ ext) = true.
Proof.
  intros Hb He. unfold is_segment.
  rewrite !has_char_app, (segment_no_slash base Hb), He.
  destruct base as [|c base]; [discriminate Hb|].
  rewrite sapp_cons.
  assert (Hx : base +:+ "." +:+ ext <> "").
  { destruct base; rewrite ?sapp_nil_l, !sapp_cons; discriminate. }
  unfold pathlib.is_part. cbn [String.eqb].
  destruct (base +:+ "." +:+ ext); [contradiction|].
  destruct (Ascii.eqb c "."); reflexivity.
Qed.

Lemma last_segment (l : list string) :
  Forall (fun x => is_segment x = true) l -> l <> [] ->
  is_segment (List.last l "") = true.
Proof.
  induction 1 as [|x l Hx Hl IH]; [contradiction|]. intros _.
  destruct l as [|y l]; [exact Hx|]. apply IH. discriminate.
Qed.

Lemma base_name_segment (s : string) :
  pathlib.parts (pathlib.Path [s]) <> [] ->
  is_segment (pathlib.name (pathlib.Path [s])) = true.
Proof.
  intros H. apply last_segment; [apply parse_path_segments | exact H].
Qed.

Section FileNames.

Context (super_file_path : Request -> string) (guess : list byte -> option Kind).

Local Abbreviation file_name := (QueridoDiarioFilesPipeline.file_name super_file_path guess).
Local Abbreviation file_path := (QueridoDiarioFilesPipeline.file_path super_file_path guess).
Local Abbreviation base_name request := (pathlib.name (pathlib.Path [super_file_path request])).

Lemma file_name_cases (request : Request) (response : option Response) :
  file_name request response = base_name request \/
  exists r kind,
    response = Some r /\
    pathlib.suffix (pathlib.Path [super_file_path request]) = "" /\
    guess (take 261 (resp_body r)) = Some kind /\
    file_name request response = base_name request +:+ "." +:+ extension kind.
Proof.
  unfold QueridoDiarioFilesPipeline.file_name,
    QueridoDiarioFilesPipeline._detect_extension.
  destruct response as [r|]; [|left; reflexivity].
  destruct (String.eqb (pathlib.suffix _) "") eqn:Es; [|left; reflexivity].
  destruct (guess (take 261 (resp_body r))) as [kind|] eqn:Eg; [|left; reflexivity].
  destruct (String.eqb (extension kind) ""); cbn [negb]; [left; reflexivity|].
  right. exists r, kind. apply String.eqb_eq in Es. repeat split; assumption.
Qed.

Lemma file_name_segment (request : Request) (response : option Response) :
  pathlib.parts (pathlib.Path [super_file_path request]) <> [] ->
  (forall buf kind, guess buf = Some kind -> has_char "/" (extension kind) = false) ->
  is_segment (file_name request response) = true.
Proof.
  intros Hn Hg. pose proof (base_name_segment _ Hn) as Hb.
  destruct (file_name_cases request response) as [->|(r & kind & _ & _ & Ek & ->)];
    [exact Hb|].
  apply segment_with_extension; [exact Hb | exact (Hg _ _ Ek)].
Qed.

Lemma file_path_segments (request : Request) (response : option Response)
    (item : Item) (territory date : string) :
  scalars item !! "territory_id" = Some (VStr territory) ->
  scalars item !! "date" = Some (VStr date) ->
  is_segment territory = true -> is_segment date = true ->
  is_segment (file_name request response) = true ->
  file_path request response (Some item) =
  Ok (pathlib.join "/" [territory; date; file_name request response]).
Proof.
  intros Ht Hd Hts Hds Hfs. unfold QueridoDiarioFilesPipeline.file_path, getitem.
  rewrite Ht, Hd. cbn.
  rewrite (Path_three_segments _ _ _ Hts Hds Hfs). reflexivity.
Qed.

(** C5. For an item whose territory id and date are path segments, the
    storage path is [<territory_id>/<date>/<name>], where the name is the
    name of the default path of the request, a function of the request
    alone, followed by a dot and the inferred extension when one is
    inferred. *)
Theorem storage_path_layout (request : Request) (response : option Response)
    (item : Item) (territory date : string) :
  scalars item !! "territory_id" = Some (VStr territory) ->
  scalars item !! "date" = Some (VStr date) ->
  is_segment territory = true -> is_segment date = true ->
  pathlib.parts (pathlib.Path [super_file_path request]) <> [] ->
  (forall buf kind, guess buf = Some kind -> has_char "/" (extension kind) = false) ->
  exists filename,
    file_path request response (Some item) =
      Ok (territory +:+ "/" +:+ date +:+ "/" +:+ filename) /\
    (filename = base_name request \/
     exists kind, filename = base_name request +:+ "." +:+ extension kind) /\
    (forall r kind,
       response = Some r ->
       pathlib.suffix (pathlib.Path [super_file_path request]) = "" ->
       guess (take 261 (resp_body r)) = Some kind -> extension kind <> "" ->
       filename = base_name request +:+ "." +:+ extension kind).
Proof.
  intros Ht Hd Hts Hds Hn Hg. exists (file_name request response).
  split; [|split].
  - apply file_path_segments; try assumption. apply file_name_segment; assumption.
  - destruct (file_name_cases request response) as [E|(r & kind & _ & _ & _ & E)];
      [left; exact E | right; exists kind; exact E].
  - intros r kind -> Hs Hk He.
    unfold QueridoDiarioFilesPipeline.file_name,
      QueridoDiarioFilesPipeline._detect_extension.
    rewrite Hs, Hk. cbn [String.eqb].
    rewrite (proj2 (string_eqb_empty _) He). reflexivity.
Qed.

(** C6. When the default path of a request has no extension, the name
    under which the response is stored depends on the body through its
    first 261 bytes only: it is the default name followed by a dot and the
    extension of the file type guessed from them, and the default name,
    without extension, when no file type is guessed. When the default path
    has an extension the body is not looked at. *)
Theorem extension_inferred_from_header (request : Request) (response : Response) :
  (pathlib.suffix (pathlib.Path [super_file_path request]) = "" ->
   (forall kind,
      guess (take 261 (resp_body response)) = Some kind -> extension kind <> "" ->
      file_name request (Some response) = base_name request +:+ "." +:+ extension kind) /\
   (guess (take 261 (resp_body response)) = None ->
    file_name request (Some response) = base_name request /\
    pathlib.suffix (pathlib.mkPath "" [file_name request (Some response)]) = "") /\
   (forall response',
      take 261 (resp_body response') = take 261 (resp_body response) ->
      file_name request (Some response') = file_name request (Some response))) /\
  (pathlib.suffix (pathlib.Path [super_file_path request]) <> "" ->
   file_name request (Some response) = base_name request) /\
  (forall item territory date,
     scalars item !! "territory_id" = Some (VStr territory) ->
     scalars item !! "date" = Some (VStr date) ->
     is_segment territory = true -> is_segment date = true ->
     is_segment (file_name request (Some response)) = true ->
     file_path request (Some response) (Some item) =
     Ok (territory +:+ "/" +:+ date +:+ "/" +:+ file_name request (Some response))).
Proof.
  split; [|split].
  - intros Hs. unfold QueridoDiarioFilesPipeline.file_name,
      QueridoDiarioFilesPipeline._detect_extension.
    rewrite Hs. cbn [String.eqb]. repeat split.
    + intros kind -> He. rewrite (proj2 (string_eqb_empty _) He). reflexivity.
    + rewrite H. reflexivity.
    + rewrite H. cbn [String.eqb negb]. exact Hs.
    + intros response' ->. reflexivity.
  - intros Hs. unfold QueridoDiarioFilesPipeline.file_name.
    rewrite (proj2 (string_eqb_empty _) Hs). reflexivity.
  - intros item territory date Ht Hd Hts Hds Hfs.
    apply (file_path_segments request (Some response) item territory date
             Ht Hd Hts Hds Hfs).
Qed.

End FileNames.

Lemma guess_pdf_extension (buf : list byte) (kind : Kind) :
  guess_pdf buf = Some kind -> has_char "/" (extension kind) = false.
Proof.
  unfold guess_pdf. destruct (has_signature _ buf); [|discriminate].
  intros H. injection H as <-. reflexivity.
Qed.

Lemma storage_path_layout_witness :
  QueridoDiarioFilesPipeline.file_path example_default_path guess_pdf
    example_request (Some example_response)
    (Some (mkItem {[ "territory_id" := VStr "X"; "date" := VStr "2024-01-05" ]}
             None None None)) =
  Ok "X/2024-01-05/abc123.pdf".
Proof.
  destruct (storage_path_layout example_default_path guess_pdf
              example_request (Some example_response)
              (mkItem {[ "territory_id" := VStr "X"; "date" := VStr "2024-01-05" ]}
                 None None None) "X" "2024-01-05")
    as (filename & Hp & _ & Hk).
  - vm_compute; reflexivity.
  - vm_compute; reflexivity.
  - reflexivity.
  - reflexivity.
  - vm_compute. discriminate.
  - exact guess_pdf_extension.
  - rewrite (Hk example_response (mkKind "pdf" "application/pdf") eq_refl) in Hp.
    + exact Hp.
    + reflexivity.
    + reflexivity.
    + discriminate.
Defined.

Lemma extension_inferred_from_header_witness :
  QueridoDiarioFilesPipeline.file_name example_default_path guess_pdf
    example_request (Some example_response) = "abc123.pdf" /\
  QueridoDiarioFilesPipeline.file_name example_default_path guess_pdf
    example_request (Some (mkResponse 200 [x00; x01; x02] [])) = "abc123".
Proof.
  pose proof (extension_inferred_from_header example_default_path guess_pdf
                example_request example_response) as (H1 & _).
  pose proof (extension_inferred_from_header example_default_path guess_pdf
                example_request (mkResponse 200 [x00; x01; x02] [])) as (H2 & _).
  split.
  - apply (proj1 (H1 eq_refl) (mkKind "pdf" "application/pdf"));
      [reflexivity | discriminate].
  - apply (proj1 (proj2 (H2 eq_refl))). reflexivity.
Defined.

(** ** The probe of the store *)

Lemma fnmatch_star (s : string) : pathlib.fnmatch "*" s = true.
Proof.
  induction s as [|c s IH]; [reflexivity|].
  cbn in *. exact IH.
Qed.

Lemma fnmatch_literal (name rest : string) : forall s,
  no_magic name = true ->
  pathlib.fnmatch (name +:+ rest) s = true <->
  exists s', s = name +:+ s' /\ pathlib.fnmatch rest s' = true.
Proof.
  induction name as [|c name IH]; intros s Hn.
  - rewrite sapp_nil_l. split; [intros H; exists s; split; [reflexivity|exact H]|].
    intros (s' & -> & H). exact H.
  - assert (Hc : Ascii.eqb c "*" = false /\ Ascii.eqb c "?" = false /\ no_magic name = true).
    { unfold no_magic in *. cbn [has_char] in Hn.
      rewrite !andb_true_iff, !negb_true_iff, !orb_false_iff in Hn.
      rewrite !andb_true_iff, !negb_true_iff. tauto. }
    destruct Hc as (H1 & H2 & H3).
    rewrite sapp_cons. cbn [pathlib.fnmatch]. rewrite H1, H2.
    destruct s as [|x s].
    + split; [discriminate|]. intros (s' & E & _). discriminate E.
    + rewrite andb_true_iff, Ascii.eqb_eq, (IH s H3). split.
      * intros (-> & s' & -> & H). exists s'. split; [reflexivity | exact H].
      * intros (s' & E & H). rewrite sapp_cons in E. injection E as -> ->.
        split; [reflexivity|]. exists s'. split; [reflexivity | exact H].
Qed.

(** The pattern [<name>.*] matches the names that extend [<name>.] . *)
Lemma fnmatch_any_extension (name e : string) :
  no_magic name = true ->
  pathlib.fnmatch (name +:+ ".*") e = true <-> exists ext, e = name +:+ "." +:+ ext.
Proof.
  intros Hn. rewrite (fnmatch_literal name ".*" e Hn). split.
  - intros (s' & -> & H). destruct s' as [|x s']; [discriminate H|].
    change (pathlib.fnmatch ".*" (String x s'))
      with (Ascii.eqb "." x && pathlib.fnmatch "*" s') in H.
    apply andb_true_iff in H as [Hx _]. apply Ascii.eqb_eq in Hx. subst x.
    exists s'. reflexivity.
  - intros (ext & ->). exists ("." +:+ ext). split; [reflexivity|].
    change ("." +:+ ext) with (String "."%char ext).
    change (pathlib.fnmatch ".*" (String "." ext))
      with (Ascii.eqb "." "." && pathlib.fnmatch "*" ext).
    rewrite fnmatch_star. reflexivity.
Qed.

Lemma filter_first {A : Type} (P : A -> bool) (l : list A) :
  match List.filter P l with
  | [] => forall x, In x l -> P x = false
  | x :: _ =>
      exists before after,
        l = before ++ x :: after /\ P x = true /\
        forall y, In y before -> P y = false
  end.
Proof.
  induction l as [|a l IH]; cbn [List.filter]; [intros x []|].
  destruct (P a) eqn:Ea.
  - exists [], l. repeat split; [exact Ea | intros y []].
  - destruct (List.filter P l) as [|x rest].
    + intros x [<-|Hx]; [exact Ea | exact (IH x Hx)].
    + destruct IH as (before & after & -> & Hx & Hb).
      exists (a :: before), after. repeat split; [exact Hx|].
      intros y [<-|Hy]; [exact Ea | exact (Hb y Hy)].
Qed.

(** ** The storage root *)

Lemma disk_lookup_Some (d : Disk) (p : pathlib.PurePath) (f : File) :
  disk_lookup d p = Some f -> In (p, f) d.
Proof.
  unfold disk_lookup. destruct (List.find _ d) as [[q g]|] eqn:E; [|discriminate].
  cbn. intros H. injection H as ->.
  apply find_some in E as [Hin Hq]. cbn in Hq.
  apply bool_decide_eq_true in Hq. subst q. exact Hin.
Qed.

Lemma on_disk_In (d : Disk) (p : pathlib.PurePath) (f : File) :
  In (p, f) d -> on_disk d p.
Proof.
  intros Hin. unfold on_disk, disk_lookup.
  destruct (List.find _ d) as [e|] eqn:E; [eexists; reflexivity|].
  exfalso. pose proof (find_none _ _ E _ Hin) as Hn. cbn in Hn.
  apply bool_decide_eq_false in Hn. contradiction.
Qed.

Lemma disk_lookup_write_eq (d : Disk) (p : pathlib.PurePath) (f : File) :
  disk_lookup (disk_write d p f) p = Some f.
Proof.
  unfold disk_lookup. induction d as [|[q g] d IH]; cbn.
  - rewrite bool_decide_eq_true_2 by reflexivity. reflexivity.
  - destruct (bool_decide (q = p)) eqn:E; cbn.
    + rewrite bool_decide_eq_true_2 by reflexivity. reflexivity.
    + rewrite E. exact IH.
Qed.

Lemma disk_lookup_write_ne (d : Disk) (p q : pathlib.PurePath) (f : File) :
  q <> p -> disk_lookup (disk_write d p f) q = disk_lookup d q.
Proof.
  intros Hne. unfold disk_lookup. induction d as [|[r g] d IH]; cbn.
  - rewrite bool_decide_eq_false_2 by congruence. reflexivity.
  - destruct (bool_decide (r = p)) eqn:E; cbn.
    + apply bool_decide_eq_true in E. subst r.
      rewrite !bool_decide_eq_false_2 by congruence. reflexivity.
    + destruct (bool_decide (r = q)); [reflexivity | exact IH].
Qed.

Lemma disk_le_refl (d : Disk) : disk_le d d.
Proof. intros p H. exact H. Qed.

Lemma disk_le_trans (a b c : Disk) : disk_le a b -> disk_le b c -> disk_le a c.
Proof. intros H1 H2 p H. apply H2, H1, H. Qed.

Lemma disk_le_write (d : Disk) (p : pathlib.PurePath) (f : File) :
  disk_le d (disk_write d p f).
Proof.
  intros q H. unfold on_disk in *. destruct (decide (q = p)) as [->|Hne].
  - rewrite disk_lookup_write_eq. eexists; reflexivity.
  - rewrite disk_lookup_write_ne by exact Hne. exact H.
Qed.

Lemma on_disk_write (d : Disk) (p q : pathlib.PurePath) (f : File) :
  on_disk (disk_write d p f) q -> q = p \/ on_disk d q.
Proof.
  intros H. destruct (decide (q = p)) as [E|E]; [left; exact E|].
  right. unfold on_disk in *. rewrite disk_lookup_write_ne in H by exact E. exact H.
Qed.

Lemma abs_path_inj (basedir : string) (a b : list string) :
  abs_path basedir a = abs_path basedir b -> a = b.
Proof.
  unfold abs_path. intros H. injection H as H. exact (app_inv_head _ _ _ H).
Qed.

Lemma name_is_segment (s : string) : is_name s = true -> is_segment s = true.
Proof. unfold is_name. intros H. apply andb_true_iff in H as [H _]. exact H. Qed.

Lemma is_name_intro (s : string) : is_segment s = true -> s <> ".." -> is_name s = true.
Proof.
  intros Hs Hne. unfold is_name. rewrite Hs. cbn [andb]. apply negb_true_iff.
  destruct (String.eqb_spec s ".."); [contradiction | reflexivity].
Qed.

(** A name with an extension is a name. *)
Lemma name_with_extension (base ext : string) :
  is_segment base = true -> has_char "/" ext = false ->
  is_name (base +:+ "." +:+ ext) = true.
Proof.
  intros Hb He. apply is_name_intro; [apply segment_with_extension; assumption|].
  apply segment_is_part in Hb. unfold pathlib.is_part in Hb.
  destruct base as [|c [|c' base]]; [discriminate Hb| |].
  - destruct (Ascii.eqb_spec c "."); [subst c; discriminate Hb|].
    rewrite sapp_cons. intros E. injection E as E _. contradiction.
  - rewrite !sapp_cons. intros E. injection E as _ _ E.
    destruct base; discriminate E.
Qed.

Lemma strip_prefix_app (p l q : list string) :
  strip_prefix (p ++ l) (p ++ q) = strip_prefix l q.
Proof.
  induction p as [|x p IH]; [reflexivity|].
  cbn [app strip_prefix]. rewrite String.eqb_refl. exact IH.
Qed.

(** The entry of a directory under the storage root through which a path
    under the storage root goes. *)
Lemma child_of_abs (basedir : string) (segs segs' : list string) :
  child_of (abs_path basedir segs) (abs_path basedir segs') =
  match strip_prefix segs segs' with
  | Some (x :: _) => Some x
  | _ => None
  end.
Proof.
  unfold child_of, abs_path. cbn [pathlib.root pathlib.parts].
  rewrite String.eqb_refl, strip_prefix_app. reflexivity.
Qed.

Lemma in_dedup (x : string) (l : list string) : In x (dedup l) <-> In x l.
Proof.
  induction l as [|a l IH]; [reflexivity|].
  cbn [dedup]. split.
  - intros [->|H]; [left; reflexivity|].
    apply filter_In in H as [H _]. right. apply IH, H.
  - intros [->|H]; [left; reflexivity|].
    destruct (String.eqb_spec x a) as [->|Hne]; [left; reflexivity|].
    right. apply filter_In. split; [apply IH, H|].
    apply negb_true_iff. destruct (String.eqb_spec x a); [contradiction | reflexivity].
Qed.

Lemma wf_disk_In (basedir : string) (d : Disk) (q : pathlib.PurePath) (x : File) :
  wf_disk basedir d -> In (q, x) d ->
  exists t dt f,
    q = abs_path basedir [t; dt; f] /\
    is_name t = true /\ is_name dt = true /\ is_name f = true.
Proof.
  unfold wf_disk. rewrite Forall_forall. intros H Hin.
  exact (H (q, x) (proj2 (list_elem_of_In _ _) Hin)).
Qed.

Lemma wf_disk_write (basedir : string) (d : Disk) (t dt f : string) (x : File) :
  wf_disk basedir d ->
  is_name t = true -> is_name dt = true -> is_name f = true ->
  wf_disk basedir (disk_write d (abs_path basedir [t; dt; f]) x).
Proof.
  intros Hd Ht Hdt Hf. unfold wf_disk in *.
  assert (Hp : exists t' dt' f',
             abs_path basedir [t; dt; f] = abs_path basedir [t'; dt'; f'] /\
             is_name t' = true /\ is_name dt' = true /\ is_name f' = true)
    by (exists t, dt, f; repeat split; assumption).
  induction Hd as [|[q g] d Hq Hd IH]; cbn.
  - repeat constructor. exact Hp.
  - destruct (bool_decide (q = abs_path basedir [t; dt; f])); constructor; assumption.
Qed.

(** The entries of a date directory of the storage root are the names of
    the files stored in it. *)
Lemma in_listdir (basedir : string) (d : Disk) (t dt e : string) :
  wf_disk basedir d ->
  In e (listdir d (abs_path basedir [t; dt])) <->
  on_disk d (abs_path basedir [t; dt; e]).
Proof.
  intros Hwf. unfold listdir. rewrite in_dedup, <- list_elem_of_In, list_elem_of_omap.
  split.
  - intros ([q x] & Hin & Hc). apply list_elem_of_In in Hin. cbn [fst] in Hc.
    destruct (wf_disk_In basedir d q x Hwf Hin) as (t' & dt' & f' & -> & _).
    rewrite child_of_abs in Hc. cbn [strip_prefix] in Hc.
    destruct (String.eqb_spec t t') as [->|]; [|discriminate Hc].
    destruct (String.eqb_spec dt dt') as [->|]; [|discriminate Hc].
    injection Hc as ->. exact (on_disk_In d _ x Hin).
  - intros [x Hx]. apply disk_lookup_Some in Hx.
    exists (abs_path basedir [t; dt; e], x). split; [apply list_elem_of_In, Hx|].
    cbn [fst]. rewrite child_of_abs. cbn [strip_prefix]. rewrite !String.eqb_refl.
    reflexivity.
Qed.

(** A name listed in a date directory is the name of a stored file. *)
Lemma listdir_entry (basedir : string) (d : Disk) (t dt e : string) :
  wf_disk basedir d -> In e (listdir d (abs_path basedir [t; dt])) ->
  is_name e = true /\ on_disk d (abs_path basedir [t; dt; e]).
Proof.
  intros Hwf He. apply (in_listdir basedir d t dt e Hwf) in He. split; [|exact He].
  destruct He as [x Hx]. apply disk_lookup_Some in Hx.
  destruct (wf_disk_In basedir d _ x Hwf Hx) as (t' & dt' & f' & E & _ & _ & Hf).
  apply abs_path_inj in E. injection E as _ _ ->. exact Hf.
Qed.

(** No stored file is a directory, and no stored file lies on the way to
    a file of a date directory. *)
Lemma is_dir_wf (basedir : string) (d : Disk) (t dt f : string) :
  wf_disk basedir d -> is_dir d (abs_path basedir [t; dt; f]) = false.
Proof.
  intros Hwf. unfold is_dir.
  induction Hwf as [|[q x] l (t' & dt' & f' & Hq & _) _ IH]; [reflexivity|].
  cbn [existsb fst]. rewrite IH, orb_false_r. cbn [fst] in Hq. subst q.
  unfold below. rewrite child_of_abs. cbn [strip_prefix].
  destruct (String.eqb t t'), (String.eqb dt dt'), (String.eqb f f'); reflexivity.
Qed.

Lemma file_on_the_way_wf (basedir : string) (d : Disk) (t dt f : string) :
  wf_disk basedir d -> file_on_the_way d (abs_path basedir [t; dt; f]) = false.
Proof.
  intros Hwf. unfold file_on_the_way.
  induction Hwf as [|[q x] l (t' & dt' & f' & Hq & _) _ IH]; [reflexivity|].
  cbn [existsb fst]. rewrite IH, orb_false_r. cbn [fst] in Hq. subst q.
  unfold below. rewrite child_of_abs. cbn [strip_prefix].
  destruct (String.eqb t' t), (String.eqb dt' dt), (String.eqb f' f); reflexivity.
Qed.

Section Probe.

Context (md5sum : list byte -> string) (basedir : string).

Lemma fs_path_segments (segs : list string) :
  Forall (fun x => is_segment x = true) segs -> segs <> [] ->
  FSFilesStore._get_filesystem_path basedir (pathlib.join "/" segs) =
  abs_path basedir segs.
Proof.
  intros Hs Hne. unfold FSFilesStore._get_filesystem_path, abs_path.
  destruct Hs as [|s l Hs Hl]; [contradiction|].
  rewrite Path_join_relative by (apply startswith_join, Hs).
  rewrite parse_path_join by (constructor; assumption). reflexivity.
Qed.

Lemma fs_path_names (t d f : string) :
  is_name t = true -> is_name d = true -> is_name f = true ->
  FSFilesStore._get_filesystem_path basedir (pathlib.join "/" [t; d; f]) =
  abs_path basedir [t; d; f].
Proof.
  intros Ht Hd Hf. apply fs_path_segments; [|discriminate].
  repeat constructor; apply name_is_segment; assumption.
Qed.

Lemma parent_abs_path (segs : list string) (e : string) :
  pathlib.parent (abs_path basedir (segs ++ [e])) = abs_path basedir segs.
Proof.
  unfold pathlib.parent, abs_path. cbn [pathlib.root pathlib.parts].
  rewrite app_assoc, removelast_last. reflexivity.
Qed.

(** The base store on a path of territory, date and file name, over a
    well-formed root: the stat of the file of that path, if any. *)
Lemma stat_file_stored (disk : Disk) (t d f : string) :
  wf_disk basedir disk ->
  is_name t = true -> is_name d = true -> is_name f = true ->
  FSFilesStore.stat_file md5sum basedir disk (pathlib.join "/" [t; d; f]) =
  Ok ((fun x => mkStat (st_mtime x) (md5sum (content x))) <$>
        disk_lookup disk (abs_path basedir [t; d; f])).
Proof.
  intros Hwf Ht Hd Hf. unfold FSFilesStore.stat_file.
  rewrite (fs_path_names t d f Ht Hd Hf).
  destruct (disk_lookup disk _); [reflexivity|].
  rewrite (is_dir_wf basedir disk t d f Hwf). reflexivity.
Qed.

(** Storing under such a path over a well-formed root writes the file. *)
Lemma persist_file_stored (now : Z) (disk : Disk) (t d f : string) (buf : list byte) :
  wf_disk basedir disk ->
  is_name t = true -> is_name d = true -> is_name f = true ->
  FSFilesStore.persist_file basedir now disk (pathlib.join "/" [t; d; f]) buf =
  Ok (disk_write disk (abs_path basedir [t; d; f]) (mkFile now buf)).
Proof.
  intros Hwf Ht Hd Hf. unfold FSFilesStore.persist_file.
  rewrite (fs_path_names t d f Ht Hd Hf).
  rewrite (file_on_the_way_wf basedir disk t d f Hwf).
  rewrite (is_dir_wf basedir disk t d f Hwf). reflexivity.
Qed.

Lemma find_file_segments (disk : Disk) (t d f : string) :
  wf_disk basedir disk ->
  is_name t = true -> is_name d = true -> is_name f = true ->
  QueridoDiarioFSFilesStore._find_file basedir disk (pathlib.mkPath "" [t; d; f]) =
  pathlib.mkPath "" [t; d;
    match List.filter (pathlib.fnmatch (f +:+ ".*"))
            (listdir disk (abs_path basedir [t; d])) with
    | e :: _ => e
    | [] => f
    end].
Proof.
  intros Hwf Ht Hd Hf.
  pose proof (name_is_segment t Ht) as Hts. pose proof (name_is_segment d Hd) as Hds.
  unfold QueridoDiarioFSFilesStore._find_file, glob.
  rewrite (to_str_relative [t; d; f]) by discriminate.
  change (pathlib.Path [basedir; pathlib.join "/" [t; d; f]])
    with (FSFilesStore._get_filesystem_path basedir (pathlib.join "/" [t; d; f])).
  rewrite (fs_path_names t d f Ht Hd Hf).
  rewrite (parent_abs_path [t; d] f : pathlib.parent (abs_path basedir [t; d; f]) = _).
  change (pathlib.name (pathlib.mkPath "" [t; d; f])) with f.
  pose proof (filter_first (pathlib.fnmatch (f +:+ ".*"))
                (listdir disk (abs_path basedir [t; d]))) as Hfirst.
  destruct (List.filter _ (listdir disk (abs_path basedir [t; d]))) as [|e rest];
    [reflexivity|].
  destruct Hfirst as (before & after & El & _ & _).
  assert (He : In e (listdir disk (abs_path basedir [t; d])))
    by (rewrite El; apply in_or_app; right; left; reflexivity).
  destruct (listdir_entry basedir disk t d e Hwf He) as [Hen _].
  pose proof (name_is_segment e Hen) as Hes.
  change (pathlib.parent (pathlib.mkPath "" [t; d; f])) with (pathlib.mkPath "" [t; d]).
  rewrite (to_str_relative [t; d]) by discriminate.
  rewrite Path_join_relative by (apply startswith_segment, Hes).
  rewrite (parse_path_join [t; d]) by (repeat constructor; assumption).
  change e with (pathlib.join "/" [e]) at 1.
  rewrite (parse_path_join [e]) by (repeat constructor; assumption).
  cbn [pathlib.parts app].
  assert (Er : pathlib.root_of (pathlib.join "/" [t; d]) = "")
    by (apply root_of_relative, startswith_join, Hts).
  rewrite Er. reflexivity.
Qed.

Lemma resolved_name_is_name (disk : Disk) (t d f : string) :
  wf_disk basedir disk -> is_name f = true ->
  is_name (resolved_name basedir disk t d f) = true.
Proof.
  intros Hwf Hf. unfold resolved_name.
  destruct (negb _); [exact Hf|].
  pose proof (filter_first (pathlib.fnmatch (f +:+ ".*"))
                (listdir disk (abs_path basedir [t; d]))) as Hfirst.
  destruct (List.filter _ (listdir disk (abs_path basedir [t; d]))) as [|e rest];
    [exact Hf|].
  destruct Hfirst as (before & after & El & _ & _).
  assert (He : In e (listdir disk (abs_path basedir [t; d])))
    by (rewrite El; apply in_or_app; right; left; reflexivity).
  exact (proj1 (listdir_entry basedir disk t d e Hwf He)).
Qed.

(** The probe on a path of territory, date and file name, over a
    well-formed root: the stat of the file it settles on, if any. *)
Lemma stat_file_segments (disk : Disk) (t d f : string) :
  wf_disk basedir disk ->
  is_name t = true -> is_name d = true -> is_name f = true ->
  QueridoDiarioFSFilesStore.stat_file md5sum basedir disk (pathlib.join "/" [t; d; f]) =
  Ok ((fun x => mkStat (st_mtime x) (md5sum (content x))) <$>
        disk_lookup disk (abs_path basedir [t; d; resolved_name basedir disk t d f])).
Proof.
  intros Hwf Ht Hd Hf.
  assert (H3 : Forall (fun x => is_segment x = true) [t; d; f])
    by (repeat constructor; apply name_is_segment; assumption).
  pose proof (resolved_name_is_name disk t d f Hwf Hf) as Hr.
  unfold QueridoDiarioFSFilesStore.stat_file.
  assert (Ep : pathlib.Path [pathlib.join "/" [t; d; f]] = pathlib.mkPath "" [t; d; f])
    by (apply (parse_path_join [t; d; f] H3)).
  rewrite Ep. unfold resolved_name in *.
  destruct (negb (String.eqb (pathlib.suffix (pathlib.mkPath "" [t; d; f])) "")).
  - apply stat_file_stored; assumption.
  - rewrite (find_file_segments disk t d f Hwf Ht Hd Hf).
    rewrite (to_str_relative [t; d; _]) by discriminate.
    apply stat_file_stored; assumption.
Qed.

(** What the probe reports is the stat of a stored file, named as the
    probed name or, when that has no extension, as the probed name with
    one. *)
Lemma probe_sound (disk : Disk) (t d f : string) (st : Stat) :
  wf_disk basedir disk ->
  is_name t = true -> is_name d = true -> is_name f = true -> no_magic f = true ->
  QueridoDiarioFSFilesStore.stat_file md5sum basedir disk (pathlib.join "/" [t; d; f]) =
    Ok (Some st) ->
  exists e x,
    disk_lookup disk (abs_path basedir [t; d; e]) = Some x /\
    st = mkStat (st_mtime x) (md5sum (content x)) /\
    (e = f \/ (pathlib.suffix (pathlib.mkPath "" [t; d; f]) = "" /\
               exists ext, e = f +:+ "." +:+ ext)).
Proof.
  intros Hwf Ht Hd Hf Hn H.
  rewrite (stat_file_segments disk t d f Hwf Ht Hd Hf) in H. unfold resolved_name in H.
  destruct (String.eqb (pathlib.suffix (pathlib.mkPath "" [t; d; f])) "") eqn:Es;
    cbn [negb] in H.
  - apply String.eqb_eq in Es.
    pose proof (filter_first (pathlib.fnmatch (f +:+ ".*"))
                  (listdir disk (abs_path basedir [t; d]))) as Hfirst.
    destruct (List.filter _ (listdir disk (abs_path basedir [t; d]))) as [|e rest].
    + destruct (disk_lookup disk _) as [x|] eqn:El; [|discriminate H].
      cbn in H. injection H as <-. exists f, x. repeat split; [exact El | left; reflexivity].
    + destruct Hfirst as (_ & _ & _ & Hm & _).
      apply (fnmatch_any_extension f e Hn) in Hm as (ext & ->).
      destruct (disk_lookup disk _) as [x|] eqn:El; [|discriminate H].
      cbn in H. injection H as <-. exists (f +:+ "." +:+ ext), x.
      repeat split; [exact El|]. right. split; [exact Es | exists ext; reflexivity].
  - destruct (disk_lookup disk _) as [x|] eqn:El; [|discriminate H].
    cbn in H. injection H as <-. exists f, x. repeat split; [exact El | left; reflexivity].
Qed.

(** A stored file whose name is the probed name, or extends it by a dot
    and an extension when the probed name has none, makes the probe
    succeed. *)
Lemma probe_hit_of_stored (disk : Disk) (t d f e : string) :
  wf_disk basedir disk ->
  is_name t = true -> is_name d = true -> is_name f = true ->
  no_magic f = true ->
  on_disk disk (abs_path basedir [t; d; e]) ->
  e = f \/ (pathlib.suffix (pathlib.mkPath "" [t; d; f]) = "" /\
            exists ext, e = f +:+ "." +:+ ext) ->
  exists st,
    QueridoDiarioFSFilesStore.stat_file md5sum basedir disk (pathlib.join "/" [t; d; f]) =
    Ok (Some st).
Proof.
  intros Hwf Ht Hd Hf Hn Hon He.
  rewrite (stat_file_segments disk t d f Hwf Ht Hd Hf).
  assert (Hl : is_Some (disk_lookup disk (abs_path basedir [t; d; resolved_name basedir disk t d f]))).
  { unfold resolved_name.
    destruct (String.eqb (pathlib.suffix (pathlib.mkPath "" [t; d; f])) "") eqn:Es;
      cbn [negb].
    - pose proof (filter_first (pathlib.fnmatch (f +:+ ".*"))
                    (listdir disk (abs_path basedir [t; d]))) as Hfirst.
      destruct (List.filter _ (listdir disk (abs_path basedir [t; d]))) as [|e' rest].
      + destruct He as [->|(_ & ext & ->)]; [exact Hon|].
        exfalso.
        assert (Hin : In (f +:+ "." +:+ ext) (listdir disk (abs_path basedir [t; d])))
          by (apply in_listdir; assumption).
        specialize (Hfirst _ Hin).
        assert (pathlib.fnmatch (f +:+ ".*") (f +:+ "." +:+ ext) = true)
          by (apply fnmatch_any_extension; [exact Hn | exists ext; reflexivity]).
        congruence.
      + destruct Hfirst as (before & after & El & _ & _).
        assert (Hin : In e' (listdir disk (abs_path basedir [t; d])))
          by (rewrite El; apply in_or_app; right; left; reflexivity).
        exact (proj2 (listdir_entry basedir disk t d e' Hwf Hin)).
    - destruct He as [->|(Hs & _)]; [exact Hon|].
      rewrite Hs in Es. discriminate Es. }
  destruct Hl as [x ->]. eexists. reflexivity.
Qed.

End Probe.


Lemma example_disk_wf : wf_disk "data" example_disk.
Proof.
  repeat constructor.
  - exists "X", "2024-01-05", "abc123.pdf". repeat split.
  - exists "X", "2024-01-05", "ffe0.txt". repeat split.
Qed.


(** Where an entry of the date directory that extends the name is itself
    a directory, the probe resolves to it and raises when it is opened;
    the files pipeline then downloads the file. *)
Example probe_meets_directory :
  QueridoDiarioFSFilesStore.stat_file example_md5sum "data"
    [ (pathlib.mkPath "" ["data"; "X"; "2024-01-05"; "abc123.d"; "inner.txt"],
       mkFile 1704449220 pdf_body) ]
    "X/2024-01-05/abc123" = Raise (OSError "IsADirectoryError").
Proof. vm_compute. reflexivity. Qed.

Example probe_finds_stored_pdf :
  QueridoDiarioFSFilesStore.stat_file example_md5sum "data" example_disk
    "X/2024-01-05/abc123" =
  Ok (Some (mkStat 1704449220 "5d41402abc4b2a76b9719d911017c592")).
Proof. vm_compute. reflexivity. Qed.

Example probe_misses_other_name :
  QueridoDiarioFSFilesStore.stat_file example_md5sum "data" example_disk
    "X/2024-01-05/abc12" = Ok None.
Proof. vm_compute. reflexivity. Qed.

(** ** A crawl over the storage root that an earlier crawl left *)

Lemma suffix_of_name (p q : pathlib.PurePath) :
  pathlib.name p = pathlib.name q -> pathlib.suffix p = pathlib.suffix q.
Proof. unfold pathlib.suffix. intros ->. reflexivity. Qed.

Lemma fresh_In (expires now : Z) (d : Disk) (p : pathlib.PurePath) (x : File) :
  fresh expires now d -> In (p, x) d ->
  st_mtime x <> 0%Z /\ (now - st_mtime x <= expires * 86400)%Z.
Proof.
  unfold fresh. rewrite Forall_forall. intros H Hin.
  exact (H (p, x) (proj2 (list_elem_of_In _ _) Hin)).
Qed.

Lemma named_keyed (item : Item) (t d : string) : named item t d -> keyed item t d.
Proof.
  intros (Ht & Hd & Htn & Hdn).
  repeat split; try assumption; apply name_is_segment; assumption.
Qed.

(** The file results of the second list, URL by URL, include those of
    the first. *)
Lemma covers_omap (results1 results2 : list (option FileInfo)) :
  Forall2 covers results1 results2 ->
  sublist (map fi_url (omap id results1)) (map fi_url (omap id results2)).
Proof.
  induction 1 as [|o1 o2 l1 l2 Hc _ IH]; [constructor|].
  destruct o1 as [i1|], o2 as [i2|]; cbn.
  - destruct (Hc i1 eq_refl) as (i2' & E & Hu). injection E as <-.
    rewrite Hu. apply sublist_skip, IH.
  - destruct (Hc i1 eq_refl) as (i2' & E & _). discriminate E.
  - apply sublist_cons, IH.
  - exact IH.
Qed.

Lemma item_completed_files (results : list (option FileInfo)) (item item' : Item) :
  QueridoDiarioFilesPipeline.item_completed results item = Ok item' ->
  files item' = Some (omap id results).
Proof.
  unfold QueridoDiarioFilesPipeline.item_completed.
  destruct (file_requests item) as [[[|q l]|[|q l]]|];
    cbn [mbind result_bind]; intros H; try discriminate H;
    injection H as <-; reflexivity.
Qed.

(** The sink returns the item it is given, or raises. *)
Lemma sink_result (co : nat -> option string) (sink : SQLDatabasePipeline.t)
    (item : Item) (w : World) :
  (SQLDatabasePipeline.process_item co sink item w).1 = Ok item \/
  exists e, (SQLDatabasePipeline.process_item co sink item w).1 = Raise e.
Proof.
  unfold SQLDatabasePipeline.process_item.
  destruct (SQLDatabasePipeline.database_url sink); [|left; reflexivity].
  destruct (SQLDatabasePipeline.Session sink); [|right; eexists; reflexivity].
  destruct (SQLDatabasePipeline.make_gazette_item item);
    [left; reflexivity | right; eexists; reflexivity].
Qed.

Section TwoCrawls.

Context (super_file_path : Request -> string) (guess : list byte -> option Kind)
  (md5sum : list byte -> string) (basedir : string)
  (fetch : Request -> option Response) (expires : Z).

Hypothesis default_paths :
  forall r, pathlib.parts (pathlib.Path [super_file_path r]) <> [] /\
            no_magic (pathlib.name (pathlib.Path [super_file_path r])) = true.

Hypothesis default_names :
  forall r, pathlib.name (pathlib.Path [super_file_path r]) <> "..".

Hypothesis extensions :
  forall buf kind, guess buf = Some kind -> has_char "/" (extension kind) = false.

Local Abbreviation base r := (pathlib.name (pathlib.Path [super_file_path r])).
Local Abbreviation file_path := (QueridoDiarioFilesPipeline.file_path super_file_path guess).
Local Abbreviation file_name := (QueridoDiarioFilesPipeline.file_name super_file_path guess).
Local Abbreviation probe := (QueridoDiarioFSFilesStore.stat_file md5sum basedir).
Local Abbreviation resolve :=
  (FilesPipeline.resolve super_file_path guess md5sum basedir fetch expires).
Local Abbreviation step :=
  (FilesPipeline._process_request super_file_path guess md5sum basedir fetch expires).
Local Abbreviation held := (held super_file_path basedir).
Local Abbreviation stored := (stored super_file_path fetch basedir).
Local Abbreviation settled := (settled super_file_path md5sum basedir).
Local Abbreviation up_to_date := (up_to_date super_file_path md5sum basedir).
Local Abbreviation all_up_to_date := (all_up_to_date super_file_path md5sum basedir).

Lemma base_segment (r : Request) : is_segment (base r) = true.
Proof. apply base_name_segment, default_paths. Qed.

Lemma base_is_name (r : Request) : is_name (base r) = true.
Proof. apply is_name_intro; [apply base_segment | apply default_names]. Qed.

Lemma file_path_probe (item : Item) (t d : string) (r : Request) :
  named item t d ->
  file_path r None (Some item) = Ok (pathlib.join "/" [t; d; base r]).
Proof.
  intros Hn. destruct (named_keyed item t d Hn) as (Ht & Hd & Hts & Hds).
  apply (file_path_segments super_file_path guess r None item t d Ht Hd Hts Hds).
  apply base_segment.
Qed.

Lemma file_path_store (item : Item) (t d : string) (r : Request) (response : Response) :
  named item t d ->
  exists f,
    file_path r (Some response) (Some item) = Ok (pathlib.join "/" [t; d; f]) /\
    is_name f = true /\ names_file super_file_path r f.
Proof.
  intros Hn. destruct (named_keyed item t d Hn) as (Ht & Hd & Hts & Hds).
  exists (file_name r (Some response)).
  assert (Hf : is_segment (file_name r (Some response)) = true).
  { apply file_name_segment; [apply default_paths | exact extensions]. }
  split; [apply file_path_segments; assumption|].
  destruct (file_name_cases super_file_path guess r (Some response))
    as [E|(r0 & kind & _ & Hs & Hg & E)].
  - rewrite E. split; [apply base_is_name | left; reflexivity].
  - rewrite E. split.
    + apply name_with_extension; [apply base_segment | exact (extensions _ _ Hg)].
    + right. split; [exact Hs | exists (extension kind); reflexivity].
Qed.

Lemma suffix_probe_path (t d : string) (r : Request) :
  pathlib.suffix (pathlib.mkPath "" [t; d; base r]) =
  pathlib.suffix (pathlib.Path [super_file_path r]).
Proof. apply suffix_of_name. reflexivity. Qed.

Lemma held_mono (d1 d2 : Disk) (t d : string) (r : Request) :
  disk_le d1 d2 -> held d1 t d r -> held d2 t d r.
Proof. intros Hle (e & Hon & He). exists e. split; [apply Hle, Hon | exact He]. Qed.

Lemma stored_mono (d1 d2 : Disk) (t d : string) (r : Request) :
  disk_le d1 d2 -> stored d1 t d r -> stored d2 t d r.
Proof.
  intros Hle H response Hf Hs. exact (held_mono d1 d2 t d r Hle (H response Hf Hs)).
Qed.

(** A probe that succeeds reports a file the store holds for the
    request. *)
Lemma probe_hit_held (disk : Disk) (t d : string) (r : Request) (st : Stat) :
  wf_disk basedir disk -> is_name t = true -> is_name d = true ->
  probe disk (pathlib.join "/" [t; d; base r]) = Ok (Some st) ->
  exists e x,
    names_file super_file_path r e /\
    disk_lookup disk (abs_path basedir [t; d; e]) = Some x /\
    st = mkStat (st_mtime x) (md5sum (content x)).
Proof.
  intros Hwf Ht Hd Hhit.
  destruct (probe_sound md5sum basedir disk t d (base r) st Hwf Ht Hd (base_is_name r)
              (proj2 (default_paths r)) Hhit) as (e & x & Hl & Hst & He).
  exists e, x. split; [|split; assumption].
  rewrite suffix_probe_path in He. exact He.
Qed.

Lemma held_probe_hit (disk : Disk) (t d : string) (r : Request) :
  wf_disk basedir disk -> is_name t = true -> is_name d = true ->
  held disk t d r ->
  exists st, probe disk (pathlib.join "/" [t; d; base r]) = Ok (Some st).
Proof.
  intros Hwf Ht Hd (e & Hon & He).
  apply (probe_hit_of_stored md5sum basedir disk t d (base r) e); try assumption.
  - apply base_is_name.
  - apply default_paths.
Qed.

Lemma storable_split (response : Response) :
  storable response = true <->
  negb (resp_status response =? 200)%N = false /\
  bool_decide (resp_body response = []) = false.
Proof.
  unfold storable. rewrite andb_true_iff, !negb_true_iff, negb_false_iff. tauto.
Qed.

(** A download over a well-formed root: it fails on a response that is
    not stored, and otherwise stores a file for the request. *)
Lemma download_first (now : Z) (disk : Disk) (item : Item) (t d : string)
    (r : Request) (response : Response) :
  wf_disk basedir disk -> named item t d ->
  match FilesPipeline.media_downloaded super_file_path guess md5sum basedir
          now disk response r item with
  | Raise _ => storable response = false
  | Ok (info, disk') =>
      storable response = true /\ fi_url info = req_url r /\
      wf_disk basedir disk' /\ disk_le disk disk' /\ held disk' t d r
  end.
Proof.
  intros Hwf Hn. pose proof Hn as (_ & _ & Ht & Hd).
  unfold FilesPipeline.media_downloaded, storable.
  destruct (resp_status response =? 200)%N; cbn [negb andb]; [|reflexivity].
  destruct (bool_decide (resp_body response = [])); cbn [negb]; [reflexivity|].
  destruct (file_path_store item t d r response Hn) as (f & Hp & Hf & Hcase).
  rewrite Hp. cbn [mbind result_bind].
  rewrite (persist_file_stored basedir now disk t d f _ Hwf Ht Hd Hf).
  cbn [mbind result_bind fi_url].
  split; [reflexivity|]. split; [reflexivity|].
  split; [apply wf_disk_write; assumption|].
  split; [apply disk_le_write|].
  exists f. split; [|exact Hcase].
  unfold on_disk. rewrite disk_lookup_write_eq. eexists; reflexivity.
Qed.

(** A reference that is fetched: the root stays well formed and only
    grows, it ends up holding a file for the reference if the reference
    can be downloaded at all, and a file result is a result for the URL
    of the reference, whose file the root holds. *)
Lemma fetch_first (now : Z) (disk : Disk) (item : Item) (t d : string) (r : Request) :
  wf_disk basedir disk -> named item t d ->
  let res :=
    match fetch r with
    | None => (None, disk)
    | Some response =>
        match FilesPipeline.media_downloaded super_file_path guess md5sum
                basedir now disk response r item with
        | Raise _ => (None, disk)
        | Ok (info, d') => (Some info, d')
        end
    end in
  wf_disk basedir res.2 /\ disk_le disk res.2 /\ stored res.2 t d r /\
  (forall info, res.1 = Some info -> fi_url info = req_url r /\ held res.2 t d r).
Proof.
  intros Hwf Hn res. subst res.
  destruct (fetch r) as [response|] eqn:Ef.
  - pose proof (download_first now disk item t d r response Hwf Hn) as Hdown.
    destruct (FilesPipeline.media_downloaded _ _ _ _ _ _ _ _ _) as [[info d']|e].
    + destruct Hdown as (Hs & Hu & Hwf' & Hle & Hh). cbn [fst snd].
      split; [exact Hwf'|]. split; [exact Hle|]. split.
      * intros response' _ _. exact Hh.
      * intros info' E. injection E as <-. split; [exact Hu | exact Hh].
    + cbn [fst snd]. split; [exact Hwf|]. split; [apply disk_le_refl|]. split.
      * intros response' Ef' Hs'. rewrite Ef in Ef'. injection Ef' as <-. congruence.
      * intros info' E. discriminate E.
  - cbn [fst snd]. split; [exact Hwf|]. split; [apply disk_le_refl|]. split.
    + intros response' E _. congruence.
    + intros info' E. discriminate E.
Qed.

(** One reference on any crawl, likewise. *)
Lemma resolve_first (now : Z) (disk : Disk) (item : Item) (t d : string) (r : Request) :
  wf_disk basedir disk -> named item t d ->
  wf_disk basedir (resolve now disk r item).2 /\
  disk_le disk (resolve now disk r item).2 /\
  stored (resolve now disk r item).2 t d r /\
  (forall info, (resolve now disk r item).1 = Some info ->
     fi_url info = req_url r /\ held (resolve now disk r item).2 t d r).
Proof.
  intros Hwf Hn. pose proof Hn as (_ & _ & Ht & Hd).
  pose proof (fetch_first now disk item t d r Hwf Hn) as Hdl. cbv zeta in Hdl.
  unfold FilesPipeline.resolve, FilesPipeline.media_to_download.
  rewrite (file_path_probe item t d r Hn). cbn [mbind result_bind].
  pose proof (stat_file_segments md5sum basedir disk t d (base r) Hwf Ht Hd
                (base_is_name r)) as Ep.
  destruct (disk_lookup disk _) as [x|] eqn:El; cbn [fmap option_fmap option_map] in Ep;
    rewrite Ep; [|exact Hdl].
  assert (Hheld : held disk t d r).
  { destruct (probe_hit_held disk t d r _ Hwf Ht Hd Ep) as (e & x' & He & Hx' & _).
    exists e. split; [eexists; exact Hx' | exact He]. }
  cbn [last_modified checksum].
  destruct (st_mtime x =? 0)%Z; [exact Hdl|].
  destruct (expires * 86400 <? now - st_mtime x)%Z; [exact Hdl|].
  cbn [fst snd]. split; [exact Hwf|]. split; [apply disk_le_refl|].
  split; [intros response _ _; exact Hheld|].
  intros info E. injection E as <-. split; [reflexivity | exact Hheld].
Qed.

(** One reference on a crawl over a root that holds a file for it if it
    can be downloaded, none of whose files has expired: the root is left
    as it is, the reference fails or is reported up to date, and it is
    reported when the root holds a file for it. *)
Lemma resolve_second (now : Z) (disk : Disk) (item : Item) (t d : string) (r : Request)
    (spider : Spider) (dates : string -> Prop) :
  wf_disk basedir disk -> fresh expires now disk -> named item t d ->
  TERRITORY_ID spider = Some t -> dates d ->
  stored disk t d r ->
  (resolve now disk r item).2 = disk /\
  settled disk spider dates (resolve now disk r item).1 /\
  (forall info, (resolve now disk r item).1 = Some info -> fi_url info = req_url r) /\
  (held disk t d r -> is_Some (resolve now disk r item).1).
Proof.
  intros Hwf Hfr Hn Hsp Hdt Hst. pose proof Hn as (_ & _ & Ht & Hd).
  unfold FilesPipeline.resolve, FilesPipeline.media_to_download.
  rewrite (file_path_probe item t d r Hn). cbn [mbind result_bind].
  pose proof (stat_file_segments md5sum basedir disk t d (base r) Hwf Ht Hd
                (base_is_name r)) as Ep.
  destruct (disk_lookup disk _) as [x0|] eqn:El; cbn [fmap option_fmap option_map] in Ep;
    rewrite Ep.
  - destruct (probe_hit_held disk t d r _ Hwf Ht Hd Ep) as (e & x & He & Hx & Est).
    injection Est as Em Ec.
    destruct (fresh_In expires now disk _ x Hfr (disk_lookup_Some _ _ _ Hx)) as [Hnz Hage].
    cbn [last_modified checksum]. rewrite Em.
    rewrite (proj2 (Z.eqb_neq _ _) Hnz).
    rewrite (proj2 (Z.ltb_ge _ _) Hage).
    cbn [fst snd]. split; [reflexivity|]. split; [|split].
    + cbn [settled]. split; [reflexivity|].
      exists r, t, d, e, x. cbn [fi_url fi_path fi_checksum].
      repeat split; try assumption.
      rewrite Ep, Em, Ec. reflexivity.
    + intros info E. injection E as <-. reflexivity.
    + intros _. eexists; reflexivity.
  - assert (Hmiss : ~ held disk t d r).
    { intros Hh. destruct (held_probe_hit disk t d r Hwf Ht Hd Hh) as [st Hhit].
      rewrite Hhit in Ep. discriminate Ep. }
    destruct (fetch r) as [response|] eqn:Ef.
    + pose proof (download_first now disk item t d r response Hwf Hn) as Hdown.
      destruct (FilesPipeline.media_downloaded _ _ _ _ _ _ _ _ _) as [[info d']|e].
      * exfalso. destruct Hdown as (Hs & _). exact (Hmiss (Hst response Ef Hs)).
      * cbn [fst snd]. split; [reflexivity|]. split; [exact I|].
        split; [intros info E; discriminate E | intros Hh; contradiction].
    + cbn [fst snd]. split; [reflexivity|]. split; [exact I|].
      split; [intros info E; discriminate E | intros Hh; contradiction].
Qed.

Lemma cached_sim (st1 st2 : FilesPipeline.state) (r : Request) :
  cache_covers st1 st2 ->
  match FilesPipeline.cached st1 r, FilesPipeline.cached st2 r with
  | Some o1, Some o2 => covers o1 o2
  | None, None => True
  | _, _ => False
  end.
Proof.
  unfold cache_covers, FilesPipeline.cached.
  induction 1 as [|[k1 o1] [k2 o2] l1 l2 [Hk Hc] _ IH]; [exact I|].
  cbn [fst snd] in Hk, Hc. subst k2. cbn [List.find fst].
  destruct (bool_decide (k1 = FilesPipeline.fingerprint r)); [exact Hc | exact IH].
Qed.

Lemma cached_In (st : FilesPipeline.state) (r : Request) (o : option FileInfo) :
  FilesPipeline.cached st r = Some o ->
  exists k, In (k, o) (FilesPipeline.downloaded st).
Proof.
  unfold FilesPipeline.cached.
  destruct (List.find _ _) as [[k o']|] eqn:E; [|discriminate].
  cbn. intros H. injection H as ->. apply find_some in E as [Hin _].
  exists k. exact Hin.
Qed.

Lemma step_mono (now : Z) (item : Item) (t d : string)
    (acc : list (option FileInfo) * FilesPipeline.state) (r : Request) :
  named item t d -> wf_disk basedir (FilesPipeline.disk acc.2) ->
  wf_disk basedir (FilesPipeline.disk (step now item acc r).2) /\
  disk_le (FilesPipeline.disk acc.2) (FilesPipeline.disk (step now item acc r).2).
Proof.
  intros Hk Hwf. destruct acc as [res st]. cbn [snd] in *.
  unfold FilesPipeline._process_request.
  destruct (FilesPipeline.cached st r); [split; [exact Hwf | apply disk_le_refl]|].
  destruct (resolve_first now (FilesPipeline.disk st) item t d r Hwf Hk) as (H1 & H2 & _).
  destruct (resolve now (FilesPipeline.disk st) r item) as [o d']. cbn [snd] in *.
  split; assumption.
Qed.

Lemma requests_mono (now : Z) (item : Item) (t d : string) (reqs : list Request) :
  named item t d ->
  forall acc, wf_disk basedir (FilesPipeline.disk acc.2) ->
  wf_disk basedir (FilesPipeline.disk (fold_left (step now item) reqs acc).2) /\
  disk_le (FilesPipeline.disk acc.2)
    (FilesPipeline.disk (fold_left (step now item) reqs acc).2).
Proof.
  intros Hk. induction reqs as [|r reqs IH]; intros acc Hwf; cbn [fold_left].
  - split; [exact Hwf | apply disk_le_refl].
  - destruct (step_mono now item t d acc r Hk Hwf) as [H1 H2].
    destruct (IH _ H1) as [H3 H4]. split; [exact H3|].
    eapply disk_le_trans; eassumption.
Qed.

(** One request on the first crawl and on the second, side by side. *)
Lemma step_sim (now1 now2 : Z) (item1 item2 : Item) (t d : string) (r : Request)
    (acc1 acc2 : list (option FileInfo) * FilesPipeline.state) (D : Disk)
    (spider : Spider) (dates : string -> Prop) :
  named item1 t d -> named item2 t d ->
  TERRITORY_ID spider = Some t -> dates d ->
  cache_covers acc1.2 acc2.2 -> Forall2 covers acc1.1 acc2.1 ->
  wf_disk basedir (FilesPipeline.disk acc1.2) ->
  FilesPipeline.disk acc2.2 = D -> wf_disk basedir D -> fresh expires now2 D ->
  Forall (fun e => settled D spider dates e.2) (FilesPipeline.downloaded acc2.2) ->
  Forall (settled D spider dates) acc2.1 ->
  disk_le (FilesPipeline.disk (step now1 item1 acc1 r).2) D ->
  cache_covers (step now1 item1 acc1 r).2 (step now2 item2 acc2 r).2 /\
  Forall2 covers (step now1 item1 acc1 r).1 (step now2 item2 acc2 r).1 /\
  FilesPipeline.disk (step now2 item2 acc2 r).2 = D /\
  Forall (fun e => settled D spider dates e.2)
    (FilesPipeline.downloaded (step now2 item2 acc2 r).2) /\
  Forall (settled D spider dates) (step now2 item2 acc2 r).1.
Proof.
  intros Hk1 Hk2 Hsp Hdt Hcache Hres Hwf1 Hd2 HwfD Hfr Hc2 Hr2 Hle.
  pose proof Hk1 as (_ & _ & Ht & Hd).
  destruct acc1 as [res1 st1], acc2 as [res2 st2]. cbn [fst snd] in *.
  unfold FilesPipeline._process_request in *.
  pose proof (cached_sim st1 st2 r Hcache) as Hsim.
  destruct (FilesPipeline.cached st1 r) as [o1|] eqn:E1,
           (FilesPipeline.cached st2 r) as [o2|] eqn:E2; try contradiction.
  - cbn [fst snd]. split; [exact Hcache|].
    split; [apply Forall2_app; [exact Hres | repeat constructor; exact Hsim]|].
    split; [exact Hd2|]. split; [exact Hc2|].
    apply Forall_app. split; [exact Hr2|]. constructor; [|constructor].
    destruct (cached_In st2 r o2 E2) as [k Hin].
    rewrite Forall_forall in Hc2.
    exact (Hc2 (k, o2) (proj2 (list_elem_of_In _ _) Hin)).
  - destruct (resolve_first now1 (FilesPipeline.disk st1) item1 t d r Hwf1 Hk1)
      as (_ & _ & Hst & Hinfo1).
    destruct (resolve now1 (FilesPipeline.disk st1) r item1) as [o1 d1'].
    cbn [fst snd FilesPipeline.disk] in *.
    assert (HstD : stored D t d r) by (eapply stored_mono; eassumption).
    subst D.
    destruct (resolve_second now2 (FilesPipeline.disk st2) item2 t d r spider dates
                HwfD Hfr Hk2 Hsp Hdt HstD) as (Hsame & Hset & Hurl2 & Hsome).
    destruct (resolve now2 (FilesPipeline.disk st2) r item2) as [o2 d2'].
    cbn [fst snd FilesPipeline.disk FilesPipeline.downloaded] in *. subst d2'.
    assert (Hcov : covers o1 o2).
    { intros info1 ->. destruct (Hinfo1 info1 eq_refl) as [Hu1 Hh1].
      destruct (Hsome (held_mono _ _ t d r Hle Hh1)) as [info2 ->].
      exists info2. split; [reflexivity|]. rewrite (Hurl2 info2 eq_refl). symmetry. exact Hu1. }
    split.
    { unfold cache_covers. cbn [FilesPipeline.downloaded].
      apply Forall2_app; [exact Hcache|]. repeat constructor. exact Hcov. }
    split; [apply Forall2_app; [exact Hres | repeat constructor; exact Hcov]|].
    split; [reflexivity|]. split.
    + apply Forall_app. split; [exact Hc2|]. repeat constructor. exact Hset.
    + apply Forall_app. split; [exact Hr2|]. repeat constructor. exact Hset.
Qed.

Lemma requests_sim (now1 now2 : Z) (item1 item2 : Item) (t d : string) (D : Disk)
    (spider : Spider) (dates : string -> Prop) (reqs : list Request) :
  named item1 t d -> named item2 t d ->
  TERRITORY_ID spider = Some t -> dates d ->
  wf_disk basedir D -> fresh expires now2 D ->
  forall acc1 acc2,
    cache_covers acc1.2 acc2.2 -> Forall2 covers acc1.1 acc2.1 ->
    wf_disk basedir (FilesPipeline.disk acc1.2) ->
    FilesPipeline.disk acc2.2 = D ->
    Forall (fun e => settled D spider dates e.2) (FilesPipeline.downloaded acc2.2) ->
    Forall (settled D spider dates) acc2.1 ->
    disk_le (FilesPipeline.disk (fold_left (step now1 item1) reqs acc1).2) D ->
    cache_covers (fold_left (step now1 item1) reqs acc1).2
      (fold_left (step now2 item2) reqs acc2).2 /\
    Forall2 covers (fold_left (step now1 item1) reqs acc1).1
      (fold_left (step now2 item2) reqs acc2).1 /\
    FilesPipeline.disk (fold_left (step now2 item2) reqs acc2).2 = D /\
    Forall (fun e => settled D spider dates e.2)
      (FilesPipeline.downloaded (fold_left (step now2 item2) reqs acc2).2) /\
    Forall (settled D spider dates) (fold_left (step now2 item2) reqs acc2).1.
Proof.
  intros Hk1 Hk2 Hsp Hdt HwfD Hfr.
  induction reqs as [|r reqs IH]; intros acc1 acc2 Hcache Hres Hwf1 Hd2 Hc2 Hr2 Hle;
    cbn [fold_left] in *.
  - repeat split; assumption.
  - destruct (step_mono now1 item1 t d acc1 r Hk1 Hwf1) as [Hwf1' _].
    destruct (requests_mono now1 item1 t d reqs Hk1 _ Hwf1') as [_ Hle'].
    assert (Hle1 : disk_le (FilesPipeline.disk (step now1 item1 acc1 r).2) D)
      by (eapply disk_le_trans; eassumption).
    destruct (step_sim now1 now2 item1 item2 t d r acc1 acc2 D spider dates
                Hk1 Hk2 Hsp Hdt Hcache Hres Hwf1 Hd2 HwfD Hfr Hc2 Hr2 Hle1)
      as (Hk' & Hres' & Hd' & Hc' & Hr').
    apply IH; assumption.
Qed.

Lemma settled_omap (D : Disk) (spider : Spider) (dates : string -> Prop)
    (results : list (option FileInfo)) :
  Forall (settled D spider dates) results ->
  Forall (up_to_date D spider dates) (omap id results).
Proof.
  induction 1 as [|o l Ho _ IH]; [constructor|].
  destruct o as [info|]; cbn; [constructor; [exact Ho | exact IH] | exact IH].
Qed.

Local Abbreviation files_stage :=
  (FilesPipeline.process_item super_file_path guess md5sum basedir fetch expires).

Lemma files_stage_mono (now : Z) (item : Item) (t d : string) (spider : Spider)
    (st : FilesPipeline.state) :
  named item t d -> wf_disk basedir (FilesPipeline.disk st) ->
  wf_disk basedir (FilesPipeline.disk (files_stage now item spider st).2) /\
  disk_le (FilesPipeline.disk st) (FilesPipeline.disk (files_stage now item spider st).2).
Proof.
  intros Hk Hwf. unfold FilesPipeline.process_item.
  destruct (QueridoDiarioFilesPipeline.get_media_requests item spider) as [reqs|e];
    [|split; [exact Hwf | apply disk_le_refl]].
  pose proof (requests_mono now item t d reqs Hk ([], st) Hwf) as H.
  destruct (fold_left _ reqs ([], st)) as [results st']. exact H.
Qed.

(** What the files stage returns for the outcomes of the references of
    an item, on the first crawl and on the second. *)
Lemma item_completed_sim (D : Disk) (spider : Spider) (dates : string -> Prop)
    (results1 results2 : list (option FileInfo)) (item1 item2 : Item) :
  Forall2 covers results1 results2 ->
  Forall (settled D spider dates) results2 ->
  all_up_to_date D spider dates
    (QueridoDiarioFilesPipeline.item_completed results2 item2) /\
  item_covers (QueridoDiarioFilesPipeline.item_completed results1 item1)
    (QueridoDiarioFilesPipeline.item_completed results2 item2).
Proof.
  intros Hcov Hset. split.
  - destruct (QueridoDiarioFilesPipeline.item_completed results2 item2) as [item'|e] eqn:E;
      [|exact I].
    cbn [all_up_to_date]. rewrite (item_completed_files _ _ _ E).
    apply settled_omap, Hset.
  - intros i1 i2 E1 E2. unfold file_result_urls.
    rewrite (item_completed_files _ _ _ E1), (item_completed_files _ _ _ E2).
    apply covers_omap, Hcov.
Qed.

Lemma files_stage_sim (now1 now2 : Z) (item1 item2 : Item) (t d : string)
    (spider : Spider) (dates : string -> Prop) (st1 st2 : FilesPipeline.state) (D : Disk) :
  named item1 t d -> named item2 t d ->
  TERRITORY_ID spider = Some t -> dates d ->
  file_urls item1 = file_urls item2 -> file_requests item1 = file_requests item2 ->
  wf_disk basedir D -> fresh expires now2 D ->
  cache_covers st1 st2 -> wf_disk basedir (FilesPipeline.disk st1) ->
  FilesPipeline.disk st2 = D ->
  Forall (fun e => settled D spider dates e.2) (FilesPipeline.downloaded st2) ->
  disk_le (FilesPipeline.disk (files_stage now1 item1 spider st1).2) D ->
  cache_covers (files_stage now1 item1 spider st1).2 (files_stage now2 item2 spider st2).2 /\
  FilesPipeline.disk (files_stage now2 item2 spider st2).2 = D /\
  Forall (fun e => settled D spider dates e.2)
    (FilesPipeline.downloaded (files_stage now2 item2 spider st2).2) /\
  all_up_to_date D spider dates (files_stage now2 item2 spider st2).1 /\
  item_covers (files_stage now1 item1 spider st1).1 (files_stage now2 item2 spider st2).1.
Proof.
  intros Hk1 Hk2 Hsp Hdt Hu Hr HwfD Hfr Hcache Hwf1 Hd2 Hc2.
  unfold FilesPipeline.process_item.
  assert (Ereq : QueridoDiarioFilesPipeline.get_media_requests item1 spider =
                 QueridoDiarioFilesPipeline.get_media_requests item2 spider).
  { unfold QueridoDiarioFilesPipeline.get_media_requests. rewrite Hu, Hr. reflexivity. }
  rewrite Ereq.
  destruct (QueridoDiarioFilesPipeline.get_media_requests item2 spider) as [reqs|e].
  - intros Hle.
    pose proof (requests_sim now1 now2 item1 item2 t d D spider dates reqs
                  Hk1 Hk2 Hsp Hdt HwfD Hfr ([], st1) ([], st2) Hcache) as H.
    destruct (fold_left _ reqs ([], st1)) as [results1 st1'].
    specialize (H ltac:(constructor) Hwf1 Hd2 Hc2 ltac:(constructor) Hle).
    destruct (fold_left _ reqs ([], st2)) as [results2 st2'].
    cbn [fst snd] in *. destruct H as (H1 & H2 & H3 & H4 & H5).
    split; [exact H1|]. split; [exact H3|]. split; [exact H4|].
    apply item_completed_sim; assumption.
  - intros _. cbn [fst snd]. repeat split; try assumption.
    intros i1 i2 E. discriminate E.
Qed.

Lemma normalizer_cases (item : Item) (spider : Spider) :
  (exists e, forall u, DefaultValuesPipeline.process_item u item spider = Raise e) \/
  (exists t v,
     TERRITORY_ID spider = Some t /\ scalars item !! "date" = Some v /\
     forall u, exists item',
       DefaultValuesPipeline.process_item u item spider = Ok item' /\
       scalars item' !! "territory_id" = Some (VStr t) /\
       scalars item' !! "date" = Some (VStr (py_str v)) /\
       file_urls item' = file_urls item /\ file_requests item' = file_requests item).
Proof.
  unfold DefaultValuesPipeline.process_item.
  destruct (TERRITORY_ID spider) as [t|]; [|left; eexists; reflexivity].
  unfold getitem. rewrite lookup_set_scalar.
  destruct (decide ("territory_id" = "date")) as [E|_]; [discriminate E|].
  destruct (scalars item !! "date") as [v|]; [|left; eexists; reflexivity].
  right. exists t, v. repeat split. intros u. eexists. split; [reflexivity|].
  rewrite !lookup_set_scalar. repeat split.
Qed.

Lemma gate_result (item item0 : Item) (spider : Spider) :
  GazetteDateFilteringPipeline.process_item item spider = Ok item0 -> item0 = item.
Proof.
  unfold GazetteDateFilteringPipeline.process_item. intros Eg.
  destruct (start_date spider); [|congruence].
  destruct (GazetteDateFilteringPipeline.date_gt _ _) as [[|]|]; cbn in Eg; congruence.
Qed.

Local Abbreviation content_stages :=
  (ITEM_PIPELINES.content_stages super_file_path guess md5sum basedir fetch expires).

Lemma content_stages_mono (utcnow : datetime) (now : Z) (item : Item) (spider : Spider)
    (st : FilesPipeline.state) :
  territory_is_name spider -> date_is_name item ->
  wf_disk basedir (FilesPipeline.disk st) ->
  wf_disk basedir (FilesPipeline.disk (content_stages utcnow now item spider st).2) /\
  disk_le (FilesPipeline.disk st)
    (FilesPipeline.disk (content_stages utcnow now item spider st).2).
Proof.
  intros Hts Hds Hwf. unfold ITEM_PIPELINES.content_stages.
  destruct (GazetteDateFilteringPipeline.process_item item spider) as [item0|e] eqn:Eg;
    [|split; [exact Hwf | apply disk_le_refl]].
  apply gate_result in Eg. subst item0.
  destruct (normalizer_cases item spider) as [(e & He)|(t & v & Ht & Hv & Hn)].
  - rewrite He. split; [exact Hwf | apply disk_le_refl].
  - destruct (Hn utcnow) as (item' & -> & H1 & H2 & _).
    apply (files_stage_mono now item' t (py_str v)); [|exact Hwf].
    repeat split; [exact H1 | exact H2 | exact (Hts t Ht) | exact (Hds v Hv)].
Qed.

Lemma content_stages_sim (u1 u2 : datetime) (now1 now2 : Z) (item : Item)
    (spider : Spider) (dates : string -> Prop) (st1 st2 : FilesPipeline.state) (D : Disk) :
  territory_is_name spider -> date_is_name item ->
  (forall v, scalars item !! "date" = Some v -> dates (py_str v)) ->
  wf_disk basedir D -> fresh expires now2 D ->
  cache_covers st1 st2 -> wf_disk basedir (FilesPipeline.disk st1) ->
  FilesPipeline.disk st2 = D ->
  Forall (fun e => settled D spider dates e.2) (FilesPipeline.downloaded st2) ->
  disk_le (FilesPipeline.disk (content_stages u1 now1 item spider st1).2) D ->
  cache_covers (content_stages u1 now1 item spider st1).2
    (content_stages u2 now2 item spider st2).2 /\
  FilesPipeline.disk (content_stages u2 now2 item spider st2).2 = D /\
  Forall (fun e => settled D spider dates e.2)
    (FilesPipeline.downloaded (content_stages u2 now2 item spider st2).2) /\
  all_up_to_date D spider dates (content_stages u2 now2 item spider st2).1 /\
  item_covers (content_stages u1 now1 item spider st1).1
    (content_stages u2 now2 item spider st2).1.
Proof.
  intros Hts Hds Hdates HwfD Hfr Hcache Hwf1 Hd2 Hc2. unfold ITEM_PIPELINES.content_stages.
  destruct (GazetteDateFilteringPipeline.process_item item spider) as [item0|e] eqn:Eg.
  2: { intros _. cbn [fst snd]. repeat split; try assumption.
       intros i1 i2 E. discriminate E. }
  apply gate_result in Eg. subst item0.
  destruct (normalizer_cases item spider) as [(e & He)|(t & v & Ht & Hv & Hn)].
  - rewrite !He. intros _. cbn [fst snd]. repeat split; try assumption.
    intros i1 i2 E. discriminate E.
  - destruct (Hn u1) as (item1 & -> & A1 & A2 & A3 & A4).
    destruct (Hn u2) as (item2 & -> & B1 & B2 & B3 & B4).
    apply (files_stage_sim now1 now2 item1 item2 t (py_str v)); try assumption.
    + repeat split; [exact A1 | exact A2 | exact (Hts t Ht) | exact (Hds v Hv)].
    + repeat split; [exact B1 | exact B2 | exact (Hts t Ht) | exact (Hds v Hv)].
    + exact (Hdates v Hv).
    + congruence.
    + congruence.
Qed.

(** The sink on an item whose file results are all up to date. *)
Lemma sink_all_up_to_date (co : nat -> option string) (sink : SQLDatabasePipeline.t)
    (item : Item) (w : World) :
  Forall (fun f => fi_status f = "uptodate") (default [] (files item)) ->
  rows (SQLDatabasePipeline.process_item co sink item w).2 = rows w /\
  commits (SQLDatabasePipeline.process_item co sink item w).2 = commits w /\
  log (SQLDatabasePipeline.process_item co sink item w).2 = log w.
Proof.
  intros Hall. unfold SQLDatabasePipeline.process_item.
  destruct (SQLDatabasePipeline.database_url sink) as [url|]; [|repeat split].
  destruct (SQLDatabasePipeline.Session sink) as [engine|]; [|repeat split].
  destruct (SQLDatabasePipeline.make_gazette_item item) as [gi|e]; [|repeat split].
  rewrite persist_files_fold by reflexivity.
  assert (E : List.filter is_new (default [] (files item)) = []).
  { induction Hall as [|f l Hf _ IH]; [reflexivity|].
    cbn [List.filter]. unfold is_new at 1. rewrite Hf. exact IH. }
  cbv zeta. rewrite E.
  cbn [map commit_all fst snd length rows commits log
       SQLDatabasePipeline.session_open SQLDatabasePipeline.session_close].
  rewrite !app_nil_r, Nat.add_0_r. repeat split.
Qed.

Local Abbreviation pipeline co :=
  (ITEM_PIPELINES.process_item super_file_path guess md5sum basedir fetch expires co).
Local Abbreviation process_job co :=
  (ITEM_PIPELINES.process_job super_file_path guess md5sum basedir fetch expires co).

Lemma pipeline_state (co : nat -> option string) (sink : SQLDatabasePipeline.t)
    (utcnow : datetime) (now : Z) (item : Item) (spider : Spider)
    (st : FilesPipeline.state) (w : World) :
  (pipeline co sink utcnow now item spider st w).1.2 =
  (content_stages utcnow now item spider st).2.
Proof.
  unfold ITEM_PIPELINES.process_item.
  destruct (content_stages utcnow now item spider st) as [[item'|e] st'];
    [|reflexivity].
  destruct (SQLDatabasePipeline.process_item co sink item' w). reflexivity.
Qed.

(** An item that comes out of the sink is the item that went in. *)
Lemma pipeline_result (co : nat -> option string) (sink : SQLDatabasePipeline.t)
    (utcnow : datetime) (now : Z) (item item' : Item) (spider : Spider)
    (st : FilesPipeline.state) (w : World) :
  (pipeline co sink utcnow now item spider st w).1.1 = Ok item' ->
  (content_stages utcnow now item spider st).1 = Ok item'.
Proof.
  unfold ITEM_PIPELINES.process_item.
  destruct (content_stages utcnow now item spider st) as [[item0|e] st'];
    [|intros H; exact H].
  pose proof (sink_result co sink item0 w) as Hs.
  destruct (SQLDatabasePipeline.process_item co sink item0 w) as [r w'].
  cbn [fst snd] in *. intros ->. destruct Hs as [Hs|[e Hs]]; congruence.
Qed.

Lemma pipeline_second (co : nat -> option string) (sink : SQLDatabasePipeline.t)
    (utcnow : datetime) (now : Z) (item : Item) (spider : Spider)
    (dates : string -> Prop) (st : FilesPipeline.state) (w : World) (D : Disk) :
  all_up_to_date D spider dates (content_stages utcnow now item spider st).1 ->
  rows (pipeline co sink utcnow now item spider st w).2 = rows w /\
  commits (pipeline co sink utcnow now item spider st w).2 = commits w /\
  log (pipeline co sink utcnow now item spider st w).2 = log w /\
  all_up_to_date D spider dates (pipeline co sink utcnow now item spider st w).1.1.
Proof.
  unfold ITEM_PIPELINES.process_item.
  destruct (content_stages utcnow now item spider st) as [[item'|e] st'];
    cbn [fst snd all_up_to_date]; [|intros _; repeat split].
  intros Hall.
  assert (Hst : Forall (fun f => fi_status f = "uptodate") (default [] (files item'))).
  { eapply Forall_impl; [exact Hall|]. intros f [Hf _]. exact Hf. }
  destruct (sink_all_up_to_date co sink item' w Hst) as (H1 & H2 & H3).
  pose proof (sink_result co sink item' w) as H4.
  destruct (SQLDatabasePipeline.process_item co sink item' w) as [r w'].
  cbn [fst snd] in *. repeat split; try assumption.
  destruct H4 as [->|[e ->]]; [exact Hall | exact I].
Qed.

Lemma jobs_mono (co : nat -> option string) (sink : SQLDatabasePipeline.t)
    (spider : Spider) (jobs : list (datetime * Z * Item)) :
  territory_is_name spider -> Forall (fun j => date_is_name j.2) jobs ->
  forall acc, wf_disk basedir (FilesPipeline.disk acc.1.2) ->
  wf_disk basedir
    (FilesPipeline.disk (fold_left (process_job co sink spider) jobs acc).1.2) /\
  disk_le (FilesPipeline.disk acc.1.2)
    (FilesPipeline.disk (fold_left (process_job co sink spider) jobs acc).1.2).
Proof.
  intros Hts Hjobs. induction Hjobs as [|[[u n] item] jobs Hd _ IH]; intros acc Hwf;
    cbn [fold_left].
  - split; [exact Hwf | apply disk_le_refl].
  - destruct acc as [[rs st] w]. cbn [fst snd] in *.
    assert (Hstep : wf_disk basedir
                      (FilesPipeline.disk
                         (process_job co sink spider (rs, st, w) (u, n, item)).1.2) /\
                    disk_le (FilesPipeline.disk st)
                      (FilesPipeline.disk
                         (process_job co sink spider (rs, st, w) (u, n, item)).1.2)).
    { unfold ITEM_PIPELINES.process_job.
      pose proof (pipeline_state co sink u n item spider st w) as Hs.
      destruct (pipeline co sink u n item spider st w) as [[r st'] w'].
      cbn [fst snd] in *. rewrite Hs.
      apply content_stages_mono; assumption. }
    destruct Hstep as [H1 H2]. destruct (IH _ H1) as [H3 H4].
    split; [exact H3 | eapply disk_le_trans; eassumption].
Qed.

(** The two crawls, item by item. *)
Lemma jobs_sim (co1 co2 : nat -> option string) (sink1 sink2 : SQLDatabasePipeline.t)
    (spider : Spider) (dates : string -> Prop) (D : Disk)
    (jobs1 jobs2 : list (datetime * Z * Item)) :
  territory_is_name spider -> wf_disk basedir D ->
  Forall2 (fun j1 j2 => j1.2 = j2.2) jobs1 jobs2 ->
  Forall (fun j => date_is_name j.2) jobs1 ->
  Forall (fun j => forall v, scalars j.2 !! "date" = Some v -> dates (py_str v)) jobs1 ->
  Forall (fun j => fresh expires j.1.2 D) jobs2 ->
  forall acc1 acc2,
    cache_covers acc1.1.2 acc2.1.2 -> Forall2 item_covers acc1.1.1 acc2.1.1 ->
    wf_disk basedir (FilesPipeline.disk acc1.1.2) ->
    FilesPipeline.disk acc2.1.2 = D ->
    Forall (fun e => settled D spider dates e.2) (FilesPipeline.downloaded acc2.1.2) ->
    Forall (all_up_to_date D spider dates) acc2.1.1 ->
    disk_le (FilesPipeline.disk (fold_left (process_job co1 sink1 spider) jobs1 acc1).1.2) D ->
    let final1 := fold_left (process_job co1 sink1 spider) jobs1 acc1 in
    let final := fold_left (process_job co2 sink2 spider) jobs2 acc2 in
    FilesPipeline.disk final.1.2 = D /\
    rows final.2 = rows acc2.2 /\ commits final.2 = commits acc2.2 /\
    log final.2 = log acc2.2 /\
    Forall (all_up_to_date D spider dates) final.1.1 /\
    Forall2 item_covers final1.1.1 final.1.1.
Proof.
  intros Hts HwfD Hsame.
  induction Hsame as [|[[u1 n1] item1] [[u2 n2] item2] jobs1 jobs2 Hi _ IH];
    intros Hd1 Hdt Hfr acc1 acc2 Hcache Hcov Hwf1 Hd2 Hc2 Hr2 Hle; cbn [fold_left] in *.
  - repeat split; assumption.
  - cbn [snd] in Hi. subst item2.
    apply Forall_cons_1 in Hd1 as [Hd Hd1]. apply Forall_cons_1 in Hfr as [Hf Hfr].
    apply Forall_cons_1 in Hdt as [Hdd Hdt].
    cbn [fst snd] in Hd, Hf, Hdd.
    destruct acc1 as [[rs1 st1] w1], acc2 as [[rs2 st2] w2]. cbn [fst snd] in *.
    set (a1 := process_job co1 sink1 spider (rs1, st1, w1) (u1, n1, item1)) in *.
    set (a2 := process_job co2 sink2 spider (rs2, st2, w2) (u2, n2, item1)).
    assert (Ha1 : a1 = (rs1 ++ [(pipeline co1 sink1 u1 n1 item1 spider st1 w1).1.1],
                        (pipeline co1 sink1 u1 n1 item1 spider st1 w1).1.2,
                        (pipeline co1 sink1 u1 n1 item1 spider st1 w1).2)).
    { subst a1. unfold ITEM_PIPELINES.process_job.
      destruct (pipeline co1 sink1 u1 n1 item1 spider st1 w1) as [[r st'] w'].
      reflexivity. }
    pose proof (pipeline_state co1 sink1 u1 n1 item1 spider st1 w1) as Hs1.
    destruct (content_stages_mono u1 n1 item1 spider st1 Hts Hd Hwf1) as [Hwf1' _].
    rewrite <- Hs1 in Hwf1'.
    assert (Hwfa1 : wf_disk basedir (FilesPipeline.disk a1.1.2))
      by (rewrite Ha1; exact Hwf1').
    destruct (jobs_mono co1 sink1 spider jobs1 Hts Hd1 a1 Hwfa1) as [_ Hle'].
    assert (Hle1 : disk_le (FilesPipeline.disk a1.1.2) D)
      by (eapply disk_le_trans; eassumption).
    rewrite Ha1 in Hle1. cbn [fst snd] in Hle1. rewrite Hs1 in Hle1.
    destruct (content_stages_sim u1 u2 n1 n2 item1 spider dates st1 st2 D
                Hts Hd Hdd HwfD Hf Hcache Hwf1 Hd2 Hc2 Hle1) as (K1 & K2 & K3 & K4 & K5).
    destruct (pipeline_second co2 sink2 u2 n2 item1 spider dates st2 w2 D K4)
      as (P1 & P2 & P3 & P4).
    pose proof (pipeline_state co2 sink2 u2 n2 item1 spider st2 w2) as Hs2.
    assert (Ha2 : a2 = (rs2 ++ [(pipeline co2 sink2 u2 n2 item1 spider st2 w2).1.1],
                        (pipeline co2 sink2 u2 n2 item1 spider st2 w2).1.2,
                        (pipeline co2 sink2 u2 n2 item1 spider st2 w2).2)).
    { subst a2. unfold ITEM_PIPELINES.process_job.
      destruct (pipeline co2 sink2 u2 n2 item1 spider st2 w2) as [[r st'] w'].
      reflexivity. }
    assert (Hcov' : item_covers (pipeline co1 sink1 u1 n1 item1 spider st1 w1).1.1
                      (pipeline co2 sink2 u2 n2 item1 spider st2 w2).1.1).
    { intros i1 i2 E1 E2. apply pipeline_result in E1, E2. exact (K5 i1 i2 E1 E2). }
    specialize (IH Hd1 Hdt Hfr a1 a2).
    rewrite Ha2 in IH |- *. cbn [fst snd] in IH |- *.
    rewrite <- P1, <- P2, <- P3.
    apply IH.
    + rewrite Ha1. cbn [fst snd]. rewrite Hs1, Hs2. exact K1.
    + rewrite Ha1. cbn [fst snd]. apply Forall2_app; [exact Hcov|].
      repeat constructor. exact Hcov'.
    + exact Hwfa1.
    + rewrite Hs2. exact K2.
    + rewrite Hs2. exact K3.
    + apply Forall_app. split; [exact Hr2|]. repeat constructor. exact P4.
    + exact Hle.
Qed.

Local Abbreviation crawl co :=
  (ITEM_PIPELINES.crawl super_file_path guess md5sum basedir fetch expires co).


End TwoCrawls.

Lemma example_default_paths (r : Request) :
  pathlib.parts (pathlib.Path [example_default_path r]) <> [] /\
  no_magic (pathlib.name (pathlib.Path [example_default_path r])) = true.
Proof. split; [vm_compute; discriminate | reflexivity]. Qed.

Lemma example_default_names (r : Request) :
  pathlib.name (pathlib.Path [example_default_path r]) <> "..".
Proof. vm_compute. discriminate. Qed.

Lemma example_spider_territory : territory_is_name example_spider.
Proof. intros t H. injection H as <-. reflexivity. Qed.

Lemma example_gazette_date : date_is_name example_gazette.
Proof. intros v H. vm_compute in H. injection H as <-. reflexivity. Qed.




(** * Further properties of the pipelines *)

(** ** The normalizer and the sink together *)

Lemma item_get_set_scalar (k k' : string) (v : value) (item : Item) :
  item_get (set_scalar k v item) k' = if decide (k = k') then v else item_get item k'.
Proof.
  unfold item_get. rewrite lookup_set_scalar. destruct (decide (k = k')); reflexivity.
Qed.

(** What the normalizer returns, as one expression. *)
Lemma normalizer_result (utcnow : datetime) (item : Item) (spider : Spider)
    (territory : string) (d : value) :
  TERRITORY_ID spider = Some territory ->
  scalars item !! "date" = Some d ->
  DefaultValuesPipeline.process_item utcnow item spider =
  Ok (set_scalar "scraped_at" (VStr (str (datetime_isoformat "T" utcnow) +:+ "Z"))
        (set_scalar "date" (VStr (py_str d))
           (set_scalar "territory_id" (VStr territory) item))).
Proof.
  intros Ht Hd. unfold DefaultValuesPipeline.process_item. rewrite Ht.
  unfold getitem. rewrite lookup_set_scalar.
  destruct (decide ("territory_id" = "date")) as [E|_]; [discriminate E|].
  rewrite Hd. reflexivity.
Qed.

(** X1. The sink reads back what the normalizer wrote. For an item whose
    date is a date object, normalized at a valid clock reading, the sink
    recovers the date and, when the reading has a fraction of a second,
    the reading itself; the rows it then persists, when every commit is
    accepted, carry that date, that instant, the territory of the spider
    and the path, URL and checksum of each file result that is not up to
    date. *)
Theorem sink_reads_normalized_item (utcnow : datetime) (item : Item) (spider : Spider)
    (territory : string) (d : date) :
  TERRITORY_ID spider = Some territory ->
  scalars item !! "date" = Some (VDate d) ->
  valid_date d = true -> valid_datetime utcnow = true ->
  exists item',
    DefaultValuesPipeline.process_item utcnow item spider = Ok item' /\
    SQLDatabasePipeline.make_gazette_item item' =
      (if (microsecond utcnow =? 0)%N then Raise ValueError
       else Ok (SQLDatabasePipeline.mk_gazette_item
                  (item_get item "source_text") d (item_get item "edition_number")
                  (item_get item "is_extra_edition") (item_get item "power")
                  utcnow (VStr territory))) /\
    forall co self w url s,
      SQLDatabasePipeline.database_url self = Some url ->
      SQLDatabasePipeline.Session self = Some s ->
      microsecond utcnow <> 0%N -> (forall i, co i = None) ->
      rows (SQLDatabasePipeline.process_item co self item' w).2 =
      rows w ++
      map (fun f =>
             mkGazette (item_get item "source_text") d (item_get item "edition_number")
               (item_get item "is_extra_edition") (item_get item "power")
               utcnow (VStr territory) (fi_path f) (fi_url f) (fi_checksum f))
        (List.filter is_new (default [] (files item))).
Proof.
  intros Ht Hd Hvd Hvt.
  rewrite (normalizer_result utcnow item spider territory (VDate d) Ht Hd).
  eexists. split; [reflexivity|].
  match goal with |- ?A /\ _ => assert (Hg : A) end.
  { unfold SQLDatabasePipeline.make_gazette_item.
    rewrite !item_get_set_scalar. decide_keys.
    cbn [SQLDatabasePipeline.strptime_value py_str].
    rewrite (strptime_date_isoformat d Hvd), (strptime_scraped_at utcnow Hvt).
    cbn [mbind result_bind]. destruct (microsecond utcnow =? 0)%N; reflexivity. }
  split; [exact Hg|].
  intros co self w url s Hu Hs Hus Hco.
  apply N.eqb_neq in Hus. rewrite Hus in Hg.
  rewrite (sink_process_item co self _ _ w url s Hu Hs Hg).
  cbn [snd rows]. rewrite commit_all_no_failure by (intros; apply Hco).
  reflexivity.
Qed.

Lemma sink_reads_normalized_item_witness :
  exists item',
    DefaultValuesPipeline.process_item (mkDateTime (mkDate 2024 1 5) 10 7 0 250)
      example_gazette example_spider = Ok item' /\
    SQLDatabasePipeline.make_gazette_item item' = Ok example_gazette_item.
Proof.
  assert (Hd : scalars example_gazette !! "date" = Some (VDate (mkDate 2024 1 4)))
    by (vm_compute; reflexivity).
  destruct (sink_reads_normalized_item (mkDateTime (mkDate 2024 1 5) 10 7 0 250)
              example_gazette example_spider "3550308" (mkDate 2024 1 4)
              eq_refl Hd eq_refl eq_refl) as (item' & H1 & H2 & _).
  exists item'. split; [exact H1|]. rewrite H2. vm_compute. reflexivity.
Defined.

(** Texts the date format of the sink refuses. *)

Lemma try_alts_inv {R : Type} (alts : list (list cls)) (s : list ascii)
    (k : list ascii -> list ascii -> option R) (r : R) :
  try_alts alts s k = Some r ->
  exists a m rest, In a alts /\ match_seq a s = Some (m, rest) /\ k m rest = Some r.
Proof.
  induction alts as [|a alts IH]; [discriminate|].
  cbn [try_alts]. destruct (match_seq a s) as [[m rest]|] eqn:Em.
  - destruct (k m rest) as [r'|] eqn:Ek.
    + intros H. injection H as <-. exists a, m, rest.
      repeat split; [left; reflexivity|assumption..].
    + intros H. destruct (IH H) as (a' & m' & rest' & Hin & H1 & H2).
      exists a', m', rest'. repeat split; [right; exact Hin|assumption..].
  - intros H. destruct (IH H) as (a' & m' & rest' & Hin & H1 & H2).
    exists a', m', rest'. repeat split; [right; exact Hin|assumption..].
Qed.

Lemma match_tokens_width (p : list token) : forall s g rest,
  match_tokens p s = Some (g, rest) ->
  length s <= length rest + width p.
Proof.
  induction p as [|[c|d] p IH]; intros s g rest H; cbn [match_tokens] in H.
  - injection H as _ <-. lia.
  - destruct s as [|c' s]; [discriminate|].
    destruct (ci_eqb c c'); [|discriminate].
    specialize (IH _ _ _ H). cbn [width length token_width]. cbn [length]. lia.
  - apply try_alts_inv in H as (a & m & rest0 & Hin & Hm & Hk).
    destruct (match_tokens p rest0) as [[g' rest']|] eqn:Ep; [|discriminate].
    injection Hk as _ <-. specialize (IH _ _ _ Ep).
    apply match_seq_split in Hm as [-> Hl].
    rewrite length_app, Hl. cbn [width token_width].
    assert (length a <= list_max (map (@length cls) (directive_alts d))).
    { assert (Hle := proj1 (list_max_le (map (@length cls) (directive_alts d)) _)
                       (Nat.le_refl _)).
      rewrite Forall_forall in Hle. apply Hle.
      apply list_elem_of_In, in_map, Hin. }
    lia.
Qed.

(** A text longer than its format can take is refused. *)
Lemma strptime_too_long (text format : string) (p : list token) :
  compile_format (chars format) = Some p ->
  width p < String.length text ->
  strptime text format = Raise ValueError.
Proof.
  intros Hp Hl. unfold strptime. rewrite Hp.
  destruct (match_tokens p (chars text)) as [[g [|c rest]]|] eqn:E; try reflexivity.
  apply match_tokens_width in E. cbn [length] in E.
  assert (length (chars text) = String.length text).
  { clear. induction text as [|c text IH]; [reflexivity|]. cbn. f_equal. exact IH. }
  lia.
Qed.

Lemma fmt_d_at_least (w : nat) : forall n, w <= length (fmt_d w n).
Proof.
  induction w as [|w IH]; intros n; [lia|].
  cbn [fmt_d]. rewrite length_app. cbn [length]. specialize (IH (n / 10)%N). lia.
Qed.

Lemma length_str (l : list ascii) : String.length (str l) = length l.
Proof. induction l as [|c l IH]; [reflexivity|]. cbn. f_equal. exact IH. Qed.

Lemma sink_raises (co : nat -> option string) (self : SQLDatabasePipeline.t)
    (item : Item) (w : World) (url : string) (s : Engine) (e : exn) :
  SQLDatabasePipeline.database_url self = Some url ->
  SQLDatabasePipeline.Session self = Some s ->
  SQLDatabasePipeline.make_gazette_item item = Raise e ->
  SQLDatabasePipeline.process_item co self item w =
  (Raise e, mkWorld (rows w) [] (commits w) (S (sessions w)) (log w)).
Proof.
  intros Hu Hs Hg. unfold SQLDatabasePipeline.process_item. rewrite Hu, Hs, Hg.
  reflexivity.
Qed.

(** X2. An item whose date is a datetime object passes the normalizer,
    which writes the date with its time of day, and is then refused by
    the sink, whose date format leaves the time unread: the sink raises
    [ValueError] and persists nothing. *)
Theorem datetime_valued_date_is_refused (co : nat -> option string)
    (self : SQLDatabasePipeline.t) (url : string) (s : Engine) (w : World)
    (utcnow : datetime) (item : Item) (spider : Spider)
    (territory : string) (t : datetime) :
  SQLDatabasePipeline.database_url self = Some url ->
  SQLDatabasePipeline.Session self = Some s ->
  TERRITORY_ID spider = Some territory ->
  scalars item !! "date" = Some (VDateTime t) ->
  exists item',
    DefaultValuesPipeline.process_item utcnow item spider = Ok item' /\
    scalars item' !! "date" = Some (VStr (str (datetime_isoformat " " t))) /\
    (SQLDatabasePipeline.process_item co self item' w).1 = Raise ValueError /\
    rows (SQLDatabasePipeline.process_item co self item' w).2 = rows w.
Proof.
  intros Hu Hs Ht Hd.
  rewrite (normalizer_result utcnow item spider territory (VDateTime t) Ht Hd).
  eexists. split; [reflexivity|]. split.
  { rewrite !lookup_set_scalar. decide_keys. reflexivity. }
  rewrite (sink_raises co self _ w url s ValueError Hu Hs); [split; reflexivity|].
  unfold SQLDatabasePipeline.make_gazette_item.
  rewrite !item_get_set_scalar. decide_keys.
  cbn [SQLDatabasePipeline.strptime_value py_str].
  rewrite (strptime_too_long _ "%Y-%m-%d" [TDir DY; TLit "-"; TDir Dm; TLit "-"; TDir Dd]);
    [reflexivity | reflexivity |].
  rewrite length_str. unfold datetime_isoformat, date_isoformat, time_isoformat.
  rewrite !length_app. cbn [length chars list_ascii_of_string].
  pose proof (fmt_d_at_least 4 (year (dt_date t))).
  pose proof (fmt_d_at_least 2 (month (dt_date t))).
  pose proof (fmt_d_at_least 2 (day (dt_date t))).
  pose proof (fmt_d_at_least 2 (hour t)).
  pose proof (fmt_d_at_least 2 (minute t)).
  pose proof (fmt_d_at_least 2 (second t)).
  change (width _) with 10. lia.
Qed.

Lemma datetime_valued_date_is_refused_witness :
  exists item',
    DefaultValuesPipeline.process_item (mkDateTime (mkDate 2024 1 5) 10 7 0 250)
      (mkItem {[ "date" := VDateTime (mkDateTime (mkDate 2024 1 4) 0 0 0 0) ]}
         None None None) example_spider = Ok item' /\
    scalars item' !! "date" = Some (VStr "2024-01-04 00:00:00") /\
    (SQLDatabasePipeline.process_item (fun _ => None) example_sink item'
       (mkWorld [] [] 0 0 [])).1 = Raise ValueError.
Proof.
  assert (Hd : scalars (mkItem {[ "date" := VDateTime (mkDateTime (mkDate 2024 1 4) 0 0 0 0) ]}
                          None None None) !! "date" =
               Some (VDateTime (mkDateTime (mkDate 2024 1 4) 0 0 0 0)))
    by (vm_compute; reflexivity).
  destruct (datetime_valued_date_is_refused (fun _ => None) example_sink
              "postgresql://db" _ (mkWorld [] [] 0 0 [])
              (mkDateTime (mkDate 2024 1 5) 10 7 0 250) _ example_spider "3550308"
              (mkDateTime (mkDate 2024 1 4) 0 0 0 0) eq_refl eq_refl eq_refl Hd)
    as (item' & H1 & H2 & H3 & _).
  exists item'. repeat split; assumption.
Defined.

(** X3. The date gate has to come before the normalizer: on the item the
    normalizer returns, whose date is text, the gate of a spider with a
    start date raises a type error. *)
Theorem date_gate_refuses_normalized_item (utcnow : datetime) (item : Item)
    (spider : Spider) (territory : string) (d : value) (sd : date) :
  TERRITORY_ID spider = Some territory ->
  scalars item !! "date" = Some d ->
  start_date spider = Some sd ->
  exists item',
    DefaultValuesPipeline.process_item utcnow item spider = Ok item' /\
    GazetteDateFilteringPipeline.process_item item' spider = Raise TypeError.
Proof.
  intros Ht Hd Hsd.
  rewrite (normalizer_result utcnow item spider territory d Ht Hd).
  eexists. split; [reflexivity|].
  unfold GazetteDateFilteringPipeline.process_item. rewrite Hsd.
  rewrite !item_get_set_scalar. decide_keys. reflexivity.
Qed.

Lemma date_gate_refuses_normalized_item_witness :
  exists item',
    DefaultValuesPipeline.process_item (mkDateTime (mkDate 2024 1 5) 10 7 0 250)
      example_gazette example_spider = Ok item' /\
    GazetteDateFilteringPipeline.process_item example_gazette example_spider =
      Ok example_gazette /\
    GazetteDateFilteringPipeline.process_item item' example_spider = Raise TypeError.
Proof.
  assert (Hd : scalars example_gazette !! "date" = Some (VDate (mkDate 2024 1 4)))
    by (vm_compute; reflexivity).
  destruct (date_gate_refuses_normalized_item (mkDateTime (mkDate 2024 1 5) 10 7 0 250)
              example_gazette example_spider "3550308" (VDate (mkDate 2024 1 4))
              (mkDate 2015 1 1) eq_refl Hd eq_refl) as (item' & H1 & H2).
  exists item'. split; [exact H1|]. split; [vm_compute; reflexivity | exact H2].
Defined.

(** X4. Normalizing twice is normalizing once, at the second clock
    reading and for the second spider: the text of the date is left as it
    is, and territory and stamp are overwritten. *)
Theorem normalizer_absorbs (u1 u2 : datetime) (item : Item) (spider1 spider2 : Spider)
    (t1 : string) (d : value) :
  TERRITORY_ID spider1 = Some t1 ->
  scalars item !! "date" = Some d ->
  exists item',
    DefaultValuesPipeline.process_item u1 item spider1 = Ok item' /\
    DefaultValuesPipeline.process_item u2 item' spider2 =
    DefaultValuesPipeline.process_item u2 item spider2.
Proof.
  intros Ht Hd.
  rewrite (normalizer_result u1 item spider1 t1 d Ht Hd).
  eexists. split; [reflexivity|].
  destruct (TERRITORY_ID spider2) as [t2|] eqn:Ht2.
  - rewrite (normalizer_result u2 item spider2 t2 d Ht2 Hd).
    rewrite (normalizer_result u2 _ spider2 t2 (VStr (py_str d)) Ht2).
    + f_equal. unfold set_scalar. cbn [scalars files file_urls file_requests py_str].
      f_equal. apply map_eq. intros k. rewrite !lookup_insert.
      repeat destruct (decide _); congruence.
    + rewrite !lookup_set_scalar. decide_keys. reflexivity.
  - unfold DefaultValuesPipeline.process_item. rewrite Ht2. reflexivity.
Qed.

Lemma normalizer_absorbs_witness :
  exists item',
    DefaultValuesPipeline.process_item (mkDateTime (mkDate 2024 1 5) 10 7 0 250)
      example_gazette example_spider = Ok item' /\
    DefaultValuesPipeline.process_item (mkDateTime (mkDate 2024 1 6) 8 0 0 0)
      item' example_spider =
    DefaultValuesPipeline.process_item (mkDateTime (mkDate 2024 1 6) 8 0 0 0)
      example_gazette example_spider.
Proof.
  assert (Hd : scalars example_gazette !! "date" = Some (VDate (mkDate 2024 1 4)))
    by (vm_compute; reflexivity).
  exact (normalizer_absorbs (mkDateTime (mkDate 2024 1 5) 10 7 0 250)
           (mkDateTime (mkDate 2024 1 6) 8 0 0 0) example_gazette
           example_spider example_spider "3550308" (VDate (mkDate 2024 1 4)) eq_refl Hd).
Defined.

(** ** What the sink writes *)

(** X5. With a database configured and opened, the sink raises exactly
    when the date or the stamp of the item cannot be read, with the
    exception of the reading. It has then written nothing, attempted no
    commit and logged nothing, and the session it opened is left unclosed.
    An item whose date is missing or is no text raises a type error; an
    item whose stamp is missing or is no text is never persisted. *)
Theorem sink_failure_writes_nothing (co : nat -> option string)
    (self : SQLDatabasePipeline.t) (item : Item) (w : World) (url : string) (s : Engine) :
  SQLDatabasePipeline.database_url self = Some url ->
  SQLDatabasePipeline.Session self = Some s ->
  let r := SQLDatabasePipeline.process_item co self item w in
  (forall e, r.1 = Raise e <-> SQLDatabasePipeline.make_gazette_item item = Raise e) /\
  (forall e, r.1 = Raise e ->
     r.2 = mkWorld (rows w) [] (commits w) (S (sessions w)) (log w)) /\
  ((forall text, item_get item "date" <> VStr text) -> r.1 = Raise TypeError) /\
  ((forall text, item_get item "scraped_at" <> VStr text) -> exists e, r.1 = Raise e).
Proof.
  intros Hu Hs r. subst r.
  destruct (SQLDatabasePipeline.make_gazette_item item) as [gi|e0] eqn:Hg.
  - rewrite (sink_process_item co self item gi w url s Hu Hs Hg). cbn [fst snd].
    unfold SQLDatabasePipeline.make_gazette_item in Hg.
    repeat split; try discriminate.
    + intros Hd. destruct (item_get item "date") as [| |text| |] eqn:Ed;
        try discriminate Hg. exfalso. exact (Hd text eq_refl).
    + intros Hd.
      destruct (SQLDatabasePipeline.strptime_value (item_get item "date") "%Y-%m-%d");
        [|discriminate Hg].
      cbn [mbind result_bind] in Hg.
      destruct (item_get item "scraped_at") as [| |text| |] eqn:Ed;
        try discriminate Hg. exfalso. exact (Hd text eq_refl).
  - rewrite (sink_raises co self item w url s e0 Hu Hs Hg). cbn [fst snd].
    repeat split.
    + intros H. injection H as <-. reflexivity.
    + intros H. injection H as <-. reflexivity.
    + intros Hd. unfold SQLDatabasePipeline.make_gazette_item in Hg.
      destruct (item_get item "date") as [| |text| |] eqn:Ed;
        try (cbn in Hg; injection Hg as <-; reflexivity).
      exfalso. exact (Hd text eq_refl).
    + intros _. exists e0. reflexivity.
Qed.

Lemma sink_failure_writes_nothing_witness :
  let r := SQLDatabasePipeline.process_item first_commit_fails example_sink
             (mkItem ∅ (Some example_files) None None) (mkWorld [] [] 0 0 []) in
  r.1 = Raise TypeError /\ r.2 = mkWorld [] [] 0 1 [].
Proof.
  destruct (sink_failure_writes_nothing first_commit_fails example_sink
              (mkItem ∅ (Some example_files) None None) (mkWorld [] [] 0 0 [])
              "postgresql://db" _ eq_refl eq_refl) as (_ & H2 & H3 & _).
  assert (H : (SQLDatabasePipeline.process_item first_commit_fails example_sink
                 (mkItem ∅ (Some example_files) None None) (mkWorld [] [] 0 0 [])).1 =
              Raise TypeError).
  { apply H3. intros text. vm_compute. discriminate. }
  cbv zeta. split; [exact H | exact (H2 TypeError H)].
Defined.

(** X6. Whatever its configuration and whatever the item, the sink only
    appends: the rows and the log it leaves extend those it found, by at
    most one row per file result, and it attempts at most one commit per
    file result. *)
Theorem sink_only_appends (co : nat -> option string) (self : SQLDatabasePipeline.t)
    (item : Item) (w : World) :
  let w' := (SQLDatabasePipeline.process_item co self item w).2 in
  (exists acc, rows w' = rows w ++ acc /\
               length acc <= length (default [] (files item))) /\
  (exists msgs, log w' = log w ++ msgs) /\
  commits w <= commits w' <= commits w + length (default [] (files item)).
Proof.
  cbv zeta. unfold SQLDatabasePipeline.process_item.
  destruct (SQLDatabasePipeline.database_url self) as [url|] eqn:Hu.
  2:{ cbn. repeat split; [exists []; rewrite app_nil_r; split; [reflexivity|cbn; lia]
                         | exists []; rewrite app_nil_r; reflexivity | lia | lia]. }
  destruct (SQLDatabasePipeline.Session self) as [s|] eqn:Hs.
  2:{ cbn. repeat split; [exists []; rewrite app_nil_r; split; [reflexivity|cbn; lia]
                         | exists []; rewrite app_nil_r; reflexivity | lia | lia]. }
  destruct (SQLDatabasePipeline.make_gazette_item item) as [gi|e] eqn:Hg.
  2:{ cbn. repeat split; [exists []; rewrite app_nil_r; split; [reflexivity|cbn; lia]
                         | exists []; rewrite app_nil_r; reflexivity | lia | lia]. }
  rewrite persist_files_fold by reflexivity.
  cbn [snd rows log commits SQLDatabasePipeline.session_open
       SQLDatabasePipeline.session_close].
  set (fs := default [] (files item)).
  set (gs := map (SQLDatabasePipeline.make_gazette gi) (List.filter is_new fs)).
  assert (Hgs : length gs <= length fs).
  { subst gs. rewrite length_map. apply List.filter_length_le. }
  pose proof (commit_all_length co gs (commits w)) as Hl.
  repeat split.
  - eexists. split; [reflexivity|]. lia.
  - eexists. reflexivity.
  - lia.
  - lia.
Qed.

Lemma strptime_valid (text format : string) (t : datetime) :
  strptime text format = Ok t -> valid_datetime t = true.
Proof.
  unfold strptime. destruct (compile_format _) as [p|]; [|discriminate].
  destruct (match_tokens p (chars text)) as [[g [|c rest]]|]; try discriminate.
  destruct (valid_datetime (datetime_of_groups g)) eqn:E; [|discriminate].
  intros H. injection H as <-. exact E.
Qed.

(** What the sink reads from an item it accepts. *)
Lemma make_gazette_item_inv (item : Item) (gi : SQLDatabasePipeline.gazette_item) :
  SQLDatabasePipeline.make_gazette_item item = Ok gi ->
  exists date_text stamp_text t,
    item_get item "date" = VStr date_text /\
    item_get item "scraped_at" = VStr stamp_text /\
    strptime date_text "%Y-%m-%d" = Ok t /\
    SQLDatabasePipeline.gi_date gi = dt_date t /\
    strptime stamp_text "%Y-%m-%dT%H:%M:%S.%fZ" = Ok (SQLDatabasePipeline.gi_scraped_at gi).
Proof.
  unfold SQLDatabasePipeline.make_gazette_item. intros H.
  destruct (item_get item "date") as [| |date_text| |]; try discriminate H.
  cbn [SQLDatabasePipeline.strptime_value] in H.
  destruct (strptime date_text "%Y-%m-%d") as [t|] eqn:Et; [|discriminate H].
  cbn [mbind result_bind] in H.
  destruct (item_get item "scraped_at") as [| |stamp_text| |]; try discriminate H.
  cbn [SQLDatabasePipeline.strptime_value] in H.
  destruct (strptime stamp_text _) as [t'|] eqn:Et'; [|discriminate H].
  cbn in H. injection H as <-. exists date_text, stamp_text, t. repeat split; assumption.
Qed.

(** The rows an item adds, whatever the configuration of the sink. *)
Lemma sink_rows (co : nat -> option string) (self : SQLDatabasePipeline.t)
    (item : Item) (w : World) :
  exists acc,
    rows (SQLDatabasePipeline.process_item co self item w).2 = rows w ++ acc /\
    forall g, g ∈ acc ->
      exists gi f,
        SQLDatabasePipeline.make_gazette_item item = Ok gi /\
        f ∈ default [] (files item) /\ fi_status f <> "uptodate" /\
        g = SQLDatabasePipeline.make_gazette gi f.
Proof.
  unfold SQLDatabasePipeline.process_item.
  destruct (SQLDatabasePipeline.database_url self) as [url|].
  2:{ exists []. rewrite app_nil_r. split; [reflexivity|]. intros g Hg. inversion Hg. }
  destruct (SQLDatabasePipeline.Session self) as [s|].
  2:{ exists []. rewrite app_nil_r. split; [reflexivity|]. intros g Hg. inversion Hg. }
  destruct (SQLDatabasePipeline.make_gazette_item item) as [gi|e] eqn:Hgi.
  2:{ exists []. rewrite app_nil_r. split; [reflexivity|]. intros g Hg. inversion Hg. }
  rewrite persist_files_fold by reflexivity.
  cbn [snd rows SQLDatabasePipeline.session_open SQLDatabasePipeline.session_close commits].
  eexists. split; [reflexivity|].
  intros g Hg. apply commit_all_accepted in Hg as (i & Hi & _).
  apply list_elem_of_lookup_2 in Hi.
  apply list_elem_of_fmap in Hi as (f & -> & Hf).
  apply list_elem_of_In, filter_In in Hf as [Hf Hn].
  exists gi, f. repeat split; [apply list_elem_of_In, Hf|].
  intros E. unfold is_new in Hn. rewrite E in Hn. discriminate.
Qed.

(** X7. Every row the sink adds carries a date and an instant that exist
    in the calendar, read from the texts of the item, and the path, URL
    and checksum of a file result of the item that is not up to date. *)
Theorem rows_are_well_dated (co : nat -> option string) (self : SQLDatabasePipeline.t)
    (item : Item) (w : World) :
  exists acc,
    rows (SQLDatabasePipeline.process_item co self item w).2 = rows w ++ acc /\
    forall g, g ∈ acc ->
      valid_date (date_ g) = true /\ valid_datetime (scraped_at g) = true /\
      (exists date_text t,
         item_get item "date" = VStr date_text /\
         strptime date_text "%Y-%m-%d" = Ok t /\ date_ g = dt_date t) /\
      (exists stamp_text,
         item_get item "scraped_at" = VStr stamp_text /\
         strptime stamp_text "%Y-%m-%dT%H:%M:%S.%fZ" = Ok (scraped_at g)) /\
      exists f, f ∈ default [] (files item) /\ fi_status f <> "uptodate" /\
                file_path_ g = fi_path f /\ file_url g = fi_url f /\
                file_checksum g = fi_checksum f.
Proof.
  destruct (sink_rows co self item w) as (acc & Hr & Hacc).
  exists acc. split; [exact Hr|]. intros g Hg.
  destruct (Hacc g Hg) as (gi & f & Hgi & Hf & Hs & ->).
  apply make_gazette_item_inv in Hgi as (dtext & stext & t & Hd & Hst & Ht & Hgd & Hgs).
  cbn [date_ scraped_at file_path_ file_url file_checksum SQLDatabasePipeline.make_gazette].
  repeat split.
  - rewrite Hgd. pose proof (strptime_valid _ _ _ Ht) as Hv.
    unfold valid_datetime in Hv. rewrite !andb_true_iff in Hv. tauto.
  - exact (strptime_valid _ _ _ Hgs).
  - exists dtext, t. repeat split; assumption.
  - exists stext. split; assumption.
  - exists f. repeat split; assumption.
Qed.

(** ** The spiders registered in the database *)

Lemma length_omap_le {A B : Type} (f : A -> option B) (l : list A) :
  length (omap f l) <= length l.
Proof.
  induction l as [|a l IH]; [reflexivity|].
  change (omap f (a :: l))
    with (match f a with Some y => y :: omap f l | None => omap f l end).
  destruct (f a); cbn [length]; lia.
Qed.

(** X8. The map handed to the database holds exactly the spider classes
    that have a name, a territory and a start date, the first two not
    empty, in the order of the classes; it is built class by class, and
    it is this map that [open_spider] initializes the database with. *)
Theorem territory_spider_map_entries (classes : list Spider) :
  (forall n t d,
     (n, t, d) ∈ SQLDatabasePipeline._generate_territory_spider_map classes <->
     exists c, c ∈ classes /\ name c = n /\ TERRITORY_ID c = Some t /\
               start_date c = Some d /\ n <> "" /\ t <> "") /\
  (forall more,
     SQLDatabasePipeline._generate_territory_spider_map (classes ++ more) =
     SQLDatabasePipeline._generate_territory_spider_map classes ++
     SQLDatabasePipeline._generate_territory_spider_map more) /\
  length (SQLDatabasePipeline._generate_territory_spider_map classes) <= length classes /\
  (forall url,
     SQLDatabasePipeline.Session
       (SQLDatabasePipeline.open_spider classes
          (SQLDatabasePipeline.from_crawler (Some url))) =
     Some (mkEngine url (SQLDatabasePipeline._generate_territory_spider_map classes))).
Proof.
  unfold SQLDatabasePipeline._generate_territory_spider_map. repeat split.
  - intros H. apply list_elem_of_omap in H as (c & Hc & H).
    destruct (TERRITORY_ID c) as [t'|] eqn:Et; [|discriminate].
    destruct (start_date c) as [d'|] eqn:Ed; [|discriminate].
    destruct (String.eqb (name c) "") eqn:En; [discriminate|].
    destruct (String.eqb t' "") eqn:Ee; [discriminate|].
    cbn in H. injection H as <- <- <-.
    apply String.eqb_neq in En, Ee. exists c. repeat split; assumption.
  - intros (c & Hc & <- & Ht & Hd & Hn & He).
    apply list_elem_of_omap. exists c. split; [exact Hc|].
    rewrite Ht, Hd. apply String.eqb_neq in Hn, He. rewrite Hn, He. reflexivity.
  - intros more. apply omap_app.
  - apply length_omap_le.
Qed.

(** ** Requests and results of an item *)

(** X9. [item_completed] stores the results of the references that
    succeeded, in their order, and replaces ready requests by their texts
    [METHOD URL], leaving the other fields alone. On an item whose
    requests it has already replaced it raises an attribute error; on an
    item without ready requests a second call only replaces the
    results. *)
Theorem item_completed_contract (results results' : list (option FileInfo)) (item : Item) :
  (forall r rs,
     file_requests item = Some (ReqObjects (r :: rs)) ->
     exists item',
       QueridoDiarioFilesPipeline.item_completed results item = Ok item' /\
       file_requests item' =
         Some (ReqText (map (fun q => req_method q +:+ " " +:+ req_url q) (r :: rs))) /\
       files item' = Some (omap id results) /\
       scalars item' = scalars item /\ file_urls item' = file_urls item /\
       QueridoDiarioFilesPipeline.item_completed results' item' =
         Raise (AttributeError "method")) /\
  (file_requests item = None \/ file_requests item = Some (ReqObjects []) ->
   QueridoDiarioFilesPipeline.item_completed results item =
     Ok (set_files (omap id results) item) /\
   QueridoDiarioFilesPipeline.item_completed results'
     (set_files (omap id results) item) =
   QueridoDiarioFilesPipeline.item_completed results' item) /\
  length (omap id results) <= length results.
Proof.
  split; [|split].
  - intros r rs Hr. unfold QueridoDiarioFilesPipeline.item_completed. rewrite Hr.
    eexists. split; [reflexivity|]. repeat split.
  - intros [Hr|Hr]; unfold QueridoDiarioFilesPipeline.item_completed;
      cbn [file_requests set_files]; rewrite Hr; split; reflexivity.
  - apply length_omap_le.
Qed.

Section NoReferences.

Context (super_file_path : Request -> string) (guess : list byte -> option Kind)
  (md5sum : list byte -> string) (basedir : string)
  (fetch : Request -> option Response) (expires : Z).

(** X10. An item without URLs and without ready requests makes the files
    pipeline request nothing: the storage root and the remembered outcomes
    stay as they are, [files] is set to the empty list, and the sink adds
    no row and attempts no commit for it. *)
Theorem item_without_references (now : Z) (item : Item) (spider : Spider)
    (st : FilesPipeline.state) :
  file_urls item = None \/ file_urls item = Some [] ->
  file_requests item = None \/ file_requests item = Some (ReqObjects []) ->
  QueridoDiarioFilesPipeline.get_media_requests item spider = Ok [] /\
  QueridoDiarioFilesPipeline.item_completed [] item = Ok (set_files [] item) /\
  FilesPipeline.process_item super_file_path guess md5sum basedir fetch expires
    now item spider st = (Ok (set_files [] item), st) /\
  forall co self w,
    rows (SQLDatabasePipeline.process_item co self (set_files [] item) w).2 = rows w /\
    commits (SQLDatabasePipeline.process_item co self (set_files [] item) w).2 = commits w.
Proof.
  intros Hu Hr.
  assert (Hm : QueridoDiarioFilesPipeline.get_media_requests item spider = Ok []).
  { unfold QueridoDiarioFilesPipeline.get_media_requests.
    destruct Hu as [->| ->], Hr as [->| ->]; reflexivity. }
  assert (Hc : QueridoDiarioFilesPipeline.item_completed [] item = Ok (set_files [] item)).
  { unfold QueridoDiarioFilesPipeline.item_completed.
    destruct Hr as [->| ->]; reflexivity. }
  repeat split; try assumption.
  - unfold FilesPipeline.process_item. rewrite Hm. cbn [fold_left]. rewrite Hc.
    reflexivity.
  - unfold SQLDatabasePipeline.process_item.
    destruct (SQLDatabasePipeline.database_url self); [|reflexivity].
    destruct (SQLDatabasePipeline.Session self); [|reflexivity].
    destruct (SQLDatabasePipeline.make_gazette_item _); reflexivity.
  - unfold SQLDatabasePipeline.process_item.
    destruct (SQLDatabasePipeline.database_url self); [|reflexivity].
    destruct (SQLDatabasePipeline.Session self); [|reflexivity].
    destruct (SQLDatabasePipeline.make_gazette_item _); reflexivity.
Qed.

End NoReferences.

Lemma item_without_references_witness :
  FilesPipeline.process_item example_default_path guess_pdf example_md5sum "data"
    example_fetch 90 1704449220 (mkItem ∅ None None None) example_spider
    (FilesPipeline.mkState example_disk []) =
  (Ok (mkItem ∅ (Some []) None None), FilesPipeline.mkState example_disk []).
Proof.
  destruct (item_without_references example_default_path guess_pdf example_md5sum "data"
              example_fetch 90 1704449220 (mkItem ∅ None None None) example_spider
              (FilesPipeline.mkState example_disk []) (or_introl eq_refl)
              (or_introl eq_refl)) as (_ & _ & H & _).
  exact H.
Defined.

(** ** Storage paths *)

Section FilePathErrors.

Context (super_file_path : Request -> string) (guess : list byte -> option Kind).

Local Abbreviation file_path := (QueridoDiarioFilesPipeline.file_path super_file_path guess).
Local Abbreviation file_name := (QueridoDiarioFilesPipeline.file_name super_file_path guess).

(** X11. The storage path exists only for an item that carries its
    territory id and its date as text: without an item the path raises a
    type error, without the territory id or the date a key error that
    names the missing field, and with a territory id or a date that is no
    text (a date object that the normalizer has not yet replaced) a type
    error. *)
Theorem file_path_raises_without_fields (request : Request) (response : option Response)
    (item : Item) :
  file_path request response None = Raise TypeError /\
  (scalars item !! "territory_id" = None ->
   file_path request response (Some item) = Raise (KeyError "territory_id")) /\
  (forall v, scalars item !! "territory_id" = Some v -> scalars item !! "date" = None ->
   file_path request response (Some item) = Raise (KeyError "date")) /\
  (forall v w, scalars item !! "territory_id" = Some v -> scalars item !! "date" = Some w ->
     (forall text, v <> VStr text) \/ (forall text, w <> VStr text) ->
     file_path request response (Some item) = Raise TypeError) /\
  (forall p, file_path request response (Some item) = Ok p ->
     exists territory date,
       scalars item !! "territory_id" = Some (VStr territory) /\
       scalars item !! "date" = Some (VStr date) /\
       p = pathlib.to_str (pathlib.Path [territory; date; file_name request response])).
Proof.
  unfold QueridoDiarioFilesPipeline.file_path, getitem. repeat split.
  - intros ->. reflexivity.
  - intros v -> ->. reflexivity.
  - intros v w -> -> [H|H].
    + destruct v as [| |text| |]; try reflexivity. exfalso. exact (H text eq_refl).
    + destruct v as [| |tv| |]; try reflexivity.
      destruct w as [| |text| |]; try reflexivity. exfalso. exact (H text eq_refl).
  - intros p H.
    destruct (scalars item !! "territory_id") as [v|]; [|discriminate].
    destruct (scalars item !! "date") as [w|]; [|discriminate].
    destruct v as [| |t| |]; try discriminate.
    destruct w as [| |d| |]; try discriminate.
    cbn in H. injection H as <-. exists t, d. repeat split.
Qed.

End FilePathErrors.

Lemma has_char_str (c : ascii) (l : list ascii) :
  has_char c (str l) = existsb (fun x => Ascii.eqb x c) l.
Proof. induction l as [|x l IH]; [reflexivity|]. cbn. rewrite <- IH. reflexivity. Qed.

Lemma digits_without (c : ascii) (l : list ascii) :
  is_digit c = false -> Forall (fun x => is_digit x = true) l ->
  existsb (fun x => Ascii.eqb x c) l = false.
Proof.
  intros Hc. induction 1 as [|x l Hx _ IH]; [reflexivity|].
  cbn [existsb]. rewrite IH, orb_false_r.
  destruct (Ascii.eqb_spec x c) as [->|_]; [congruence | reflexivity].
Qed.

Lemma long_is_part (s : string) : 2 <= String.length s -> pathlib.is_part s = true.
Proof.
  destruct s as [|a [|b s]]; cbn [String.length]; try lia. intros _.
  unfold pathlib.is_part. cbn [String.eqb]. destruct (Ascii.eqb a "."); reflexivity.
Qed.

(** The text of a date is a path segment. *)
Lemma date_isoformat_segment (d : date) :
  valid_date d = true -> is_segment (str (date_isoformat d)) = true.
Proof.
  intros Hv. destruct (valid_date_bounds d Hv) as (Hy & Hm & Hd).
  destruct (fmt_d_exact 4 (year d)) as (_ & Dy & _); [simpl; lia|].
  destruct (fmt_d_exact 2 (month d)) as (_ & Dm' & _); [simpl; lia|].
  destruct (fmt_d_exact 2 (day d)) as (_ & Dd' & _); [simpl; lia|].
  unfold is_segment. apply andb_true_iff. split.
  - apply long_is_part. rewrite length_str. unfold date_isoformat.
    rewrite !length_app. pose proof (fmt_d_at_least 4 (year d)). lia.
  - rewrite has_char_str. unfold date_isoformat. rewrite !existsb_app.
    rewrite (digits_without "/" _ eq_refl Dy), (digits_without "/" _ eq_refl Dm'),
      (digits_without "/" _ eq_refl Dd').
    reflexivity.
Qed.

Section NormalizedPaths.

Context (super_file_path : Request -> string) (guess : list byte -> option Kind).

Local Abbreviation file_path := (QueridoDiarioFilesPipeline.file_path super_file_path guess).
Local Abbreviation file_name := (QueridoDiarioFilesPipeline.file_name super_file_path guess).

(** X12. After the normalizer the storage path always exists: for an
    item dated with a date object it is the territory id of the spider,
    the date as [YYYY-MM-DD], and the file name, separated by slashes. *)
Theorem file_path_of_normalized_item (utcnow : datetime) (item : Item) (spider : Spider)
    (territory : string) (d : date) (request : Request) (response : option Response) :
  TERRITORY_ID spider = Some territory -> is_segment territory = true ->
  scalars item !! "date" = Some (VDate d) -> valid_date d = true ->
  pathlib.parts (pathlib.Path [super_file_path request]) <> [] ->
  (forall buf kind, guess buf = Some kind -> has_char "/" (extension kind) = false) ->
  exists item',
    DefaultValuesPipeline.process_item utcnow item spider = Ok item' /\
    file_path request response (Some item') =
      Ok (territory +:+ "/" +:+ str (date_isoformat d) +:+ "/" +:+
          file_name request response).
Proof.
  intros Ht Hts Hd Hv Hn Hg.
  rewrite (normalizer_result utcnow item spider territory (VDate d) Ht Hd).
  eexists. split; [reflexivity|].
  apply file_path_segments.
  - rewrite !lookup_set_scalar. decide_keys. reflexivity.
  - rewrite !lookup_set_scalar. decide_keys. reflexivity.
  - exact Hts.
  - apply date_isoformat_segment, Hv.
  - apply file_name_segment; assumption.
Qed.

End NormalizedPaths.

Lemma file_path_of_normalized_item_witness :
  exists item',
    DefaultValuesPipeline.process_item (mkDateTime (mkDate 2024 1 5) 10 7 0 250)
      example_gazette example_spider = Ok item' /\
    QueridoDiarioFilesPipeline.file_path example_default_path guess_pdf
      example_request (Some example_response) (Some item') =
    Ok "3550308/2024-01-04/abc123.pdf".
Proof.
  assert (Hd : scalars example_gazette !! "date" = Some (VDate (mkDate 2024 1 4)))
    by (vm_compute; reflexivity).
  destruct (file_path_of_normalized_item example_default_path guess_pdf
              (mkDateTime (mkDate 2024 1 5) 10 7 0 250) example_gazette example_spider
              "3550308" (mkDate 2024 1 4) example_request (Some example_response)
              eq_refl eq_refl Hd eq_refl
              (proj1 (example_default_paths example_request)) guess_pdf_extension)
    as (item' & H1 & H2).
  exists item'. split; [exact H1|]. rewrite H2. vm_compute. reflexivity.
Defined.

(** ** Storing and probing *)

Section StoreThenProbe.

Context (md5sum : list byte -> string) (basedir : string).

Local Abbreviation probe := (QueridoDiarioFSFilesStore.stat_file md5sum basedir).

(** After a probe that missed, the file stored under the probed name, or
    under that name with an extension when it has none, is the one the
    probe finds. *)
Lemma probe_after_store (disk : Disk) (now : Z) (buf : list byte) (t d f f1 : string) :
  wf_disk basedir disk ->
  is_name t = true -> is_name d = true -> is_name f = true ->
  is_name f1 = true -> no_magic f = true ->
  f1 = f \/ (pathlib.suffix (pathlib.mkPath "" [t; d; f]) = "" /\
             exists ext, f1 = f +:+ "." +:+ ext) ->
  probe disk (pathlib.join "/" [t; d; f]) = Ok None ->
  probe (disk_write disk (abs_path basedir [t; d; f1]) (mkFile now buf))
    (pathlib.join "/" [t; d; f]) = Ok (Some (mkStat now (md5sum buf))).
Proof.
  intros Hwf Ht Hd Hf Hf1 Hn Hcase Hmiss.
  set (disk' := disk_write disk (abs_path basedir [t; d; f1]) (mkFile now buf)).
  assert (Hwf' : wf_disk basedir disk') by (apply wf_disk_write; assumption).
  rewrite (stat_file_segments md5sum basedir disk t d f Hwf Ht Hd Hf) in Hmiss.
  rewrite (stat_file_segments md5sum basedir disk' t d f Hwf' Ht Hd Hf).
  unfold resolved_name in *.
  assert (Hnew : disk_lookup disk' (abs_path basedir [t; d; f1]) = Some (mkFile now buf))
    by apply disk_lookup_write_eq.
  destruct (negb (String.eqb (pathlib.suffix (pathlib.mkPath "" [t; d; f])) "")) eqn:Es.
  - destruct Hcase as [->|(Hs & _)].
    + rewrite Hnew. reflexivity.
    + rewrite Hs in Es. discriminate Es.
  - set (dir := abs_path basedir [t; d]) in *.
    pose proof (filter_first (pathlib.fnmatch (f +:+ ".*")) (listdir disk dir)) as Hold.
    destruct (List.filter _ (listdir disk dir)) as [|e rest] eqn:Eold.
    2:{ exfalso. destruct Hold as (before & after & El & _ & _).
        assert (He : In e (listdir disk dir))
          by (rewrite El; apply in_or_app; right; left; reflexivity).
        destruct (listdir_entry basedir disk t d e Hwf He) as [_ [x Hx]].
        rewrite Hx in Hmiss. discriminate Hmiss. }
    assert (Hall : forall e, In e (listdir disk' dir) ->
                     pathlib.fnmatch (f +:+ ".*") e = true -> e = f1).
    { intros e He Hm. apply (in_listdir basedir disk' t d e Hwf') in He.
      apply on_disk_write in He as [E|He].
      - apply abs_path_inj in E. injection E as ->. reflexivity.
      - exfalso. apply (in_listdir basedir disk t d e Hwf) in He.
        specialize (Hold e He). congruence. }
    pose proof (filter_first (pathlib.fnmatch (f +:+ ".*")) (listdir disk' dir)) as Hnewl.
    destruct (List.filter _ (listdir disk' dir)) as [|e rest] eqn:Enew.
    + destruct Hcase as [->|(_ & ext & ->)]; [rewrite Hnew; reflexivity|].
      exfalso.
      assert (He : In (f +:+ "." +:+ ext) (listdir disk' dir))
        by (apply (in_listdir basedir disk' t d _ Hwf'); eexists; exact Hnew).
      specialize (Hnewl _ He).
      assert (pathlib.fnmatch (f +:+ ".*") (f +:+ "." +:+ ext) = true)
        by (apply fnmatch_any_extension; [exact Hn | exists ext; reflexivity]).
      congruence.
    + destruct Hnewl as (before & after & El & Hm & _).
      assert (He : In e (listdir disk' dir))
        by (rewrite El; apply in_or_app; right; left; reflexivity).
      rewrite (Hall e He Hm), Hnew. reflexivity.
Qed.

End StoreThenProbe.

Section RoundTrip.

Context (super_file_path : Request -> string) (guess : list byte -> option Kind)
  (md5sum : list byte -> string) (basedir : string).

Local Abbreviation file_path := (QueridoDiarioFilesPipeline.file_path super_file_path guess).
Local Abbreviation probe := (QueridoDiarioFSFilesStore.stat_file md5sum basedir).

(** X13. Store and probe agree. Over a storage root that holds the files
    the pipeline stores, under a territory and a date that name
    directories, the path computed before the download, without a
    response, can differ from the path the file is stored under, which may
    carry an inferred extension. Storing the file succeeds; the probe of
    the first path on the root in which the file has been stored finds a
    file, and when it found none before the download it finds the stored
    file, with its write time and the checksum of its content. *)
Theorem stored_file_is_found_by_probe (now : Z) (disk : Disk) (item : Item)
    (territory date : string) (request : Request) (response : Response) :
  scalars item !! "territory_id" = Some (VStr territory) ->
  scalars item !! "date" = Some (VStr date) ->
  is_name territory = true -> is_name date = true ->
  pathlib.parts (pathlib.Path [super_file_path request]) <> [] ->
  no_magic (pathlib.name (pathlib.Path [super_file_path request])) = true ->
  pathlib.name (pathlib.Path [super_file_path request]) <> ".." ->
  (forall buf kind, guess buf = Some kind -> has_char "/" (extension kind) = false) ->
  wf_disk basedir disk ->
  exists probed stored disk',
    file_path request None (Some item) = Ok probed /\
    file_path request (Some response) (Some item) = Ok stored /\
    FSFilesStore.persist_file basedir now disk stored (resp_body response) = Ok disk' /\
    (exists st, probe disk' probed = Ok (Some st)) /\
    (probe disk probed = Ok None ->
     probe disk' probed = Ok (Some (mkStat now (md5sum (resp_body response))))).
Proof.
  intros Ht Hd Htn Hdn Hne Hnm Hnp Hg Hwf.
  pose proof (name_is_segment _ Htn) as Hts. pose proof (name_is_segment _ Hdn) as Hds.
  set (f := pathlib.name (pathlib.Path [super_file_path request])) in *.
  set (f1 := QueridoDiarioFilesPipeline.file_name super_file_path guess request
               (Some response)).
  assert (Hfs : is_segment f = true) by (apply base_name_segment, Hne).
  assert (Hf : is_name f = true) by (apply is_name_intro; assumption).
  assert (Hf1s : is_segment f1 = true) by (apply file_name_segment; assumption).
  assert (Hcase : f1 = f \/ (pathlib.suffix (pathlib.mkPath "" [territory; date; f]) = "" /\
                             exists ext, f1 = f +:+ "." +:+ ext)).
  { destruct (file_name_cases super_file_path guess request (Some response))
      as [E|(r0 & kind & _ & Hs & _ & E)]; [left; exact E|].
    right. split; [|exists (extension kind); exact E].
    rewrite <- Hs. apply suffix_of_name. reflexivity. }
  assert (Hf1 : is_name f1 = true).
  { destruct (file_name_cases super_file_path guess request (Some response))
      as [E|(r0 & kind & _ & _ & Hk & E)]; fold f f1 in E; rewrite E; [exact Hf|].
    apply name_with_extension; [exact Hfs | exact (Hg _ _ Hk)]. }
  exists (pathlib.join "/" [territory; date; f]), (pathlib.join "/" [territory; date; f1]),
    (disk_write disk (abs_path basedir [territory; date; f1])
       (mkFile now (resp_body response))).
  split; [|split; [|split; [|split]]].
  - apply (file_path_segments super_file_path guess request None item territory date
             Ht Hd Hts Hds Hfs).
  - apply (file_path_segments super_file_path guess request (Some response) item
             territory date Ht Hd Hts Hds Hf1s).
  - apply persist_file_stored; assumption.
  - apply (probe_hit_of_stored md5sum basedir _ territory date f f1); try assumption.
    + apply wf_disk_write; assumption.
    + unfold on_disk. rewrite disk_lookup_write_eq. eexists. reflexivity.
  - apply probe_after_store; assumption.
Qed.

End RoundTrip.

Lemma stored_file_is_found_by_probe_witness :
  exists disk',
    FSFilesStore.persist_file "data" 1704449220 []
      "3550308/2024-01-04/abc123.pdf" pdf_body = Ok disk' /\
    QueridoDiarioFSFilesStore.stat_file example_md5sum "data" disk'
      "3550308/2024-01-04/abc123" =
    Ok (Some (mkStat 1704449220 "5d41402abc4b2a76b9719d911017c592")).
Proof.
  assert (Ht : scalars (example_item []) !! "territory_id" = Some (VStr "3550308"))
    by (vm_compute; reflexivity).
  assert (Hd : scalars (example_item []) !! "date" = Some (VStr "2024-01-04"))
    by (vm_compute; reflexivity).
  destruct (stored_file_is_found_by_probe example_default_path guess_pdf example_md5sum
              "data" 1704449220 [] (example_item []) "3550308" "2024-01-04"
              example_request example_response Ht Hd eq_refl eq_refl
              (proj1 (example_default_paths example_request))
              (proj2 (example_default_paths example_request))
              (example_default_names example_request)
              guess_pdf_extension (Forall_nil_2 _))
    as (probed & stored & disk' & H0 & H1 & H2 & _ & H).
  assert (E0 : probed = "3550308/2024-01-04/abc123").
  { assert (E : QueridoDiarioFilesPipeline.file_path example_default_path guess_pdf
                  example_request None (Some (example_item [])) =
                Ok "3550308/2024-01-04/abc123") by (vm_compute; reflexivity).
    rewrite E in H0. injection H0 as <-. reflexivity. }
  assert (E1 : stored = "3550308/2024-01-04/abc123.pdf").
  { assert (E : QueridoDiarioFilesPipeline.file_path example_default_path guess_pdf
                  example_request (Some example_response) (Some (example_item [])) =
                Ok "3550308/2024-01-04/abc123.pdf") by (vm_compute; reflexivity).
    rewrite E in H1. injection H1 as <-. reflexivity. }
  subst probed stored. exists disk'. split; [exact H2|].
  apply H. vm_compute. reflexivity.
Defined.

Section ProbeHits.

Context (md5sum : list byte -> string) (basedir : string).

Local Abbreviation probe := (QueridoDiarioFSFilesStore.stat_file md5sum basedir).

(** X14. Over a storage root that holds the files the pipeline stores,
    the probe of a path of territory, date and file name never raises; it
    finds a file exactly when the directory of the date holds a file of
    that name, or, for a name without extension, a file of that name
    followed by a dot and an extension; and what it reports is the
    modification time and the checksum of such a file, never of a file
    named otherwise. *)
Theorem probe_hits_exactly_stored_names (disk : Disk) (t d f : string) :
  wf_disk basedir disk ->
  is_name t = true -> is_name d = true -> is_name f = true ->
  no_magic f = true ->
  (exists o, probe disk (pathlib.join "/" [t; d; f]) = Ok o) /\
  ((exists st, probe disk (pathlib.join "/" [t; d; f]) = Ok (Some st)) <->
   on_disk disk (abs_path basedir [t; d; f]) \/
   (pathlib.suffix (pathlib.mkPath "" [t; d; f]) = "" /\
    exists ext, on_disk disk (abs_path basedir [t; d; f +:+ "." +:+ ext]))) /\
  (forall st, probe disk (pathlib.join "/" [t; d; f]) = Ok (Some st) ->
     exists e x,
       disk_lookup disk (abs_path basedir [t; d; e]) = Some x /\
       st = mkStat (st_mtime x) (md5sum (content x)) /\
       (e = f \/ (pathlib.suffix (pathlib.mkPath "" [t; d; f]) = "" /\
                  exists ext, e = f +:+ "." +:+ ext))).
Proof.
  intros Hwf Ht Hd Hf Hn.
  pose proof (probe_sound md5sum basedir disk t d f) as Hsound.
  split; [|split].
  - rewrite (stat_file_segments md5sum basedir disk t d f Hwf Ht Hd Hf).
    eexists. reflexivity.
  - split.
    + intros [st Hst].
      destruct (Hsound st Hwf Ht Hd Hf Hn Hst) as (e & x & Hl & _ & [->|(Hs & ext & ->)]).
      * left. exists x. exact Hl.
      * right. split; [exact Hs|]. exists ext, x. exact Hl.
    + intros [Hon|(Hs & ext & Hon)].
      * apply (probe_hit_of_stored md5sum basedir disk t d f f); try assumption.
        left. reflexivity.
      * apply (probe_hit_of_stored md5sum basedir disk t d f (f +:+ "." +:+ ext));
          try assumption.
        right. split; [exact Hs | exists ext; reflexivity].
  - intros st Hst. exact (Hsound st Hwf Ht Hd Hf Hn Hst).
Qed.

End ProbeHits.

Lemma probe_hits_exactly_stored_names_witness :
  (exists st, QueridoDiarioFSFilesStore.stat_file example_md5sum "data" example_disk
                "X/2024-01-05/abc123" = Ok (Some st)) /\
  ~ (exists st, QueridoDiarioFSFilesStore.stat_file example_md5sum "data" example_disk
                  "X/2024-01-05/ffe0.txt.bak" = Ok (Some st)).
Proof.
  destruct (probe_hits_exactly_stored_names example_md5sum "data" example_disk
              "X" "2024-01-05" "abc123" example_disk_wf eq_refl eq_refl eq_refl eq_refl)
    as (_ & H1 & _).
  destruct (probe_hits_exactly_stored_names example_md5sum "data" example_disk
              "X" "2024-01-05" "ffe0.txt.bak" example_disk_wf eq_refl eq_refl eq_refl
              eq_refl) as (_ & H2 & _).
  split.
  - apply H1. right. split; [reflexivity|]. exists "pdf". vm_compute. eexists. reflexivity.
  - intros H. apply H2 in H as [[x Hx]|(Hs & _)]; [|discriminate Hs].
    vm_compute in Hx. discriminate Hx.
Defined.

(** ** The start date *)

Lemma date_ltb_lt (a b : date) :
  date_ltb a b = true <->
  (year a < year b \/
   (year a = year b /\ (month a < month b \/ (month a = month b /\ day a < day b))))%N.
Proof.
  unfold date_ltb.
  rewrite !orb_true_iff, !andb_true_iff, !orb_true_iff, !andb_true_iff,
    !N.ltb_lt, !N.eqb_eq.
  reflexivity.
Qed.

Lemma date_ltb_trans (a b c : date) :
  date_ltb a b = true -> date_ltb b c = true -> date_ltb a c = true.
Proof. rewrite !date_ltb_lt. lia. Qed.

(** X15. Moving the start date back never drops more: an item the gate
    accepts for a start date is accepted for every earlier start date,
    and an item dropped for a start date is dropped for every later
    one. *)
Theorem date_gate_monotone (item : Item) (spider spider' : Spider) (sd sd' : date) :
  start_date spider = Some sd -> start_date spider' = Some sd' ->
  date_ltb sd' sd = true ->
  (GazetteDateFilteringPipeline.process_item item spider = Ok item ->
   GazetteDateFilteringPipeline.process_item item spider' = Ok item) /\
  (forall msg',
     GazetteDateFilteringPipeline.process_item item spider' = Raise (DropItem msg') ->
     GazetteDateFilteringPipeline.process_item item spider =
     Raise (DropItem ("Droping all items before " +:+ str (date_isoformat sd)))).
Proof.
  intros Hs Hs' Hlt.
  unfold GazetteDateFilteringPipeline.process_item, GazetteDateFilteringPipeline.date_gt.
  rewrite Hs, Hs'.
  destruct (item_get item "date") as [| | |d|]; cbn [mbind result_bind];
    try (split; [discriminate | intros msg'; discriminate]).
  destruct (date_ltb d sd') eqn:E'.
  - rewrite (date_ltb_trans d sd' sd E' Hlt). split; [discriminate|].
    intros msg' _. reflexivity.
  - split; [intros _; reflexivity | intros msg'; discriminate].
Qed.

Lemma date_gate_monotone_witness :
  let later := mkSpider "sp" None (Some (mkDate 2020 1 1)) None in
  let earlier := mkSpider "sp" None (Some (mkDate 2019 6 1)) None in
  let kept := mkItem {[ "date" := VDate (mkDate 2020 6 1) ]} None None None in
  let dropped := mkItem {[ "date" := VDate (mkDate 2019 1 1) ]} None None None in
  GazetteDateFilteringPipeline.process_item kept earlier = Ok kept /\
  GazetteDateFilteringPipeline.process_item dropped later =
    Raise (DropItem "Droping all items before 2020-01-01").
Proof.
  cbv zeta. split.
  - apply (proj1 (date_gate_monotone
                    (mkItem {[ "date" := VDate (mkDate 2020 6 1) ]} None None None)
                    (mkSpider "sp" None (Some (mkDate 2020 1 1)) None)
                    (mkSpider "sp" None (Some (mkDate 2019 6 1)) None)
                    (mkDate 2020 1 1) (mkDate 2019 6 1) eq_refl eq_refl eq_refl)).
    reflexivity.
  - apply (proj2 (date_gate_monotone
                    (mkItem {[ "date" := VDate (mkDate 2019 1 1) ]} None None None)
                    (mkSpider "sp" None (Some (mkDate 2020 1 1)) None)
                    (mkSpider "sp" None (Some (mkDate 2019 6 1)) None)
                    (mkDate 2020 1 1) (mkDate 2019 6 1) eq_refl eq_refl eq_refl)
             "Droping all items before 2019-06-01").
    reflexivity.
Defined.

(** ** Rows through the stages *)

Lemma item_completed_scalars (results : list (option FileInfo)) (item item' : Item) :
  QueridoDiarioFilesPipeline.item_completed results item = Ok item' ->
  scalars item' = scalars item.
Proof.
  unfold QueridoDiarioFilesPipeline.item_completed.
  destruct (file_requests item) as [[[|r rs]|[|x l]]|]; cbn; try discriminate;
    intros H; injection H as <-; reflexivity.
Qed.

Lemma make_gazette_item_territory (item : Item) (gi : SQLDatabasePipeline.gazette_item) :
  SQLDatabasePipeline.make_gazette_item item = Ok gi ->
  SQLDatabasePipeline.gi_territory_id gi = item_get item "territory_id".
Proof.
  unfold SQLDatabasePipeline.make_gazette_item. intros H.
  destruct (SQLDatabasePipeline.strptime_value (item_get item "date") _); [|discriminate H].
  cbn [mbind result_bind] in H.
  destruct (SQLDatabasePipeline.strptime_value (item_get item "scraped_at") _);
    [|discriminate H].
  cbn in H. injection H as <-. reflexivity.
Qed.

Section RowsOfThePipeline.

Context (super_file_path : Request -> string) (guess : list byte -> option Kind)
  (md5sum : list byte -> string) (basedir : string)
  (fetch : Request -> option Response) (expires : Z)
  (commit_outcome : nat -> option string).

Local Abbreviation pipeline :=
  (ITEM_PIPELINES.process_item super_file_path guess md5sum basedir fetch expires
     commit_outcome).
Local Abbreviation process_job :=
  (ITEM_PIPELINES.process_job super_file_path guess md5sum basedir fetch expires
     commit_outcome).
Local Abbreviation crawl :=
  (ITEM_PIPELINES.crawl super_file_path guess md5sum basedir fetch expires
     commit_outcome).

(** The rows an item adds on its way through the stages: the sink makes
    them from the fields the normalizer wrote. *)
Lemma pipeline_rows (sink : SQLDatabasePipeline.t) (utcnow : datetime) (now : Z)
    (item : Item) (spider : Spider) (st : FilesPipeline.state) (w : World) :
  exists acc,
    rows (pipeline sink utcnow now item spider st w).2 = rows w ++ acc /\
    (acc = [] \/
     exists territory d item2,
       GazetteDateFilteringPipeline.process_item item spider = Ok item /\
       TERRITORY_ID spider = Some territory /\ scalars item !! "date" = Some d /\
       item_get item2 "territory_id" = VStr territory /\
       item_get item2 "date" = VStr (py_str d) /\
       item_get item2 "scraped_at" = VStr (str (datetime_isoformat "T" utcnow) +:+ "Z") /\
       forall g, g ∈ acc ->
         exists gi f, SQLDatabasePipeline.make_gazette_item item2 = Ok gi /\
                      g = SQLDatabasePipeline.make_gazette gi f).
Proof.
  unfold ITEM_PIPELINES.process_item, ITEM_PIPELINES.content_stages.
  destruct (GazetteDateFilteringPipeline.process_item item spider) as [item0|e] eqn:Eg.
  2:{ exists []. rewrite app_nil_r. split; [reflexivity | left; reflexivity]. }
  assert (item0 = item) as ->.
  { unfold GazetteDateFilteringPipeline.process_item in Eg.
    destruct (start_date spider); [|congruence].
    destruct (GazetteDateFilteringPipeline.date_gt _ _) as [[|]|]; cbn in Eg; congruence. }
  destruct (TERRITORY_ID spider) as [territory|] eqn:Ht.
  2:{ unfold DefaultValuesPipeline.process_item. rewrite Ht.
      exists []. rewrite app_nil_r. split; [reflexivity | left; reflexivity]. }
  destruct (scalars item !! "date") as [d|] eqn:Hd.
  2:{ unfold DefaultValuesPipeline.process_item, getitem. rewrite Ht.
      rewrite lookup_set_scalar. decide_keys. rewrite Hd.
      exists []. rewrite app_nil_r. split; [reflexivity | left; reflexivity]. }
  rewrite (normalizer_result utcnow item spider territory d Ht Hd).
  set (item1 := set_scalar "scraped_at" _ _).
  unfold FilesPipeline.process_item.
  destruct (QueridoDiarioFilesPipeline.get_media_requests item1 spider) as [reqs|e].
  2:{ exists []. rewrite app_nil_r. split; [reflexivity | left; reflexivity]. }
  destruct (fold_left _ reqs ([], st)) as [results st'].
  destruct (QueridoDiarioFilesPipeline.item_completed results item1) as [item2|e] eqn:Hc.
  2:{ exists []. rewrite app_nil_r. split; [reflexivity | left; reflexivity]. }
  apply item_completed_scalars in Hc.
  destruct (sink_rows commit_outcome sink item2 w) as (acc & Hr & Hacc).
  exists acc. split.
  { destruct (SQLDatabasePipeline.process_item commit_outcome sink item2 w) as [r w'].
    exact Hr. }
  right. exists territory, d, item2. repeat split.
  - unfold item_get. rewrite Hc. subst item1. rewrite !lookup_set_scalar.
    decide_keys. reflexivity.
  - unfold item_get. rewrite Hc. subst item1. rewrite !lookup_set_scalar.
    decide_keys. reflexivity.
  - unfold item_get. rewrite Hc. subst item1. rewrite !lookup_set_scalar.
    decide_keys. reflexivity.
  - intros g Hg. destruct (Hacc g Hg) as (gi & f & Hgi & _ & _ & ->).
    exists gi, f. split; [exact Hgi | reflexivity].
Qed.

(** The rows of an item carry its date, which the gate has let through. *)
Lemma pipeline_row_date (sink : SQLDatabasePipeline.t) (utcnow : datetime)
    (now : Z) (item : Item) (spider : Spider) (st : FilesPipeline.state) (w : World)
    (sd : date) (acc : list Gazette) :
  start_date spider = Some sd ->
  (forall d, item_get item "date" = VDate d -> valid_date d = true) ->
  rows (pipeline sink utcnow now item spider st w).2 = rows w ++ acc ->
  forall g, g ∈ acc ->
    item_get item "date" = VDate (date_ g) /\ date_ltb (date_ g) sd = false.
Proof.
  intros Hsd Hvalid Hrows.
  destruct (pipeline_rows sink utcnow now item spider st w) as (acc' & Hr & H).
  rewrite Hrows in Hr. apply app_inv_head in Hr. subst acc'.
  destruct H as [->|(territory & dv & item2 & Hgate & _ & Hdv & _ & H2 & _ & Hacc)].
  { intros g Hg. inversion Hg. }
  intros g Hg. destruct (Hacc g Hg) as (gi & f & Hgi & ->).
  unfold GazetteDateFilteringPipeline.process_item,
    GazetteDateFilteringPipeline.date_gt in Hgate.
  rewrite Hsd in Hgate. unfold item_get in Hgate, Hvalid |- *. rewrite Hdv in *.
  cbn [default from_option id] in Hgate, Hvalid |- *.
  destruct dv as [| | |d|]; try discriminate Hgate.
  cbn [mbind result_bind] in Hgate.
  destruct (date_ltb d sd) eqn:Hlt; [discriminate Hgate|].
  apply make_gazette_item_inv in Hgi as (dtext & _ & t & Hdt & _ & Hp & Hgd & _).
  rewrite H2 in Hdt. injection Hdt as <-. cbn [py_str] in Hp.
  rewrite (strptime_date_isoformat d (Hvalid d eq_refl)) in Hp. injection Hp as <-.
  cbn [date_ SQLDatabasePipeline.make_gazette]. rewrite Hgd. cbn [dt_date].
  split; [reflexivity | exact Hlt].
Qed.

(** The rows of an item carry the territory of the spider and the clock
    reading of the normalizer, which has a fraction of a second. *)
Lemma pipeline_row_instant (sink : SQLDatabasePipeline.t) (utcnow : datetime)
    (now : Z) (item : Item) (spider : Spider) (st : FilesPipeline.state) (w : World)
    (acc : list Gazette) :
  valid_datetime utcnow = true ->
  rows (pipeline sink utcnow now item spider st w).2 = rows w ++ acc ->
  forall g, g ∈ acc ->
    (exists territory,
       TERRITORY_ID spider = Some territory /\ territory_id g = VStr territory) /\
    scraped_at g = utcnow /\ microsecond utcnow <> 0%N.
Proof.
  intros Hv Hrows.
  destruct (pipeline_rows sink utcnow now item spider st w) as (acc' & Hr & H).
  rewrite Hrows in Hr. apply app_inv_head in Hr. subst acc'.
  destruct H as [->|(territory & d & item2 & _ & Ht & _ & H1 & _ & H3 & Hacc)].
  { intros g Hg. inversion Hg. }
  intros g Hg. destruct (Hacc g Hg) as (gi & f & Hgi & ->).
  pose proof (make_gazette_item_territory item2 gi Hgi) as Hgt.
  apply make_gazette_item_inv in Hgi as (_ & stext & _ & _ & Hs & _ & _ & Hp).
  rewrite H3 in Hs. injection Hs as <-.
  rewrite (strptime_scraped_at utcnow Hv) in Hp.
  cbn [territory_id scraped_at SQLDatabasePipeline.make_gazette].
  destruct (microsecond utcnow =? 0)%N eqn:E; [discriminate Hp|].
  injection Hp as <-. repeat split.
  + exists territory. split; [exact Ht|]. rewrite Hgt. exact H1.
  + apply N.eqb_neq, E.
Qed.

(** X16. Through the whole sequence of stages, under a spider with a
    start date: an item dated before it is dropped without a file stored
    or a row added, and every row an item adds carries the date of the
    item, which is not before the start date. *)
Theorem start_date_is_respected (sink : SQLDatabasePipeline.t) (utcnow : datetime)
    (now : Z) (item : Item) (spider : Spider) (st : FilesPipeline.state) (w : World)
    (sd : date) :
  start_date spider = Some sd ->
  (forall d, item_get item "date" = VDate d -> valid_date d = true) ->
  (forall d, item_get item "date" = VDate d -> date_ltb d sd = true ->
     pipeline sink utcnow now item spider st w =
     (Raise (DropItem ("Droping all items before " +:+ str (date_isoformat sd))), st, w)) /\
  exists acc,
    rows (pipeline sink utcnow now item spider st w).2 = rows w ++ acc /\
    forall g, g ∈ acc ->
      item_get item "date" = VDate (date_ g) /\ date_ltb (date_ g) sd = false.
Proof.
  intros Hsd Hvalid. split.
  - intros d Hd Hlt.
    unfold ITEM_PIPELINES.process_item, ITEM_PIPELINES.content_stages,
      GazetteDateFilteringPipeline.process_item, GazetteDateFilteringPipeline.date_gt.
    rewrite Hsd, Hd. cbn [mbind result_bind]. rewrite Hlt. reflexivity.
  - destruct (pipeline_rows sink utcnow now item spider st w) as (acc & Hr & _).
    exists acc. split; [exact Hr|].
    exact (pipeline_row_date sink utcnow now item spider st w sd acc Hsd Hvalid Hr).
Qed.

(** What a row of a crawl owes to the job [j] it comes from. *)
Local Abbreviation row_of spider g j :=
  ((exists territory,
      TERRITORY_ID spider = Some territory /\ territory_id g = VStr territory) /\
   scraped_at g = j.1.1 /\ microsecond j.1.1 <> 0%N /\
   forall sd, start_date spider = Some sd ->
     item_get j.2 "date" = VDate (date_ g) /\ date_ltb (date_ g) sd = false).

Lemma jobs_rows (sink : SQLDatabasePipeline.t) (spider : Spider)
    (jobs : list (datetime * Z * Item)) :
  Forall (fun j : datetime * Z * Item =>
            valid_datetime j.1.1 = true /\
            forall d, item_get j.2 "date" = VDate d -> valid_date d = true) jobs ->
  forall acc0 : list (result Item) * FilesPipeline.state * World,
  exists acc,
    rows (fold_left (process_job sink spider) jobs acc0).2 = rows acc0.2 ++ acc /\
    forall g, g ∈ acc -> exists j, j ∈ jobs /\ row_of spider g j.
Proof.
  induction 1 as [|j jobs [Hv Hd] _ IH]; intros acc0; cbn [fold_left].
  - exists []. rewrite app_nil_r. split; [reflexivity|]. intros g Hg. inversion Hg.
  - destruct acc0 as [[rs st] w]. destruct j as [[utcnow now] item].
    cbn [fst snd] in Hv, Hd.
    unfold ITEM_PIPELINES.process_job at 2.
    destruct (pipeline_rows sink utcnow now item spider st w) as (acc1 & Hr1 & _).
    pose proof (pipeline_row_instant sink utcnow now item spider st w acc1 Hv Hr1) as Hi.
    pose proof (fun sd Hsd =>
                  pipeline_row_date sink utcnow now item spider st w sd acc1 Hsd Hd Hr1)
      as Hdt.
    destruct (pipeline sink utcnow now item spider st w) as [[r st1] w1].
    cbn [snd] in Hr1.
    destruct (IH (rs ++ [r], st1, w1)) as (acc2 & Hr2 & H2).
    exists (acc1 ++ acc2). split.
    + rewrite Hr2. cbn [snd]. rewrite Hr1, app_assoc. reflexivity.
    + intros g Hg. apply elem_of_app in Hg as [Hg|Hg].
      * exists (utcnow, now, item). split; [left|].
        destruct (Hi g Hg) as (Ht & Hs & Hus). cbn [fst snd].
        repeat split; try assumption; apply (Hdt sd H g Hg).
      * destruct (H2 g Hg) as (j & Hj & Hrow). exists j. split; [right; exact Hj|].
        exact Hrow.
Qed.

(** X17. Every row a crawl adds comes from one of its items: it carries
    the territory id of the spider, whatever territory the item named
    itself, the clock reading at which that item was normalized, and,
    under a spider with a start date, the date of that item, which is not
    before the start date. No row comes from an item normalized at a
    clock reading whose microsecond is zero. *)
Theorem crawl_rows_provenance (url : option string) (spider : Spider)
    (jobs : list (datetime * Z * Item)) (d0 : Disk) (w0 : World) :
  Forall (fun j : datetime * Z * Item =>
            valid_datetime j.1.1 = true /\
            forall d, item_get j.2 "date" = VDate d -> valid_date d = true) jobs ->
  exists acc,
    rows (crawl url spider jobs d0 w0).2 = rows w0 ++ acc /\
    forall g, g ∈ acc ->
      exists j, j ∈ jobs /\
        (exists territory,
           TERRITORY_ID spider = Some territory /\ territory_id g = VStr territory) /\
        scraped_at g = j.1.1 /\ microsecond j.1.1 <> 0%N /\
        forall sd, start_date spider = Some sd ->
          item_get j.2 "date" = VDate (date_ g) /\ date_ltb (date_ g) sd = false.
Proof.
  intros Hjobs. unfold ITEM_PIPELINES.crawl, ITEM_PIPELINES.process_items.
  set (sink := SQLDatabasePipeline.open_spider [spider] _).
  destruct (jobs_rows sink spider jobs Hjobs ([], FilesPipeline.mkState d0 [], w0))
    as (acc & Hr & H).
  exists acc. split; [|exact H].
  destruct (fold_left _ jobs _) as [[rs st] w]. exact Hr.
Qed.

End RowsOfThePipeline.

Lemma start_date_is_respected_witness :
  exists acc,
    rows (ITEM_PIPELINES.process_item example_default_path guess_pdf example_md5sum "data"
            example_fetch 90 (fun _ => None) example_sink
            (mkDateTime (mkDate 2024 1 5) 10 7 0 250) 1704449220 example_gazette
            example_spider (FilesPipeline.mkState [] []) (mkWorld [] [] 0 0 [])).2 =
    [] ++ acc /\
    forall g, g ∈ acc ->
      item_get example_gazette "date" = VDate (date_ g) /\
      date_ltb (date_ g) (mkDate 2015 1 1) = false.
Proof.
  assert (Hv : forall d, item_get example_gazette "date" = VDate d -> valid_date d = true).
  { intros d H. vm_compute in H. injection H as <-. reflexivity. }
  exact (proj2 (start_date_is_respected example_default_path guess_pdf example_md5sum
                  "data" example_fetch 90 (fun _ => None) example_sink
                  (mkDateTime (mkDate 2024 1 5) 10 7 0 250) 1704449220 example_gazette
                  example_spider (FilesPipeline.mkState [] []) (mkWorld [] [] 0 0 [])
                  (mkDate 2015 1 1) eq_refl Hv)).
Defined.

Example start_date_example :
  map date_
    (rows (ITEM_PIPELINES.process_item example_default_path guess_pdf example_md5sum "data"
             example_fetch 90 (fun _ => None) example_sink
             (mkDateTime (mkDate 2024 1 5) 10 7 0 250) 1704449220 example_gazette
             example_spider (FilesPipeline.mkState [] []) (mkWorld [] [] 0 0 [])).2) =
  [mkDate 2024 1 4].
Proof. vm_compute. reflexivity. Qed.

Lemma crawl_rows_provenance_witness :
  exists acc,
    rows (example_crawl first_jobs [] (mkWorld [] [] 0 0 [])).2 = [] ++ acc /\
    forall g, g ∈ acc ->
      exists j, j ∈ first_jobs /\
        (exists territory,
           TERRITORY_ID example_spider = Some territory /\
           territory_id g = VStr territory) /\
        scraped_at g = j.1.1 /\ microsecond j.1.1 <> 0%N /\
        forall sd, start_date example_spider = Some sd ->
          item_get j.2 "date" = VDate (date_ g) /\ date_ltb (date_ g) sd = false.
Proof.
  apply (crawl_rows_provenance example_default_path guess_pdf example_md5sum "data"
           example_fetch 90 (fun _ => None) (Some "postgresql://db") example_spider
           first_jobs [] (mkWorld [] [] 0 0 [])).
  repeat constructor. intros d H. vm_compute in H. injection H as <-. reflexivity.
Defined.

Example crawl_rows_example :
  map (fun g => (date_ g, scraped_at g, territory_id g, file_path_ g))
    (rows (example_crawl first_jobs [] (mkWorld [] [] 0 0 [])).2) =
  [(mkDate 2024 1 4, mkDateTime (mkDate 2024 1 5) 10 7 0 250, VStr "3550308",
    "3550308/2024-01-04/abc123.pdf")].
Proof. vm_compute. reflexivity. Qed.

(** ** Writes to the storage root *)

(** A file written outside a directory leaves the entries of the
    directory as they were. *)
Lemma listdir_write_elsewhere (d : Disk) (p dir : pathlib.PurePath) (f : File) :
  child_of dir p = None -> listdir (disk_write d p f) dir = listdir d dir.
Proof.
  intros Hp. unfold listdir. f_equal.
  induction d as [|[q g] d IH].
  - cbn. rewrite Hp. reflexivity.
  - cbn [disk_write]. destruct (bool_decide (q = p)) eqn:E.
    + apply bool_decide_eq_true in E. subst q.
      change (omap ?h ((p, f) :: d)) with
        (match h (p, f) with Some y => y :: omap h d | None => omap h d end).
      change (omap ?h ((p, g) :: d)) with
        (match h (p, g) with Some y => y :: omap h d | None => omap h d end).
      cbn [fst]. rewrite Hp. reflexivity.
    + change (omap ?h ((q, g) :: ?l)) with
        (match h (q, g) with Some y => y :: omap h l | None => omap h l end).
      rewrite IH. reflexivity.
Qed.

Section Isolation.

Context (md5sum : list byte -> string) (basedir : string).

Local Abbreviation probe := (QueridoDiarioFSFilesStore.stat_file md5sum basedir).

(** X18. Over a storage root that holds the files the pipeline stores,
    with territories, dates and file names that name directory entries,
    storing a file under one territory and date succeeds and leaves the
    probe of every path of another territory or date as it was. *)
Theorem probe_ignores_other_directories (disk : Disk) (now : Z) (buf : list byte)
    (t d f t' d' f' : string) :
  wf_disk basedir disk ->
  is_name t = true -> is_name d = true -> is_name f = true ->
  is_name t' = true -> is_name d' = true -> is_name f' = true ->
  (t', d') <> (t, d) ->
  exists disk',
    FSFilesStore.persist_file basedir now disk (pathlib.join "/" [t'; d'; f']) buf =
      Ok disk' /\
    probe disk' (pathlib.join "/" [t; d; f]) = probe disk (pathlib.join "/" [t; d; f]).
Proof.
  intros Hwf Ht Hd Hf Ht' Hd' Hf' Hne.
  set (p := abs_path basedir [t'; d'; f']).
  exists (disk_write disk p (mkFile now buf)).
  split; [apply persist_file_stored; assumption|].
  assert (Hwf' : wf_disk basedir (disk_write disk p (mkFile now buf)))
    by (apply wf_disk_write; assumption).
  assert (Hdir : child_of (abs_path basedir [t; d]) p = None).
  { unfold p. rewrite child_of_abs. cbn [strip_prefix].
    destruct (String.eqb_spec t t') as [->|]; [|reflexivity].
    destruct (String.eqb_spec d d') as [->|]; [|reflexivity].
    contradiction Hne. reflexivity. }
  rewrite (stat_file_segments md5sum basedir _ t d f Hwf' Ht Hd Hf).
  rewrite (stat_file_segments md5sum basedir disk t d f Hwf Ht Hd Hf).
  unfold resolved_name. rewrite (listdir_write_elsewhere disk p _ _ Hdir).
  rewrite disk_lookup_write_ne; [reflexivity|].
  unfold p. intros E. apply abs_path_inj in E. apply Hne. congruence.
Qed.

End Isolation.

Lemma probe_ignores_other_directories_witness :
  exists disk',
    FSFilesStore.persist_file "data" 1704535620 example_disk
      "X/2024-01-06/abc123.doc" [x00] = Ok disk' /\
    QueridoDiarioFSFilesStore.stat_file example_md5sum "data" disk'
      "X/2024-01-05/abc123" =
    QueridoDiarioFSFilesStore.stat_file example_md5sum "data" example_disk
      "X/2024-01-05/abc123".
Proof.
  apply (probe_ignores_other_directories example_md5sum "data" example_disk 1704535620
           [x00] "X" "2024-01-05" "abc123" "X" "2024-01-06" "abc123.doc" example_disk_wf);
    first [reflexivity | discriminate].
Defined.

Section WhereFilesGo.

Context (super_file_path : Request -> string) (guess : list byte -> option Kind)
  (md5sum : list byte -> string) (basedir : string)
  (fetch : Request -> option Response) (expires : Z).

Hypothesis default_paths :
  forall r, pathlib.parts (pathlib.Path [super_file_path r]) <> [].

Hypothesis extensions :
  forall buf kind, guess buf = Some kind -> has_char "/" (extension kind) = false.

Local Abbreviation resolve :=
  (FilesPipeline.resolve super_file_path guess md5sum basedir fetch expires).
Local Abbreviation step :=
  (FilesPipeline._process_request super_file_path guess md5sum basedir fetch expires).
Local Abbreviation files_stage :=
  (FilesPipeline.process_item super_file_path guess md5sum basedir fetch expires).
Local Abbreviation content_stages :=
  (ITEM_PIPELINES.content_stages super_file_path guess md5sum basedir fetch expires).

(** The storage root [d'] holds the files of [d] and, besides, only files
    of the directory [<t>/<d>] of the root. *)
Local Abbreviation grown t dt d d' :=
  (disk_le d d' /\
   forall p, on_disk d' p ->
     on_disk d p \/ exists e, is_segment e = true /\ p = abs_path basedir [t; dt; e]).

Lemma grown_refl (t dt : string) (d : Disk) : grown t dt d d.
Proof. split; [apply disk_le_refl | intros p H; left; exact H]. Qed.

Lemma grown_trans (t dt : string) (a b c : Disk) :
  grown t dt a b -> grown t dt b c -> grown t dt a c.
Proof.
  intros [H1 H2] [H3 H4]. split; [eapply disk_le_trans; eassumption|].
  intros p Hp. destruct (H4 p Hp) as [Hb|He]; [exact (H2 p Hb) | right; exact He].
Qed.

Lemma resolve_grown (now : Z) (disk : Disk) (item : Item) (t dt : string) (r : Request) :
  keyed item t dt -> grown t dt disk (resolve now disk r item).2.
Proof.
  intros Hk. pose proof Hk as (Ht & Hd & Hts & Hds).
  unfold FilesPipeline.resolve.
  destruct (FilesPipeline.media_to_download _ _ _ _ _ _ _ _ _) as [[info|]|e];
    try apply grown_refl.
  destruct (fetch r) as [response|]; [|apply grown_refl].
  unfold FilesPipeline.media_downloaded.
  destruct (negb (resp_status response =? 200)%N); [apply grown_refl|].
  destruct (bool_decide (resp_body response = [])); [apply grown_refl|].
  assert (Hf : is_segment (QueridoDiarioFilesPipeline.file_name super_file_path guess r
                             (Some response)) = true)
    by (apply file_name_segment; [apply default_paths | exact extensions]).
  rewrite (file_path_segments super_file_path guess r (Some response) item t dt
             Ht Hd Hts Hds Hf).
  cbn [mbind result_bind]. unfold FSFilesStore.persist_file.
  rewrite (fs_path_segments basedir [t; dt; _])
    by (first [repeat constructor; assumption | discriminate]).
  destruct (file_on_the_way disk _); [apply grown_refl|].
  destruct (is_dir disk _); [apply grown_refl|].
  cbn [mbind result_bind snd].
  split; [apply disk_le_write|].
  intros p Hp. apply on_disk_write in Hp as [->|Hp]; [right | left; exact Hp].
  eexists. split; [exact Hf | reflexivity].
Qed.

Lemma step_grown (now : Z) (item : Item) (t dt : string)
    (acc : list (option FileInfo) * FilesPipeline.state) (r : Request) :
  keyed item t dt ->
  grown t dt (FilesPipeline.disk acc.2) (FilesPipeline.disk (step now item acc r).2).
Proof.
  intros Hk. destruct acc as [res st]. cbn [snd].
  unfold FilesPipeline._process_request.
  destruct (FilesPipeline.cached st r); [apply grown_refl|].
  pose proof (resolve_grown now (FilesPipeline.disk st) item t dt r Hk) as H.
  destruct (resolve now (FilesPipeline.disk st) r item) as [o d']. exact H.
Qed.

Lemma requests_grown (now : Z) (item : Item) (t dt : string) (reqs : list Request) :
  keyed item t dt ->
  forall acc,
    grown t dt (FilesPipeline.disk acc.2)
      (FilesPipeline.disk (fold_left (step now item) reqs acc).2).
Proof.
  intros Hk. induction reqs as [|r reqs IH]; intros acc; cbn [fold_left].
  - apply grown_refl.
  - eapply grown_trans; [apply step_grown, Hk | apply IH].
Qed.

Lemma files_stage_grown (now : Z) (item : Item) (t dt : string) (spider : Spider)
    (st : FilesPipeline.state) :
  keyed item t dt ->
  grown t dt (FilesPipeline.disk st) (FilesPipeline.disk (files_stage now item spider st).2).
Proof.
  intros Hk. unfold FilesPipeline.process_item.
  destruct (QueridoDiarioFilesPipeline.get_media_requests item spider) as [reqs|e];
    [|apply grown_refl].
  pose proof (requests_grown now item t dt reqs Hk ([], st)) as H.
  destruct (fold_left _ reqs ([], st)) as [results st']. exact H.
Qed.

(** X19. The stages before the sink delete no file, and every file they
    add to the storage root for an item lies in the directory
    [<territory id>/<date>] of the root, the date written as
    [YYYY-MM-DD]. *)
Theorem files_go_under_territory_and_date (utcnow : datetime) (now : Z) (item : Item)
    (spider : Spider) (st : FilesPipeline.state) (territory : string) (d : date) :
  TERRITORY_ID spider = Some territory -> is_segment territory = true ->
  scalars item !! "date" = Some (VDate d) -> valid_date d = true ->
  let disk := FilesPipeline.disk st in
  let disk' := FilesPipeline.disk (content_stages utcnow now item spider st).2 in
  (forall p, on_disk disk p -> on_disk disk' p) /\
  (forall p, on_disk disk' p ->
     on_disk disk p \/
     exists e, is_segment e = true /\
               p = abs_path basedir [territory; str (date_isoformat d); e]).
Proof.
  intros Ht Hts Hd Hv. cbv zeta. unfold ITEM_PIPELINES.content_stages.
  destruct (GazetteDateFilteringPipeline.process_item item spider) as [item0|e] eqn:Eg;
    [|apply grown_refl].
  assert (item0 = item) as ->.
  { unfold GazetteDateFilteringPipeline.process_item in Eg.
    destruct (start_date spider); [|congruence].
    destruct (GazetteDateFilteringPipeline.date_gt _ _) as [[|]|]; cbn in Eg; congruence. }
  rewrite (normalizer_result utcnow item spider territory (VDate d) Ht Hd).
  apply (files_stage_grown now _ territory (str (date_isoformat d))).
  repeat split.
  - rewrite !lookup_set_scalar. decide_keys. reflexivity.
  - rewrite !lookup_set_scalar. decide_keys. reflexivity.
  - exact Hts.
  - apply date_isoformat_segment, Hv.
Qed.

End WhereFilesGo.

Lemma files_go_under_territory_and_date_witness :
  let disk' :=
    FilesPipeline.disk
      (ITEM_PIPELINES.content_stages example_default_path guess_pdf example_md5sum "data"
         example_fetch 90 (mkDateTime (mkDate 2024 1 5) 10 7 0 250) 1704449220
         example_gazette example_spider (FilesPipeline.mkState example_disk [])).2 in
  (forall p, on_disk example_disk p -> on_disk disk' p) /\
  (forall p, on_disk disk' p ->
     on_disk example_disk p \/
     exists e, is_segment e = true /\ p = abs_path "data" ["3550308"; "2024-01-04"; e]).
Proof.
  assert (Hd : scalars example_gazette !! "date" = Some (VDate (mkDate 2024 1 4)))
    by (vm_compute; reflexivity).
  exact (files_go_under_territory_and_date example_default_path guess_pdf example_md5sum
           "data" example_fetch 90 (fun r => proj1 (example_default_paths r))
           guess_pdf_extension (mkDateTime (mkDate 2024 1 5) 10 7 0 250) 1704449220
           example_gazette example_spider (FilesPipeline.mkState example_disk [])
           "3550308" (mkDate 2024 1 4) eq_refl eq_refl Hd eq_refl).
Defined.

(** ** The mapper of Agape portals *)

Lemma is_prefix_spec (p : string) : forall s,
  is_prefix p s = true <-> exists rest, s = p +:+ rest.
Proof.
  induction p as [|c p IH]; intros s.
  - split; [intros _; exists s; reflexivity | intros _; reflexivity].
  - destruct s as [|x s]; cbn [is_prefix].
    + split; [discriminate | intros (rest & E); discriminate E].
    + rewrite andb_true_iff, Ascii.eqb_eq, IH. split.
      * intros (-> & rest & ->). exists rest. reflexivity.
      * intros (rest & E). rewrite sapp_cons in E. injection E as -> ->.
        split; [reflexivity | exists rest; reflexivity].
Qed.

Lemma contains_spec (needle : string) : forall text,
  contains needle text = true <-> occurs needle text.
Proof.
  induction text as [|c text IH]; cbn [contains]; rewrite orb_true_iff, is_prefix_spec.
  - split.
    + intros [(rest & E)|H]; [|discriminate]. exists "", rest. exact E.
    + intros ([|x before] & after & E); [left; exists after; exact E|].
      rewrite sapp_cons in E. discriminate E.
  - rewrite IH. split.
    + intros [(rest & E)|(before & after & E)].
      * exists "", rest. exact E.
      * exists (String c before), after. rewrite sapp_cons, E. reflexivity.
    + intros ([|x before] & after & E).
      * left. exists after. exact E.
      * right. rewrite sapp_cons in E. injection E as _ ->. exists before, after.
        reflexivity.
Qed.

Lemma occurs_in_context (needle text before after : string) :
  occurs needle text -> occurs needle (before +:+ text +:+ after).
Proof.
  intros (a & b & ->). exists (before +:+ a), (b +:+ after).
  rewrite !sapp_assoc. reflexivity.
Qed.

Lemma validation_occurs (text : string) :
  MapeadorAgape.validation text = true <->
  occurs "agapesistemas.com.br" text /\
  (occurs MapeadorAgape.item_div text \/ occurs "bandeira" text).
Proof.
  unfold MapeadorAgape.validation. rewrite <- !contains_spec.
  destruct (contains "agapesistemas.com.br" text),
    (contains MapeadorAgape.item_div text), (contains "bandeira" text); cbn;
    intuition discriminate.
Qed.

(** X20. A page is taken for an Agape portal exactly when its text holds
    the domain of the provider and one of the two marks of its gazette
    listing; the answer survives any text put before and after the
    page. *)
Theorem validation_contract (text : string) :
  (MapeadorAgape.validation text = true <->
   occurs "agapesistemas.com.br" text /\
   (occurs MapeadorAgape.item_div text \/ occurs "bandeira" text)) /\
  (forall before after,
     MapeadorAgape.validation text = true ->
     MapeadorAgape.validation (before +:+ text +:+ after) = true).
Proof.
  split; [apply validation_occurs|].
  intros before after H. apply validation_occurs in H as (Hd & Hm).
  apply validation_occurs. split; [apply occurs_in_context, Hd|].
  destruct Hm as [Hm|Hm]; [left | right]; apply occurs_in_context, Hm.
Qed.

Example validation_examples :
  MapeadorAgape.validation
    "<a href='https://agportal.agapesistemas.com.br/'><img class='bandeira'></a>" = true /\
  MapeadorAgape.validation
    ("<p>agapesistemas.com.br</p><" +:+ MapeadorAgape.item_div +:+ ">") = true /\
  MapeadorAgape.validation "<p>agapesistemas.com.br</p>" = false /\
  MapeadorAgape.validation "<img class='bandeira'>" = false /\
  MapeadorAgape.validation "AGAPESISTEMAS.COM.BR bandeira" = false.
Proof. repeat split. Qed.

(** X21. The mapper proposes one URL per city: it begins with the
    protocol, holds the domain that [validation] looks for, does not
    depend on the state code, and tells cities apart. *)
Theorem urls_pattern_contract (protocol city state_code : string) :
  exists url,
    MapeadorAgape.urls_pattern protocol city state_code = [url] /\
    (forall state_code', MapeadorAgape.urls_pattern protocol city state_code' = [url]) /\
    is_prefix protocol url = true /\
    contains "agapesistemas.com.br" url = true /\
    (forall city', MapeadorAgape.urls_pattern protocol city' state_code = [url] ->
                   city' = city).
Proof.
  eexists. split; [reflexivity|]. repeat split.
  - apply is_prefix_spec. eexists. reflexivity.
  - apply contains_spec.
    exists (protocol +:+ "://agportal."), ("/DiarioOficial/?alias=pm" +:+ city).
    rewrite !sapp_assoc. reflexivity.
  - intros city' H. unfold MapeadorAgape.urls_pattern in H. injection H as H.
    revert H. generalize "://agportal.agapesistemas.com.br/DiarioOficial/?alias=pm".
    intros mid H. induction protocol as [|c p IH].
    + rewrite !sapp_nil_l in H. induction mid as [|c m IHm].
      * rewrite !sapp_nil_l in H. exact H.
      * rewrite !sapp_cons in H. injection H as H. exact (IHm H).
    + rewrite !sapp_cons in H. injection H as H. exact (IH H).
Qed.

Example urls_pattern_example :
  MapeadorAgape.urls_pattern "https" "cumbe" "SE" =
  ["https://agportal.agapesistemas.com.br/DiarioOficial/?alias=pmcumbe"].
Proof. reflexivity. Qed.
